(** * ai_girlfriend_bot: affection state machine, short-term memory and
      knowledge integration

    A shallow embedding of
    - [src/affection_system.py]  (AffectionLevel, AffectionState,
      AffectionCalculator, AffectionSystem),
    - [src/memory_system.py]     (ConversationTurn, ShortTermMemory, Memory,
      MemoryExtractor, MemorySystem.get_user_profile),
    - [src/knowledge_system.py]  (LearnedInsight, KnowledgeImporter,
      KnowledgeIntegrator, KnowledgeSystem._count_by_type),
    followed by the properties of the specification proved (or refuted)
    against it.

    Modelling conventions
    - Python [float] is IEEE-754 binary64: Rocq's primitive [float], with the
      same rounding of decimal literals and of every operation.
    - Python [int] is unbounded: [Z].
    - [str] is a [string] holding the UTF-8 encoding of the text. UTF-8 is
      self-synchronising, so a keyword occurs in a text as a run of code
      points exactly when its encoding occurs as a run of bytes.
    - a naive [datetime] is the number of microseconds since
      0001-01-01T00:00:00, a [timedelta] a (signed) number of microseconds.
    - [datetime.now()] reads a clock the program does not control: the n-th
      read of a run returns [clock n].
    - objects held in a dictionary and mutated in place ([AffectionState])
      live in a store keyed by user id; a Python reference to such an object
      is its key, and a field read through the reference reads the store. *)

From Stdlib Require Import ZArith Lia Floats Ascii String.
From stdpp Require Import base option list gmap strings pretty.

Set Warnings "-inexact-float".
Local Open Scope Z_scope.

(** ** Python built-ins used by the sources *)

Module Py.

(** [float(n)] for an [int] n, as the mixed [int]/[float] arithmetic of the
    sources performs it: the nearest binary64 value, ties to even.  (CPython
    raises OverflowError from 2^1024 on, where this gives an infinity; the
    only producer of converted integers in the program is [timedelta.days],
    below 10^9 in absolute value, and keyword counts.) *)
Definition float_of_int (z : Z) : float :=
  SF2Prim (binary_normalize prec emax z 0 false).

(** [min(a, b)]: the first argument, unless the second is strictly smaller. *)
Definition min2 (a b : float) : float := if (b <? a)%float then b else a.

(** [max(a, b)]: the first argument, unless the second is strictly greater. *)
Definition max2 (a b : float) : float := if (a <? b)%float then b else a.

(** Truth value of an optional float: [None] and zero are false. *)
Definition truthy (x : option float) : bool :=
  match x with
  | None => false
  | Some r => negb (r =? 0)%float
  end.

(** [needle in hay] for two strings. *)
Fixpoint str_in (needle hay : string) : bool :=
  String.prefix needle hay ||
  match hay with
  | EmptyString => false
  | String _ rest => str_in needle rest
  end.

(** [sum(1 for word in words if word in message)] *)
Definition count_in (words : list string) (message : string) : Z :=
  Z.of_nat (length (filter (fun w => str_in w message = true) words)).

(** [sep.join(parts)] *)
Fixpoint join (sep : string) (parts : list string) : string :=
  match parts with
  | [] => ""
  | [p] => p
  | p :: rest => p +:+ sep +:+ join sep rest
  end.

(** [lst[start:]] for a possibly negative start index. *)
Definition slice_from {A} (start : Z) (l : list A) : list A :=
  if start <? 0
  then drop (Z.to_nat (Z.max 0 (Z.of_nat (length l) + start))) l
  else drop (Z.to_nat start) l.

(** [str.lower] restricted to texts whose cased letters are ASCII: the
    instance of the lowering function used to run the model. *)
Definition ascii_lower_char (c : ascii) : ascii :=
  let n := nat_of_ascii c in
  if (Nat.leb 65 n && Nat.leb n 90)%bool then ascii_of_nat (n + 32) else c.

Fixpoint ascii_lower (s : string) : string :=
  match s with
  | EmptyString => EmptyString
  | String c rest => String (ascii_lower_char c) (ascii_lower rest)
  end.

(** [len(s)]: the number of code points, that is of bytes that do not
    continue a UTF-8 sequence (10xxxxxx). *)
Definition is_continuation (c : ascii) : bool :=
  let n := nat_of_ascii c in (Nat.leb 128 n && Nat.ltb n 192)%bool.

Fixpoint len (s : string) : Z :=
  match s with
  | EmptyString => 0
  | String c rest => (if is_continuation c then 0 else 1) + len rest
  end.

(** [s.startswith(prefix)] and [s.endswith(suffix)] *)
Definition startswith (s prefix : string) : bool := String.prefix prefix s.

Fixpoint endswith (s suffix : string) : bool :=
  String.eqb s suffix ||
  match s with
  | EmptyString => false
  | String _ rest => endswith rest suffix
  end.

(** [s.split(sep)] for a non-empty separator: the pieces between the
    occurrences of [sep], found from the left without overlap. [skip] counts
    the bytes of an occurrence still to pass, [piece] is the piece so far. *)
Fixpoint split_from (sep : string) (skip : nat) (piece s : string) : list string :=
  match s with
  | EmptyString => [piece]
  | String c rest =>
      match skip with
      | S k => split_from sep k piece rest
      | O =>
          if String.prefix sep s
          then piece :: split_from sep (String.length sep - 1) EmptyString rest
          else split_from sep 0 (piece +:+ String c EmptyString) rest
      end
  end.

Definition split (sep s : string) : list string := split_from sep 0 EmptyString s.

(** [s.replace(old, new)] for a non-empty [old]. *)
Definition replace (old new s : string) : string := join new (split old s).

(** The line feed and the double quote as one-character strings. *)
Definition newline : string := String (ascii_of_nat 10) EmptyString.
Definition double_quote : string := String (ascii_of_nat 34) EmptyString.

(** [str.strip] restricted to texts whose white space is ASCII: the instance
    of the stripping function used to run the model. *)
Definition is_ascii_space (c : ascii) : bool :=
  let n := nat_of_ascii c in
  (Nat.eqb n 32 || (Nat.leb 9 n && Nat.leb n 13))%bool.

Fixpoint lstrip (s : string) : string :=
  match s with
  | EmptyString => EmptyString
  | String c rest => if is_ascii_space c then lstrip rest else s
  end.

Fixpoint rstrip (s : string) : string :=
  match s with
  | EmptyString => EmptyString
  | String c rest =>
      match rstrip rest with
      | EmptyString => if is_ascii_space c then EmptyString else String c EmptyString
      | kept => String c kept
      end
  end.

Definition ascii_strip (s : string) : string := rstrip (lstrip s).

End Py.

(** ** Dates and durations *)

Module Datetime.

Definition datetime := Z.
Definition timedelta := Z.

Definition us_per_second : Z := 1000000.
Definition us_per_day : Z := 86400 * us_per_second.

(** [timedelta(minutes=m)] *)
Definition minutes (m : Z) : timedelta := m * 60 * us_per_second.

(** [td.days]: the normalised day count, rounding towards minus infinity. *)
Definition days (td : timedelta) : Z := td / us_per_day.

(** [td.seconds]: the normalised seconds field, in [0, 86400). *)
Definition seconds (td : timedelta) : Z := (td mod us_per_day) / us_per_second.

(** [dt.hour] *)
Definition hour (dt : datetime) : Z := (dt / (3600 * us_per_second)) mod 24.

End Datetime.

(** ** AffectionLevel *)

Module AffectionLevel.

Inductive t :=
  STRANGER | ACQUAINTANCE | FRIEND | CLOSE_FRIEND | CRUSH | LOVER | SOULMATE.

Definition levels : list t :=
  [STRANGER; ACQUAINTANCE; FRIEND; CLOSE_FRIEND; CRUSH; LOVER; SOULMATE].

#[global] Instance eq_dec : EqDecision t.
Proof. solve_decision. Defined.

Definition min_val (l : t) : Z :=
  match l with
  | STRANGER => 0 | ACQUAINTANCE => 10 | FRIEND => 30 | CLOSE_FRIEND => 50
  | CRUSH => 70 | LOVER => 85 | SOULMATE => 95
  end.

Definition max_val (l : t) : Z :=
  match l with
  | STRANGER => 10 | ACQUAINTANCE => 30 | FRIEND => 50 | CLOSE_FRIEND => 70
  | CRUSH => 85 | LOVER => 95 | SOULMATE => 100
  end.

Definition level_name (l : t) : string :=
  match l with
  | STRANGER => "見知らぬ人" | ACQUAINTANCE => "知り合い" | FRIEND => "友達"
  | CLOSE_FRIEND => "親友" | CRUSH => "片思い" | LOVER => "恋人"
  | SOULMATE => "ソウルメイト"
  end.

Definition greeting (l : t) : string :=
  match l with
  | STRANGER => "こんにちは、あなたは誰ですか？"
  | ACQUAINTANCE => "やあ、最近どう？"
  | FRIEND => "今日は何を話そうか？"
  | CLOSE_FRIEND => "ちょうどあなたのことを考えていたところだよ～"
  | CRUSH => "あなたと話すのは本当に楽しいです"
  | LOVER => "会いたくなっちゃった、何してるの？"
  | SOULMATE => "何があっても、私はあなたのそばにいるよ"
  end.

Definition in_band (score : float) (l : t) : bool :=
  ((Py.float_of_int (min_val l) <=? score) &&
   (score <? Py.float_of_int (max_val l)))%float.

(** [get_level]: the first band holding the score, else SOULMATE from 100
    on and STRANGER otherwise. *)
Definition get_level (score : float) : t :=
  match List.find (in_band score) levels with
  | Some l => l
  | None => if (100 <=? score)%float then SOULMATE else STRANGER
  end.

End AffectionLevel.

(** ** AffectionCalculator *)

Module AffectionCalculator.

Definition BASE_MESSAGE : float := 0.1.

Definition POSITIVE_FACTORS : gmap string float :=
  list_to_map
    [ ("compliment", 2.0); ("gift", 5.0); ("remember_detail", 3.0);
      ("share_feeling", 1.5); ("ask_about_day", 1.0);
      ("good_morning_night", 1.5); ("initiate_conversation", 1.0);
      ("quick_response", 0.5); ("long_conversation", 2.0);
      ("use_nickname", 1.0); ("apologize", 2.0); ("keep_promise", 3.0) ]%float.

Definition NEGATIVE_FACTORS : gmap string float :=
  list_to_map
    [ ("ignore", -3.0); ("forget_important", -4.0);
      ("mention_other_girl", -5.0); ("rude", -5.0); ("lie", -8.0);
      ("break_promise", -6.0); ("late_response_hours", -0.5);
      ("one_word_reply", -0.5); ("insult", -10.0); ("pressure", -3.0) ]%float.

Definition DECAY_RATE : float := 0.3.
Definition DECAY_THRESHOLD_DAYS : Z := 2.

(** The [context] dictionary. Its values are the integers [update] and
    [_apply_decay] store in it; [None] and the empty dictionary coincide
    ([context or {}]), and [context.get(key, 0)] is [ctx_get]. *)
Definition ctx_get (context : gmap string Z) (key : string) : Z :=
  default 0 (context !! key).

(** The [if]/[elif] chain of lines 117-151: the change before clamping. *)
Definition change_before_clamp
  (action : string) (current_score : float) (context : gmap string Z) : float :=
  match POSITIVE_FACTORS !! action with
  | Some factor =>
      let change := factor in
      let change :=
        if (80 <? current_score)%float then (change * 0.7)%float
        else if (60 <? current_score)%float then (change * 0.85)%float
        else change in
      let consecutive := ctx_get context "consecutive_positive" in
      if 3 <? consecutive then (change * 1.2)%float else change
  | None =>
      match NEGATIVE_FACTORS !! action with
      | Some factor =>
          let change := factor in
          let change :=
            if (current_score <? 30)%float then (change * 1.3)%float
            else change in
          let consecutive := ctx_get context "consecutive_negative" in
          if 2 <? consecutive then (change * 1.3)%float else change
      | None =>
          if String.eqb action "decay" then
            let days_inactive := ctx_get context "days_inactive" in
            if DECAY_THRESHOLD_DAYS <=? days_inactive then
              (- DECAY_RATE *
               Py.float_of_int (days_inactive - DECAY_THRESHOLD_DAYS + 1))%float
            else 0%float
          else 0%float
      end
  end.

Definition calculate_change
  (action : string) (current_score : float) (context : gmap string Z) : float :=
  let change := change_before_clamp action current_score context in
  let new_score := Py.max2 0 (Py.min2 100 (current_score + change)) in
  let actual_change := (new_score - current_score)%float in
  actual_change.

Definition positive_words : list string :=
  [ "綺麗"; "可愛い"; "賢い"; "優しい"; "親切"; "好き"; "愛"; "想"; "良い";
    "素晴らしい"; "優秀"; "すごい"; "ありがとう"; "感謝"; "嬉しい"; "幸せ";
    "素敵"; "miss"; "love"; "like"; "beautiful"; "cute"; "smart"; "thanks";
    "happy"; "glad"; "wonderful"; "amazing"; "great"; "good" ].

Definition negative_words : list string :=
  [ "醜い"; "バカ"; "馬鹿"; "嫌い"; "憎い"; "出て行け"; "うるさい"; "悪い";
    "ダメ"; "愚か"; "つまらない"; "気持ち悪い"; "失望"; "怒り"; "憤り";
    "悲しい"; "hate"; "stupid"; "ugly"; "boring"; "annoying"; "bad";
    "terrible"; "awful"; "disappointed"; "angry" ].

Definition other_girl_words : list string :=
  [ "他の女の子"; "別の女の子"; "彼女"; "元カノ"; "ex"; "other girl" ].

Section Sentiment.

(** [str.lower], Unicode case folding of the whole text. *)
Variable str_lower : string -> string.

Definition analyze_message_sentiment (message : string) : string * float :=
  let message := str_lower message in
  let positive_count := Py.count_in positive_words message in
  let negative_count := Py.count_in negative_words message in
  let other_girl_count := Py.count_in other_girl_words message in
  if 0 <? other_girl_count then ("mention_other_girl", (-5.0)%float)
  else if negative_count <? positive_count then
    ("compliment", Py.min2 2.0 (Py.float_of_int positive_count * 0.5))
  else if positive_count <? negative_count then
    ("rude", Py.max2 (-5.0) (Py.float_of_int (- negative_count) * 1.0))
  else ("neutral", 0.0%float).

End Sentiment.

End AffectionCalculator.

(** ** AffectionState *)

Module AffectionState.

(** An entry of [special_events]; [date] is the instant whose ISO-8601 text
    the source stores. *)
Record SpecialEvent := {
  event_type : string;
  description : string;
  date : Datetime.datetime;
}.

Record t := {
  user_id : string;
  score : float;
  last_interaction : Datetime.datetime;
  interaction_count : Z;
  consecutive_positive : Z;
  consecutive_negative : Z;
  current_mood : string;
  mood_intensity : float;
  mood_reason : string;
  is_ignoring : bool;
  ignore_until : option Datetime.datetime;
  special_events : list SpecialEvent;
  total_messages : Z;
  positive_interactions : Z;
  negative_interactions : Z;
  gifts_received : Z;
  dates_had : Z;
}.

(** [AffectionState(user_id=user_id)]: the dataclass defaults; [now] is the
    clock read of the [last_interaction] default factory. *)
Definition new (user_id : string) (now : Datetime.datetime) : t := {|
  user_id := user_id;
  score := 20.0;
  last_interaction := now;
  interaction_count := 0;
  consecutive_positive := 0;
  consecutive_negative := 0;
  current_mood := "neutral";
  mood_intensity := 0.5;
  mood_reason := "";
  is_ignoring := false;
  ignore_until := None;
  special_events := [];
  total_messages := 0;
  positive_interactions := 0;
  negative_interactions := 0;
  gifts_received := 0;
  dates_had := 0;
|}.

(** Field assignments [state.f = v]. *)
Definition set_score (v : float) (st : t) : t := {|
  user_id := user_id st;
  score := v;
  last_interaction := last_interaction st;
  interaction_count := interaction_count st;
  consecutive_positive := consecutive_positive st;
  consecutive_negative := consecutive_negative st;
  current_mood := current_mood st;
  mood_intensity := mood_intensity st;
  mood_reason := mood_reason st;
  is_ignoring := is_ignoring st;
  ignore_until := ignore_until st;
  special_events := special_events st;
  total_messages := total_messages st;
  positive_interactions := positive_interactions st;
  negative_interactions := negative_interactions st;
  gifts_received := gifts_received st;
  dates_had := dates_had st;
|}.

Definition set_last_interaction (v : Datetime.datetime) (st : t) : t := {|
  user_id := user_id st;
  score := score st;
  last_interaction := v;
  interaction_count := interaction_count st;
  consecutive_positive := consecutive_positive st;
  consecutive_negative := consecutive_negative st;
  current_mood := current_mood st;
  mood_intensity := mood_intensity st;
  mood_reason := mood_reason st;
  is_ignoring := is_ignoring st;
  ignore_until := ignore_until st;
  special_events := special_events st;
  total_messages := total_messages st;
  positive_interactions := positive_interactions st;
  negative_interactions := negative_interactions st;
  gifts_received := gifts_received st;
  dates_had := dates_had st;
|}.

Definition set_interaction_count (v : Z) (st : t) : t := {|
  user_id := user_id st;
  score := score st;
  last_interaction := last_interaction st;
  interaction_count := v;
  consecutive_positive := consecutive_positive st;
  consecutive_negative := consecutive_negative st;
  current_mood := current_mood st;
  mood_intensity := mood_intensity st;
  mood_reason := mood_reason st;
  is_ignoring := is_ignoring st;
  ignore_until := ignore_until st;
  special_events := special_events st;
  total_messages := total_messages st;
  positive_interactions := positive_interactions st;
  negative_interactions := negative_interactions st;
  gifts_received := gifts_received st;
  dates_had := dates_had st;
|}.

Definition set_consecutive_positive (v : Z) (st : t) : t := {|
  user_id := user_id st;
  score := score st;
  last_interaction := last_interaction st;
  interaction_count := interaction_count st;
  consecutive_positive := v;
  consecutive_negative := consecutive_negative st;
  current_mood := current_mood st;
  mood_intensity := mood_intensity st;
  mood_reason := mood_reason st;
  is_ignoring := is_ignoring st;
  ignore_until := ignore_until st;
  special_events := special_events st;
  total_messages := total_messages st;
  positive_interactions := positive_interactions st;
  negative_interactions := negative_interactions st;
  gifts_received := gifts_received st;
  dates_had := dates_had st;
|}.

Definition set_consecutive_negative (v : Z) (st : t) : t := {|
  user_id := user_id st;
  score := score st;
  last_interaction := last_interaction st;
  interaction_count := interaction_count st;
  consecutive_positive := consecutive_positive st;
  consecutive_negative := v;
  current_mood := current_mood st;
  mood_intensity := mood_intensity st;
  mood_reason := mood_reason st;
  is_ignoring := is_ignoring st;
  ignore_until := ignore_until st;
  special_events := special_events st;
  total_messages := total_messages st;
  positive_interactions := positive_interactions st;
  negative_interactions := negative_interactions st;
  gifts_received := gifts_received st;
  dates_had := dates_had st;
|}.

Definition set_current_mood (v : string) (st : t) : t := {|
  user_id := user_id st;
  score := score st;
  last_interaction := last_interaction st;
  interaction_count := interaction_count st;
  consecutive_positive := consecutive_positive st;
  consecutive_negative := consecutive_negative st;
  current_mood := v;
  mood_intensity := mood_intensity st;
  mood_reason := mood_reason st;
  is_ignoring := is_ignoring st;
  ignore_until := ignore_until st;
  special_events := special_events st;
  total_messages := total_messages st;
  positive_interactions := positive_interactions st;
  negative_interactions := negative_interactions st;
  gifts_received := gifts_received st;
  dates_had := dates_had st;
|}.

Definition set_mood_intensity (v : float) (st : t) : t := {|
  user_id := user_id st;
  score := score st;
  last_interaction := last_interaction st;
  interaction_count := interaction_count st;
  consecutive_positive := consecutive_positive st;
  consecutive_negative := consecutive_negative st;
  current_mood := current_mood st;
  mood_intensity := v;
  mood_reason := mood_reason st;
  is_ignoring := is_ignoring st;
  ignore_until := ignore_until st;
  special_events := special_events st;
  total_messages := total_messages st;
  positive_interactions := positive_interactions st;
  negative_interactions := negative_interactions st;
  gifts_received := gifts_received st;
  dates_had := dates_had st;
|}.

Definition set_mood_reason (v : string) (st : t) : t := {|
  user_id := user_id st;
  score := score st;
  last_interaction := last_interaction st;
  interaction_count := interaction_count st;
  consecutive_positive := consecutive_positive st;
  consecutive_negative := consecutive_negative st;
  current_mood := current_mood st;
  mood_intensity := mood_intensity st;
  mood_reason := v;
  is_ignoring := is_ignoring st;
  ignore_until := ignore_until st;
  special_events := special_events st;
  total_messages := total_messages st;
  positive_interactions := positive_interactions st;
  negative_interactions := negative_interactions st;
  gifts_received := gifts_received st;
  dates_had := dates_had st;
|}.

Definition set_is_ignoring (v : bool) (st : t) : t := {|
  user_id := user_id st;
  score := score st;
  last_interaction := last_interaction st;
  interaction_count := interaction_count st;
  consecutive_positive := consecutive_positive st;
  consecutive_negative := consecutive_negative st;
  current_mood := current_mood st;
  mood_intensity := mood_intensity st;
  mood_reason := mood_reason st;
  is_ignoring := v;
  ignore_until := ignore_until st;
  special_events := special_events st;
  total_messages := total_messages st;
  positive_interactions := positive_interactions st;
  negative_interactions := negative_interactions st;
  gifts_received := gifts_received st;
  dates_had := dates_had st;
|}.

Definition set_ignore_until (v : option Datetime.datetime) (st : t) : t := {|
  user_id := user_id st;
  score := score st;
  last_interaction := last_interaction st;
  interaction_count := interaction_count st;
  consecutive_positive := consecutive_positive st;
  consecutive_negative := consecutive_negative st;
  current_mood := current_mood st;
  mood_intensity := mood_intensity st;
  mood_reason := mood_reason st;
  is_ignoring := is_ignoring st;
  ignore_until := v;
  special_events := special_events st;
  total_messages := total_messages st;
  positive_interactions := positive_interactions st;
  negative_interactions := negative_interactions st;
  gifts_received := gifts_received st;
  dates_had := dates_had st;
|}.

Definition set_special_events (v : list SpecialEvent) (st : t) : t := {|
  user_id := user_id st;
  score := score st;
  last_interaction := last_interaction st;
  interaction_count := interaction_count st;
  consecutive_positive := consecutive_positive st;
  consecutive_negative := consecutive_negative st;
  current_mood := current_mood st;
  mood_intensity := mood_intensity st;
  mood_reason := mood_reason st;
  is_ignoring := is_ignoring st;
  ignore_until := ignore_until st;
  special_events := v;
  total_messages := total_messages st;
  positive_interactions := positive_interactions st;
  negative_interactions := negative_interactions st;
  gifts_received := gifts_received st;
  dates_had := dates_had st;
|}.

Definition set_total_messages (v : Z) (st : t) : t := {|
  user_id := user_id st;
  score := score st;
  last_interaction := last_interaction st;
  interaction_count := interaction_count st;
  consecutive_positive := consecutive_positive st;
  consecutive_negative := consecutive_negative st;
  current_mood := current_mood st;
  mood_intensity := mood_intensity st;
  mood_reason := mood_reason st;
  is_ignoring := is_ignoring st;
  ignore_until := ignore_until st;
  special_events := special_events st;
  total_messages := v;
  positive_interactions := positive_interactions st;
  negative_interactions := negative_interactions st;
  gifts_received := gifts_received st;
  dates_had := dates_had st;
|}.

Definition set_positive_interactions (v : Z) (st : t) : t := {|
  user_id := user_id st;
  score := score st;
  last_interaction := last_interaction st;
  interaction_count := interaction_count st;
  consecutive_positive := consecutive_positive st;
  consecutive_negative := consecutive_negative st;
  current_mood := current_mood st;
  mood_intensity := mood_intensity st;
  mood_reason := mood_reason st;
  is_ignoring := is_ignoring st;
  ignore_until := ignore_until st;
  special_events := special_events st;
  total_messages := total_messages st;
  positive_interactions := v;
  negative_interactions := negative_interactions st;
  gifts_received := gifts_received st;
  dates_had := dates_had st;
|}.

Definition set_negative_interactions (v : Z) (st : t) : t := {|
  user_id := user_id st;
  score := score st;
  last_interaction := last_interaction st;
  interaction_count := interaction_count st;
  consecutive_positive := consecutive_positive st;
  consecutive_negative := consecutive_negative st;
  current_mood := current_mood st;
  mood_intensity := mood_intensity st;
  mood_reason := mood_reason st;
  is_ignoring := is_ignoring st;
  ignore_until := ignore_until st;
  special_events := special_events st;
  total_messages := total_messages st;
  positive_interactions := positive_interactions st;
  negative_interactions := v;
  gifts_received := gifts_received st;
  dates_had := dates_had st;
|}.

Definition set_gifts_received (v : Z) (st : t) : t := {|
  user_id := user_id st;
  score := score st;
  last_interaction := last_interaction st;
  interaction_count := interaction_count st;
  consecutive_positive := consecutive_positive st;
  consecutive_negative := consecutive_negative st;
  current_mood := current_mood st;
  mood_intensity := mood_intensity st;
  mood_reason := mood_reason st;
  is_ignoring := is_ignoring st;
  ignore_until := ignore_until st;
  special_events := special_events st;
  total_messages := total_messages st;
  positive_interactions := positive_interactions st;
  negative_interactions := negative_interactions st;
  gifts_received := v;
  dates_had := dates_had st;
|}.

#[global] Instance inhabited : Inhabited t := populate (new "" 0).

End AffectionState.

(** ** State-passing methods *)

Module StateMonad.

(** A method with mutable state [S] and result [A]. *)
Definition State (S A : Type) : Type := S -> A * S.

Definition ret {S A} (a : A) : State S A := fun s => (a, s).

Definition bind {S A B} (m : State S A) (k : A -> State S B) : State S B :=
  fun s => let (a, s') := m s in k a s'.

(** [for x in xs: body(x)] *)
Fixpoint for_each {S A B} (xs : list A) (body : A -> State S B) : State S unit :=
  match xs with
  | [] => ret tt
  | x :: rest => bind (body x) (fun _ => for_each rest body)
  end.

End StateMonad.

Notation "'let*' x ':=' m 'in' k" := (StateMonad.bind m (fun x => k))
  (at level 10, x name, m at level 100, k at level 200).
Notation "m ';;' k" := (StateMonad.bind m (fun _ => k))
  (at level 100, k at level 200, right associativity).

(** ** AffectionSystem *)

Module AffectionSystem.

Import StateMonad AffectionState.

(** The state of a running [AffectionSystem]: the [_states] dictionary and
    the number of clock reads made so far. [update_calls] is a ghost trace of
    the [update] invocations, oldest first, as (user id, action).
    [_save_states] only writes a snapshot of [_states] to disk and swallows
    every error, so it leaves this state as it is. *)
Record System := {
  states : gmap string AffectionState.t;
  clock_reads : nat;
  update_calls : list (string * string);
}.

(** [AffectionSystem(data_dir)] on a directory without a states file. *)
Definition init : System :=
  {| states := ∅; clock_reads := 0; update_calls := [] |}.

Definition M : Type -> Type := State System.

(** A reference to an [AffectionState] held in [_states]: its key. Every
    reference comes from [get_state], so the key is bound. *)
Definition ref := string.

(** What the statements of a method body see of one object: its fields and
    the clock. *)
Record Focus := {
  this : AffectionState.t;
  reads : nat;
}.

Definition Obj : Type -> Type := State Focus.

(** [state.field] *)
Definition read {A} (field : AffectionState.t -> A) : Obj A :=
  fun o => (field (this o), o).

(** [state.field = v], as the setter of the field. *)
Definition assign (setter : AffectionState.t -> AffectionState.t) : Obj unit :=
  fun o => (tt, {| this := setter (this o); reads := reads o |}).

(** Statements run on the object behind a reference: they read and write the
    stored object itself, so every holder of the reference sees the writes. *)
Definition on_object {A} (r : ref) (body : Obj A) : M A :=
  fun s =>
    let (a, o) := body {| this := states s !!! r; reads := clock_reads s |} in
    (a, {| states := <[r := this o]> (states s);
           clock_reads := reads o;
           update_calls := update_calls s |}).

Definition deref (r : ref) : M AffectionState.t := on_object r (read id).

Definition mutate (r : ref) (setter : AffectionState.t -> AffectionState.t)
  : M unit :=
  on_object r (assign setter).

Definition trace_update (user_id action : string) : M unit :=
  fun s => (tt, {| states := states s;
                   clock_reads := clock_reads s;
                   update_calls := update_calls s ++ [(user_id, action)] |}).

(** The text returned while sulking, for the remaining whole minutes. *)
Definition still_angry (remaining_minutes : Z) : string :=
  "まだ怒ってる...（残り" +:+ pretty remaining_minutes +:+ "分）".

Definition _generate_feedback (old_score new_score : float) (action : string)
  : string :=
  let change := (new_score - old_score)%float in
  if (3 <? change)%float then "好感度が大幅に上昇！"
  else if (1 <? change)%float then "好感度が上がった～"
  else if (0 <? change)%float then "好感度が少し上昇"
  else if (change <? -3)%float then "好感度が大幅に下降..."
  else if (change <? -1)%float then "好感度が下がった"
  else if (change <? 0)%float then "好感度が少し下降"
  else "".

Definition mem (x : string) (l : list string) : bool := bool_decide (x ∈ l).

Definition _generate_interaction_feedback
  (state : AffectionState.t) (actions : list string) : string :=
  match actions with
  | [] => ""
  | _ =>
      let feedbacks :=
        (if mem "compliment" actions
         then ["そう言ってもらえて、すごく嬉しいな～"] else []) ++
        (if mem "mention_other_girl" actions then ["（少し不機嫌そう）"] else []) ++
        (if mem "rude" actions then ["（少し悲しそう）"] else []) ++
        (if mem "good_morning_night" actions then ["気が利くね～"] else []) ++
        (if mem "quick_response" actions then ["返信が早いね！"] else []) in
      Py.join " " feedbacks
  end.

(** [_get_next_level]: the name of the level after [current_level] in the
    order of the enumeration, [None] for the last one. ([list.index] raises
    for a value that is not in the list, which no level is.) *)
Definition _get_next_level (current_level : AffectionLevel.t) : option string :=
  match list_find (fun l => l = current_level) AffectionLevel.levels with
  | Some (current_index, _) =>
      if (current_index <? length AffectionLevel.levels - 1)%nat
      then AffectionLevel.level_name <$>
             AffectionLevel.levels !! (current_index + 1)%nat
      else None
  | None => None
  end.

Section Methods.

(** [str.lower] and the clock behind [datetime.now()]. *)
Variable str_lower : string -> string.
Variable clock : nat -> Datetime.datetime.

(** [datetime.now()], inside a method body and outside. *)
Definition now : Obj Datetime.datetime :=
  fun o => (clock (reads o), {| this := this o; reads := S (reads o) |}).

Definition datetime_now : M Datetime.datetime :=
  fun s => (clock (clock_reads s),
            {| states := states s;
               clock_reads := S (clock_reads s);
               update_calls := update_calls s |}).

(** [get_state]: the record of the user, created with the defaults on first
    access. The result is the reference to the stored object. *)
Definition get_state (user_id : string) : M ref :=
  fun s =>
    match states s !! user_id with
    | Some _ => (user_id, s)
    | None =>
        let (t, s1) := datetime_now s in
        (user_id,
         {| states := <[user_id := AffectionState.new user_id t]> (states s1);
            clock_reads := clock_reads s1;
            update_calls := update_calls s1 |})
    end.

Definition get_level (user_id : string) : M AffectionLevel.t :=
  let* state := get_state user_id in
  let* st := deref state in
  ret (AffectionLevel.get_level (score st)).

(** Lines 271-314 of [update], on the object [state] refers to. *)
Definition update_body (action : string) (context : gmap string Z)
  : Obj (float * string) :=
  let* ignoring := read is_ignoring in
  let* until := read ignore_until in
  let* sulking :=
    match ignoring, until with
    | true, Some until =>
        let* t := now in
        if t <? until then ret (Some until)
        else
          assign (set_is_ignoring false) ;;
          assign (set_ignore_until None) ;;
          ret None
    | _, _ => ret None
    end in
  match sulking with
  | Some until =>
      let* current := read score in
      let* t := now in
      ret (current, still_angry (Datetime.seconds (until - t) / 60))
  | None =>
      let* positive := read consecutive_positive in
      let context := <["consecutive_positive" := positive]> context in
      let* negative := read consecutive_negative in
      let context := <["consecutive_negative" := negative]> context in
      let* current := read score in
      let change := AffectionCalculator.calculate_change action current context in
      let old_score := current in
      assign (set_score (Py.max2 0 (Py.min2 100 (current + change)))) ;;
      let* t := now in
      assign (set_last_interaction t) ;;
      let* n := read interaction_count in
      assign (set_interaction_count (n + 1)) ;;
      let* n := read total_messages in
      assign (set_total_messages (n + 1)) ;;
      (if (0 <? change)%float then
         let* n := read consecutive_positive in
         assign (set_consecutive_positive (n + 1)) ;;
         assign (set_consecutive_negative 0) ;;
         let* n := read positive_interactions in
         assign (set_positive_interactions (n + 1))
       else if (change <? 0)%float then
         let* n := read consecutive_negative in
         assign (set_consecutive_negative (n + 1)) ;;
         assign (set_consecutive_positive 0) ;;
         let* n := read negative_interactions in
         assign (set_negative_interactions (n + 1)) ;;
         let* current := read score in
         if ((change <=? -5) && (current <? 50))%float then
           assign (set_is_ignoring true) ;;
           let* t := now in
           assign (set_ignore_until (Some (t + Datetime.minutes 30)))
         else ret tt
       else ret tt) ;;
      let* current := read score in
      let feedback := _generate_feedback old_score current action in
      let* current := read score in
      ret (current, feedback)
  end.

Definition update (user_id action : string) (context : gmap string Z)
  : M (float * string) :=
  trace_update user_id action ;;
  let* state := get_state user_id in
  on_object state (update_body action context).

Definition _apply_decay (user_id : string) : M unit :=
  let* state := get_state user_id in
  let* t := datetime_now in
  let* st := deref state in
  let days_inactive := Datetime.days (t - last_interaction st) in
  if AffectionCalculator.DECAY_THRESHOLD_DAYS <=? days_inactive then
    update user_id "decay" (<["days_inactive" := days_inactive]> ∅) ;; ret tt
  else ret tt.

(** [process_message]. The local [total_change] of lines 346-349 is never
    read and is left out. *)
Definition process_message
  (user_id message : string) (response_time_seconds : option float)
  : M (float * string * list string) :=
  let* state := get_state user_id in
  let triggered_actions : list string := [] in
  let '(sentiment_action, sentiment_score) :=
    AffectionCalculator.analyze_message_sentiment str_lower message in
  let triggered_actions :=
    if negb (String.eqb sentiment_action "neutral")
    then triggered_actions ++ [sentiment_action] else triggered_actions in
  let* t := datetime_now in
  let hour := Datetime.hour t in
  let triggered_actions :=
    if Py.str_in "おはよう" message || Py.str_in "お早う" message then
      if (5 <=? hour) && (hour <=? 10)
      then triggered_actions ++ ["good_morning_night"] else triggered_actions
    else if Py.str_in "おやすみ" message || Py.str_in "お休み" message then
      if (20 <=? hour) && (hour <=? 24)
      then triggered_actions ++ ["good_morning_night"] else triggered_actions
    else triggered_actions in
  let triggered_actions :=
    if Py.truthy response_time_seconds &&
       (default 0 response_time_seconds <? 60)%float
    then triggered_actions ++ ["quick_response"] else triggered_actions in
  for_each triggered_actions (fun action => update user_id action ∅) ;;
  (match triggered_actions with
   | [] => update user_id "base_message" ∅ ;; ret tt
   | _ => ret tt
   end) ;;
  _apply_decay user_id ;;
  let* st := deref state in
  let feedback := _generate_interaction_feedback st triggered_actions in
  let* st := deref state in
  ret (score st, feedback, triggered_actions).

Definition set_mood (user_id mood : string) (intensity : float) (reason : string)
  : M unit :=
  let* state := get_state user_id in
  mutate state (set_current_mood mood) ;;
  mutate state (set_mood_intensity (Py.max2 0 (Py.min2 1 intensity))) ;;
  mutate state (set_mood_reason reason).

Definition add_special_event (user_id event_type description : string) : M unit :=
  let* state := get_state user_id in
  let* t := datetime_now in
  let event := {| AffectionState.event_type := event_type;
                  AffectionState.description := description;
                  AffectionState.date := t |} in
  mutate state (fun st => set_special_events (special_events st ++ [event]) st) ;;
  if String.eqb event_type "first_date" then
    update user_id "date" (<["bonus" := 10]> ∅) ;; ret tt
  else if String.eqb event_type "anniversary" then
    update user_id "anniversary" (<["bonus" := 15]> ∅) ;; ret tt
  else if String.eqb event_type "gift" then
    mutate state (fun st => set_gifts_received (gifts_received st + 1) st) ;;
    update user_id "gift" ∅ ;; ret tt
  else ret tt.

(** [get_affection_hint_for_prompt] *)
Definition get_affection_hint_for_prompt (user_id : string) : M string :=
  let* state := get_state user_id in
  let* level := get_level user_id in
  let hints : list string := [] in
  let hints :=
    match level with
    | AffectionLevel.STRANGER =>
        hints ++ ["まだ知り合ったばかりなので、礼儀正しく友好的に接する"]
    | AffectionLevel.ACQUAINTANCE =>
        hints ++ ["少しずつ親しくなってきたので、少しリラックスできる"]
    | AffectionLevel.FRIEND =>
        hints ++ ["親友なので、もっと個人的な考えを共有できる"]
    | AffectionLevel.CLOSE_FRIEND =>
        hints ++ ["関係が良いので、甘えたり冗談を言ったりできる"]
    | AffectionLevel.CRUSH =>
        hints ++ ["あなたに好意を持っているので、時々恥ずかしがったり暗示したりする"]
    | AffectionLevel.LOVER =>
        hints ++ ["恋愛関係なので、愛情や思いを表現できる"]
    | AffectionLevel.SOULMATE =>
        hints ++ ["ソウルメイトなので、深く愛し合い、無条件で支え合う"]
    end in
  let* st := deref state in
  let hints :=
    if String.eqb (current_mood st) "happy" then
      hints ++ ["今は気分が良い"]
    else if String.eqb (current_mood st) "sad" then
      hints ++ ["今は少し悲しい、慰めが必要"]
    else if String.eqb (current_mood st) "angry" then
      hints ++ ["今は少し怒っている"]
    else if String.eqb (current_mood st) "jealous" then
      hints ++ ["今は少し嫉妬している"]
    else hints in
  let* st := deref state in
  let hints :=
    if is_ignoring st then
      hints ++ ["今はすねているので、相手に慰めてもらう必要がある"]
    else hints in
  ret (match hints with [] => "" | _ => Py.join Py.newline hints end).

End Methods.

End AffectionSystem.

(** ** ShortTermMemory *)

Module ShortTermMemory.

Record ConversationTurn := {
  id : string;
  user_message : string;
  bot_response : string;
  timestamp : Datetime.datetime;
  user_id : string;
  emotional_context : gmap string string;
  topics : list string;
}.

(** A [ShortTermMemory] object, with the number of clock reads made so far. *)
Record t := {
  max_turns : Z;
  conversations : gmap string (list ConversationTurn);
  clock_reads : nat;
}.

(** [ShortTermMemory(max_turns)] *)
Definition new (max_turns : Z) : t :=
  {| max_turns := max_turns; conversations := ∅; clock_reads := 0 |}.

(** The arguments of one [add_turn] call after the user id. *)
Record TurnArgs := {
  arg_user_message : string;
  arg_bot_response : string;
  arg_emotional_context : option (gmap string string);
  arg_topics : option (list string);
}.

Section Methods.

(** The clock, [datetime.isoformat] and [hashlib.md5(text).hexdigest()]. *)
Variable clock : nat -> Datetime.datetime.
Variable isoformat : Datetime.datetime -> string.
Variable md5_hexdigest : string -> string.

(** The [ConversationTurn(...)] call of lines 94-102; [now_id] and
    [now_stamp] are its two clock reads. *)
Definition make_turn (uid : string) (now_id now_stamp : Datetime.datetime)
  (a : TurnArgs) : ConversationTurn := {|
  id := String.substring 0 16 (md5_hexdigest (uid +:+ ":" +:+ isoformat now_id));
  user_message := arg_user_message a;
  bot_response := arg_bot_response a;
  timestamp := now_stamp;
  user_id := uid;
  emotional_context := default ∅ (arg_emotional_context a);
  topics := default [] (arg_topics a);
|}.

Definition add_turn (uid : string) (a : TurnArgs) (m : t) : t :=
  let convs := conversations m in
  let convs :=
    match convs !! uid with
    | None => <[uid := []]> convs
    | Some _ => convs
    end in
  let turn :=
    make_turn uid (clock (clock_reads m)) (clock (S (clock_reads m))) a in
  let convs := alter (fun l => l ++ [turn]) uid convs in
  let convs :=
    if max_turns m <? Z.of_nat (length (convs !!! uid))
    then <[uid := Py.slice_from (- max_turns m) (convs !!! uid)]> convs
    else convs in
  {| max_turns := max_turns m;
     conversations := convs;
     clock_reads := S (S (clock_reads m)) |}.

Definition get_recent_context (m : t) (uid : string) (n_turns : Z)
  : list ConversationTurn :=
  let turns := default [] (conversations m !! uid) in
  match turns with
  | [] => []
  | _ => Py.slice_from (- n_turns) turns
  end.

(** [get_context_string]: the recent turns as a transcript, the empty text
    when there is none. *)
Definition get_context_string (m : t) (uid : string) (n_turns : Z) : string :=
  match get_recent_context m uid n_turns with
  | [] => ""
  | turns =>
      foldl
        (fun context turn =>
           context +:+ "ユーザー：" +:+ user_message turn +:+ Py.newline
                   +:+ "あなた：" +:+ bot_response turn +:+ Py.newline)
        ("【最近の会話】" +:+ Py.newline) turns
  end.

(** [clear]: one user's buffer when a non-empty user id is given, every
    buffer otherwise ([None] and the empty id are both false). *)
Definition clear (user_id : option string) (m : t) : t :=
  {| max_turns := max_turns m;
     conversations :=
       match user_id with
       | Some (String _ _ as uid) => delete uid (conversations m)
       | _ => ∅
       end;
     clock_reads := clock_reads m |}.

(** Successive [add_turn] calls for one user, first call first. *)
Definition add_turns (uid : string) (calls : list TurnArgs) (m : t) : t :=
  foldl (fun m a => add_turn uid a m) m calls.

(** The turns those calls construct, when the first of them makes clock
    read number [r]. *)
Fixpoint turns_made (uid : string) (r : nat) (calls : list TurnArgs)
  : list ConversationTurn :=
  match calls with
  | [] => []
  | a :: rest =>
      make_turn uid (clock r) (clock (S r)) a :: turns_made uid (S (S r)) rest
  end.

End Methods.

End ShortTermMemory.

(** ** MemoryExtractor and MemorySystem.get_user_profile *)

Module MemoryExtractor.

Record Memory := {
  id : string;
  content : string;
  memory_type : string;
  importance : float;
  created_at : Datetime.datetime;
  last_accessed : Datetime.datetime;
  access_count : Z;
  user_id : string;
  metadata : gmap string string;
}.

Definition MEMORY_KEYWORDS : list string :=
  [
    "好き"; "愛"; "嫌い"; "怖い"; "欲しい"; "夢"; "目標"; "仕事"; "勉強"; "家族"; "友達"; "誕生日";
    "記念日"; "名前"; "年齢"; "住んでいる"; "から来た"; "専門"; "趣味"; "like"; "love"; "hate";
    "want"; "dream"; "goal"; "work"; "study"; "family"; "friend"; "birthday" ].

Definition any_in (words : list string) (text : string) : bool :=
  existsb (fun word => Py.str_in word text) words.

(** [_calculate_importance] *)
Definition _calculate_importance (content : string) : float :=
  let importance := 0.5%float in
  let personal_indicators :=
    [
      "私は"; "私の名前は"; "私はから来た"; "私はに住んでいる"; "私は仕事"; "私の" ] in
  let importance :=
    if any_in personal_indicators content
    then (importance + 0.3)%float else importance in
  let emotion_words :=
    [
      "愛"; "憎しみ"; "怖い"; "夢"; "love"; "hate"; "dream" ] in
  let importance :=
    if any_in emotion_words content
    then (importance + 0.2)%float else importance in
  let importance :=
    if 50 <? Py.len content then (importance + 0.1)%float else importance in
  Py.min2 1.0 importance.

Section Methods.

(** [str.lower], [str.strip], the clock and the MD5 digest in hexadecimal. *)
Variable str_lower : string -> string.
Variable str_strip : string -> string.
Variable clock : nat -> Datetime.datetime.
Variable md5_hexdigest : string -> string.

(** [_classify_memory_type] *)
Definition _classify_memory_type (content : string) : string :=
  let content := str_lower content in
  if any_in
       [
         "好き"; "愛"; "love"; "like"; "favorite" ] content
  then "preference"
  else if any_in
       [
         "誕生日"; "anniversary"; "event"; "party" ] content
  then "event"
  else if any_in
       [
         "嬉しい"; "悲しい"; "怒り"; "sad"; "happy"; "angry" ] content
  then "emotion"
  else "fact".

(** The sentences lines 334-340 build a memory from, in the order of the
    two loops: for each keyword found in the combined text, the sentences
    that hold it and have more than 5 characters once stripped. *)
Definition memorable_sentences (combined : string) : list string :=
  flat_map
    (fun keyword =>
       if Py.str_in keyword combined then
         let sentences :=
           Py.split "。" (Py.replace "?" "。" (Py.replace "!" "。" combined)) in
         List.filter
           (fun sent => Py.str_in keyword sent && (5 <? Py.len (str_strip sent)))
           sentences
       else [])
    MEMORY_KEYWORDS.

(** The [Memory(...)] call of lines 345-351; [created_at] and
    [last_accessed] are the two clock reads of the default factories. *)
Definition make_memory (uid sent : string) (t_created t_accessed : Datetime.datetime)
  : Memory := {|
  id := String.substring 0 16 (md5_hexdigest (uid +:+ ":" +:+ str_strip sent));
  content := str_strip sent;
  memory_type := _classify_memory_type sent;
  importance := _calculate_importance sent;
  created_at := t_created;
  last_accessed := t_accessed;
  access_count := 0;
  user_id := uid;
  metadata := ∅;
|}.

Fixpoint make_memories (uid : string) (r : nat) (sentences : list string)
  : list Memory :=
  match sentences with
  | [] => []
  | sent :: rest =>
      make_memory uid sent (clock r) (clock (S r))
        :: make_memories uid (S (S r)) rest
  end.

(** Lines 354-359: the first memory of each content, in order. *)
Fixpoint unique_by_content (seen : list string) (memories : list Memory)
  : list Memory :=
  match memories with
  | [] => []
  | m :: rest =>
      if bool_decide (content m ∈ seen) then unique_by_content seen rest
      else m :: unique_by_content (content m :: seen) rest
  end.

(** [extract_from_message], when [r] clock reads were made before. *)
Definition extract_from_message (user_message bot_response uid : string) (r : nat)
  : list Memory :=
  let combined := user_message +:+ " " +:+ bot_response in
  let memories := make_memories uid r (memorable_sentences combined) in
  let unique_memories := unique_by_content [] memories in
  take 3 unique_memories.

End Methods.

(** The loop of [MemorySystem.get_user_profile] over the memories the store
    returned for the user. *)
Definition empty_profile : gmap string (list string) :=
  {[ "facts" := []; "preferences" := []; "events" := []; "emotions" := [] ]}.

Definition get_user_profile (memories : list Memory) : gmap string (list string) :=
  foldl
    (fun profile mem =>
       match profile !! memory_type mem with
       | Some bucket => <[memory_type mem := bucket ++ [content mem]]> profile
       | None => profile
       end)
    empty_profile memories.

End MemoryExtractor.

(** ** KnowledgeIntegrator *)

Module KnowledgeIntegrator.

Record LearnedInsight := {
  id : string;
  original_knowledge_ids : list string;
  insight_type : string;
  content : string;
  confidence : float;
  created_at : Datetime.datetime;
  verified : bool;
  application_count : Z;
}.

(** The learned-knowledge document: named lists of texts. *)
Abbreviation Document := (gmap string (list string)).

(** [_group_by_type] *)
Definition _group_by_type (insights : list LearnedInsight)
  : gmap string (list LearnedInsight) :=
  foldl
    (fun grouped insight =>
       let grouped :=
         match grouped !! insight_type insight with
         | None => <[insight_type insight := []]> grouped
         | Some _ => grouped
         end in
       alter (fun l => l ++ [insight]) (insight_type insight) grouped)
    ∅ insights.

(** [_load_learned_knowledge]: the document of the file, the empty document
    when there is no file. *)
Definition _load_learned_knowledge (file : option Document) : Document :=
  default ∅ file.

(** One of the four blocks of lines 424-450: the insights grouped under
    [type_name] go to the list named [key]. *)
Definition integrate_bucket (type_name key : string)
  (grouped : gmap string (list LearnedInsight)) (learned_data : Document)
  : Document :=
  match grouped !! type_name with
  | None => learned_data
  | Some bucket =>
      let learned_data :=
        <[key := default [] (learned_data !! key)]> learned_data in
      foldl
        (fun learned_data insight =>
           if bool_decide (content insight ∈ learned_data !!! key)
           then learned_data
           else alter (fun l => l ++ [content insight]) key learned_data)
        learned_data bucket
  end.

(** [integrate_insights], from the learned-knowledge file before the call
    to the file after it. *)
Definition integrate_insights
  (file : option Document) (insights : list LearnedInsight) : option Document :=
  let grouped := _group_by_type insights in
  let learned_data := _load_learned_knowledge file in
  let learned_data :=
    integrate_bucket "preference" "user_preferences" grouped learned_data in
  let learned_data :=
    integrate_bucket "fact" "user_facts" grouped learned_data in
  let learned_data :=
    integrate_bucket "pattern" "user_patterns" grouped learned_data in
  let learned_data :=
    integrate_bucket "emotion_rule" "emotional_rules" grouped learned_data in
  Some learned_data.

(** The lines written for one list of the document: nothing when the list
    is missing or empty, else the title and at most [limit] entries. *)
Definition prompt_section (title : string) (limit : nat) (entries : option (list string))
  (enhancement : string) : string :=
  match entries with
  | None | Some [] => enhancement
  | Some entries =>
      foldl (fun enhancement entry => enhancement +:+ "- " +:+ entry +:+ Py.newline)
        (enhancement +:+ title) (take limit entries)
  end.

(** [get_enhanced_system_prompt], on the learned-knowledge file. *)
Definition get_enhanced_system_prompt (file : option Document) (base_prompt : string)
  : string :=
  let learned := _load_learned_knowledge file in
  let enhancement := Py.newline +:+ Py.newline +:+ "【あなたについての理解】" +:+ Py.newline in
  let enhancement :=
    prompt_section ("重要な情報：" +:+ Py.newline) 10 (learned !! "user_facts") enhancement in
  let enhancement :=
    prompt_section (Py.newline +:+ "好みと嗜好：" +:+ Py.newline) 10
      (learned !! "user_preferences") enhancement in
  let enhancement :=
    prompt_section (Py.newline +:+ "行動パターン：" +:+ Py.newline) 5
      (learned !! "user_patterns") enhancement in
  let enhancement :=
    prompt_section (Py.newline +:+ "感情の特徴：" +:+ Py.newline) 5
      (learned !! "emotional_rules") enhancement in
  let enhancement := enhancement +:+ Py.newline +:+ "【適用ルール】" +:+ Py.newline in
  let enhancement := enhancement +:+ "- 会話の中でこれらの理解を自然に活用する" +:+ Py.newline in
  let enhancement := enhancement +:+ "- ユーザーの好みを覚えて、積極的に言及する" +:+ Py.newline in
  let enhancement := enhancement +:+ "- ユーザーのパターンに基づいてインタラクション方法を調整する" +:+ Py.newline in
  let enhancement := enhancement +:+ "- ユーザーのネガティブな感情を引き起こさないようにする" +:+ Py.newline in
  base_prompt +:+ enhancement.

End KnowledgeIntegrator.

(** ** KnowledgeImporter *)

Module KnowledgeImporter.

(** The endings after which a paragraph counts as complete (line 190). *)
Definition sentence_endings : list string :=
  [ "。"; "！"; "？"; "."; "!"; "?"; "」"; Py.double_quote; Py.double_quote ].

Definition ends_sentence (para : string) : bool :=
  existsb (Py.endswith para) sentence_endings.

Definition nonempty (text : string) : bool := negb (String.eqb text "").

Section Methods.

(** [str.strip] *)
Variable str_strip : string -> string.

(** One pass of the loop of lines 184-202 for a paragraph, on the segments
    closed so far and the segment being gathered. *)
Definition segment_step (state : list string * string) (para : string)
  : list string * string :=
  let '(segments, current_segment) := state in
  let para := str_strip para in
  if negb (nonempty para) then (segments, current_segment)
  else if ends_sentence para then
    if nonempty current_segment
    then (segments ++ [current_segment +:+ " " +:+ para], "")
    else (segments ++ [para], current_segment)
  else if Py.len current_segment + Py.len para <? 500 then
    (segments,
     if nonempty current_segment then current_segment +:+ " " +:+ para else para)
  else
    (if nonempty current_segment then segments ++ [current_segment] else segments,
     para).

(** [_segment_content] *)
Definition _segment_content (content : string) : list string :=
  let paragraphs := Py.split (Py.newline +:+ Py.newline) content in
  let '(segments, current_segment) := foldl segment_step ([], "") paragraphs in
  if nonempty current_segment then segments ++ [current_segment] else segments.

End Methods.

End KnowledgeImporter.

(** ** KnowledgeSystem *)

Module KnowledgeSystem.

(** [_count_by_type] *)
Definition _count_by_type (insights : list KnowledgeIntegrator.LearnedInsight)
  : gmap string Z :=
  foldl
    (fun counts insight =>
       <[KnowledgeIntegrator.insight_type insight :=
           default 0 (counts !! KnowledgeIntegrator.insight_type insight) + 1]>
         counts)
    ∅ insights.

End KnowledgeSystem.

(** * Properties *)

(** ** Comparisons of floats *)

Section FloatFacts.

Local Open Scope float_scope.

Lemma ltb_leb (x y : float) : (x <? y) = true -> (x <=? y) = true.
Proof.
  rewrite ltb_spec, leb_spec. unfold SFltb, SFleb.
  destruct (SFcompare (Prim2SF x) (Prim2SF y)) as [[]|]; congruence.
Qed.

Lemma compare_cont_flip (p q : positive) :
  Pos.compare_cont Eq q p = CompOpp (Pos.compare_cont Eq p q).
Proof. rewrite (Pos.compare_cont_antisym p q Eq). reflexivity. Qed.

Lemma SFltb_asym (a b : spec_float) : SFltb a b = true -> SFltb b a = false.
Proof.
  unfold SFltb.
  destruct a as [sa|sa| |sa ma ea], b as [sb|sb| |sb mb eb]; simpl;
    try discriminate; try reflexivity;
    try (destruct sa; try discriminate; reflexivity);
    try (destruct sb; try discriminate; reflexivity);
    try (destruct sa, sb; try discriminate; reflexivity).
  destruct sa, sb; try discriminate; try reflexivity.
  - rewrite (Z.compare_antisym ea eb).
    destruct (ea ?= eb)%Z; simpl; try discriminate; try reflexivity.
    rewrite (compare_cont_flip ma mb).
    destruct (Pos.compare_cont Eq ma mb); simpl; try discriminate; reflexivity.
  - rewrite (Z.compare_antisym ea eb).
    destruct (ea ?= eb)%Z; simpl; try discriminate; try reflexivity.
    rewrite (compare_cont_flip ma mb).
    destruct (Pos.compare_cont Eq ma mb); simpl; try discriminate; reflexivity.
Qed.

(** A strict comparison of floats holds in one direction at most. *)
Lemma ltb_asym (x y : float) : (x <? y) = true -> (y <? x) = false.
Proof. rewrite (ltb_spec x y), (ltb_spec y x). apply SFltb_asym. Qed.

Lemma SFleb_negative_finite (f : spec_float) (m : positive) (e : Z) :
  SFleb f (S754_finite true m e) = true ->
  SFltb f (S754_zero false) = true /\ SFltb (S754_zero false) f = false.
Proof.
  unfold SFleb, SFltb.
  destruct f as [s|s| |s m' e']; simpl; try congruence;
    destruct s; simpl; try congruence; auto.
Qed.

(** A float at most -5 is negative. *)
Lemma leb_minus5_negative (x : float) :
  (x <=? -5) = true -> (x <? 0) = true /\ (0 <? x) = false.
Proof.
  rewrite leb_spec, (ltb_spec x 0), (ltb_spec 0 x).
  set (c := Prim2SF (-5)). vm_compute in c. subst c.
  set (z := Prim2SF 0). vm_compute in z. subst z.
  apply SFleb_negative_finite.
Qed.

Definition in_0_100 (x : float) : Prop :=
  (0 <=? x) = true /\ (x <=? 100) = true.

Lemma clamp_in_0_100 (x : float) : in_0_100 (Py.max2 0 (Py.min2 100 x)).
Proof.
  unfold in_0_100, Py.max2, Py.min2.
  destruct (x <? 100) eqn:Hhi.
  - destruct (0 <? x) eqn:Hlo.
    + split; apply ltb_leb; assumption.
    + split; vm_compute; reflexivity.
  - change (0 <? 100) with true. cbv iota. split; vm_compute; reflexivity.
Qed.

End FloatFacts.

(** ** AffectionCalculator.calculate_change *)

Module CalculateChangeSpec.

Import AffectionCalculator.

(** The raw delta in the words of the specification: what the table says
    about the action, then the adjustment of that kind of action. *)
Inductive action_kind :=
| Positive (table_value : float)
| Negative (table_value : float)
| Decay
| Unknown.

Definition classify (action : string) : action_kind :=
  match POSITIVE_FACTORS !! action, NEGATIVE_FACTORS !! action with
  | Some v, _ => Positive v
  | None, Some v => Negative v
  | None, None => if String.eqb action "decay" then Decay else Unknown
  end.

Definition times_if (condition : bool) (factor x : float) : float :=
  if condition then (x * factor)%float else x.

Definition raw_delta
  (action : string) (current_score : float) (context : gmap string Z) : float :=
  match classify action with
  | Positive v =>
      let damped :=
        if (80 <? current_score)%float then (v * 0.7)%float
        else times_if (60 <? current_score)%float 0.85 v in
      times_if (3 <? ctx_get context "consecutive_positive") 1.2 damped
  | Negative v =>
      let amplified := times_if (current_score <? 30)%float 1.3 v in
      times_if (2 <? ctx_get context "consecutive_negative") 1.3 amplified
  | Decay =>
      let days_inactive := ctx_get context "days_inactive" in
      if 2 <=? days_inactive
      then (- 0.3 * Py.float_of_int (days_inactive - 2 + 1))%float
      else 0%float
  | Unknown => 0%float
  end.

(** [clamp(x, lo, hi)] *)
Definition clamp (x lo hi : float) : float := Py.max2 lo (Py.min2 hi x).

End CalculateChangeSpec.

(** C2. For every action, current score and context, [calculate_change]
    returns the post-clamp delta [clamp(current_score + raw_delta, 0, 100) -
    current_score], where the raw delta is the table value of the action
    with the damping and amplification factors of its kind, the decay
    formula for "decay", and 0 for an unknown action. It holds for every
    current score, in [0,100] or not. *)
Theorem calculate_change_post_clamp :
  forall (action : string) (current_score : float) (context : gmap string Z),
    AffectionCalculator.calculate_change action current_score context =
    (CalculateChangeSpec.clamp
       (current_score + CalculateChangeSpec.raw_delta action current_score context)
       0 100
     - current_score)%float.
Proof.
  intros action current_score context.
  unfold AffectionCalculator.calculate_change, CalculateChangeSpec.clamp.
  do 3 f_equal.
  unfold AffectionCalculator.change_before_clamp, CalculateChangeSpec.raw_delta,
    CalculateChangeSpec.classify, CalculateChangeSpec.times_if.
  destruct (AffectionCalculator.POSITIVE_FACTORS !! action) as [p|].
  - destruct (80 <? current_score)%float; [reflexivity|].
    destruct (60 <? current_score)%float; reflexivity.
  - destruct (AffectionCalculator.NEGATIVE_FACTORS !! action) as [n|].
    + reflexivity.
    + destruct (String.eqb action "decay"); reflexivity.
Qed.

(** The values the specification lists as testable properties. *)
Example calculate_change_decay_one_day :
  AffectionCalculator.change_before_clamp "decay" 20 {["days_inactive" := 1]}
  = 0%float.
Proof. vm_compute. reflexivity. Qed.

Example calculate_change_decay_three_days :
  AffectionCalculator.change_before_clamp "decay" 20 {["days_inactive" := 3]}
  = (- 0.3 * 2)%float.
Proof. vm_compute. reflexivity. Qed.

Example calculate_change_unknown_action :
  AffectionCalculator.calculate_change "base_message" 20 ∅ = 0%float.
Proof. vm_compute. reflexivity. Qed.

(** ** AffectionCalculator.analyze_message_sentiment *)

Section SentimentFacts.

Import AffectionCalculator.

Variable str_lower : string -> string.

Lemma count_in_nonneg (words : list string) (text : string) :
  0 <= Py.count_in words text.
Proof. unfold Py.count_in. lia. Qed.

Lemma count_in_le_length (words : list string) (text : string) :
  Py.count_in words text <= Z.of_nat (length words).
Proof.
  unfold Py.count_in. apply inj_le, length_filter.
Qed.

Lemma count_in_pos (words : list string) (text w : string) :
  w ∈ words -> Py.str_in w text = true -> 0 < Py.count_in words text.
Proof.
  intros Hin Hw. unfold Py.count_in.
  assert (Hf : w ∈ filter (fun w => Py.str_in w text = true) words)
    by (apply list_elem_of_filter; auto).
  destruct (filter _ words); [inversion Hf | simpl; lia].
Qed.

Lemma count_in_zero (words : list string) (text : string) :
  (forall w, w ∈ words -> Py.str_in w text = false) ->
  Py.count_in words text = 0.
Proof.
  intros Hnone. unfold Py.count_in.
  destruct (filter _ words) as [|w l] eqn:Hf; [reflexivity|].
  assert (Hw : w ∈ filter (fun w => Py.str_in w text = true) words)
    by (rewrite Hf; left).
  apply list_elem_of_filter in Hw as [Hw Hin].
  rewrite (Hnone w Hin) in Hw. discriminate.
Qed.

(** The magnitude of "rude" for each possible count of negative keywords:
    at least -5 and negative. *)
Lemma rude_magnitude (n : Z) :
  1 <= n <= 26 ->
  let m := Py.max2 (-5.0) (Py.float_of_int (- n) * 1.0) in
  (-5 <=? m)%float = true /\ (m <? 0)%float = true /\
  m = Py.float_of_int (- Z.min n 5).
Proof.
  intros Hn.
  assert (Hk : exists k, n = Z.of_nat k /\ (1 <= k <= 26)%nat)
    by (exists (Z.to_nat n); lia).
  destruct Hk as (k & -> & Hk).
  do 27 (destruct k as [|k]; [try lia; vm_compute; auto|]).
  lia.
Qed.

End SentimentFacts.

(** C7. On the lower-cased text, a keyword of the other-person list wins
    over everything else and gives the fixed action ("mention_other_girl",
    -5.0), whatever positive keywords are present; without such a keyword,
    strictly more negative than positive keyword matches give "rude" with a
    negative magnitude of at most 5 in absolute value (-1 per matching
    keyword, capped at -5); without such a keyword and with as many positive
    as negative matches (none at all included) the result is the no-op
    ("neutral", 0.0). *)
Theorem analyze_message_sentiment_priority :
  forall (str_lower : string -> string) (message : string),
    let text := str_lower message in
    let positive_count := Py.count_in AffectionCalculator.positive_words text in
    let negative_count := Py.count_in AffectionCalculator.negative_words text in
    let result := AffectionCalculator.analyze_message_sentiment str_lower message in
    ((exists w, w ∈ AffectionCalculator.other_girl_words /\
                Py.str_in w text = true) ->
     result = ("mention_other_girl", (-5.0)%float)) /\
    ((forall w, w ∈ AffectionCalculator.other_girl_words ->
                Py.str_in w text = false) ->
     positive_count < negative_count ->
     fst result = "rude" /\
     (-5.0 <=? snd result)%float = true /\
     (snd result <? 0)%float = true /\
     snd result = Py.float_of_int (- Z.min negative_count 5)) /\
    ((forall w, w ∈ AffectionCalculator.other_girl_words ->
                Py.str_in w text = false) ->
     positive_count = negative_count ->
     result = ("neutral", 0.0%float)).
Proof.
  intros str_lower message text positive_count negative_count result.
  subst result. unfold AffectionCalculator.analyze_message_sentiment.
  fold text. fold positive_count. fold negative_count.
  split; [|split].
  - intros (w & Hin & Hw).
    pose proof (count_in_pos _ _ _ Hin Hw) as Hpos.
    apply Z.ltb_lt in Hpos. rewrite Hpos. reflexivity.
  - intros Hnone Hlt.
    rewrite (count_in_zero _ _ Hnone). change (0 <? 0) with false. cbv iota.
    destruct (negative_count <? positive_count) eqn:Hgt;
      [apply Z.ltb_lt in Hgt; lia|].
    apply Z.ltb_lt in Hlt. rewrite Hlt. cbn [fst snd].
    assert (Hrange : 1 <= negative_count <= 26).
    { split.
      - pose proof (count_in_nonneg AffectionCalculator.positive_words text).
        apply Z.ltb_lt in Hlt. fold positive_count in H. lia.
      - apply (count_in_le_length AffectionCalculator.negative_words text). }
    destruct (rude_magnitude negative_count Hrange) as (Hcap & Hneg & Heq).
    auto.
  - intros Hnone Heq.
    rewrite (count_in_zero _ _ Hnone). change (0 <? 0) with false. cbv iota.
    rewrite Heq, Z.ltb_irrefl. reflexivity.
Qed.

(** The three cases of C7 on texts that have them: an other-person keyword
    next to two positive ones, one negative keyword alone, and one keyword
    of each polarity. *)
Lemma analyze_message_sentiment_priority_witness :
  AffectionCalculator.analyze_message_sentiment Py.ascii_lower
    "I love my EX, she is cute" = ("mention_other_girl", (-5.0)%float) /\
  AffectionCalculator.analyze_message_sentiment Py.ascii_lower
    "You are STUPID" = ("rude", (-1.0)%float) /\
  AffectionCalculator.analyze_message_sentiment Py.ascii_lower
    "good or bad" = ("neutral", 0.0%float).
Proof.
  split; [|split].
  - apply (analyze_message_sentiment_priority Py.ascii_lower
             "I love my EX, she is cute").
    exists "ex". split; [vm_compute; repeat constructor | vm_compute; reflexivity].
  - pose proof (analyze_message_sentiment_priority Py.ascii_lower
                  "You are STUPID") as (_ & Hrude & _).
    cbv zeta in Hrude.
    destruct Hrude as (Hname & _ & _ & Hmag).
    + intros w Hw. vm_compute in Hw.
      repeat (apply elem_of_cons in Hw as [-> | Hw]; [vm_compute; reflexivity|]).
      inversion Hw.
    + vm_compute. reflexivity.
    + destruct (AffectionCalculator.analyze_message_sentiment _ _) as [name magnitude].
      cbn [fst snd] in *. rewrite Hname, Hmag. vm_compute. reflexivity.
  - apply (analyze_message_sentiment_priority Py.ascii_lower "good or bad").
    + intros w Hw. vm_compute in Hw.
      repeat (apply elem_of_cons in Hw as [-> | Hw]; [vm_compute; reflexivity|]).
      inversion Hw.
    + vm_compute. reflexivity.
Defined.

(** ** AffectionSystem *)

Module SystemFacts.

Import StateMonad AffectionState AffectionSystem.

#[local] Arguments AffectionCalculator.calculate_change : simpl never.
#[local] Arguments _generate_feedback : simpl never.
#[local] Arguments still_angry : simpl never.
#[local] Arguments Py.max2 : simpl never.
#[local] Arguments Py.min2 : simpl never.
#[local] Arguments Datetime.minutes : simpl never.
#[local] Arguments Datetime.seconds : simpl never.
#[local] Arguments Z.add : simpl never.
#[local] Arguments Z.div : simpl never.
#[local] Arguments Z.sub : simpl never.

(** Whether an [update] arriving at time [t] finds the user still sulking
    (lines 272-273). *)
Definition still_sulking (st : AffectionState.t) (t : Datetime.datetime) : bool :=
  is_ignoring st &&
  match ignore_until st with
  | Some until => t <? until
  | None => false
  end.

(** The delta [update] computes for an action on a state (lines 280-285). *)
Definition update_delta
  (st : AffectionState.t) (action : string) (context : gmap string Z) : float :=
  AffectionCalculator.calculate_change action (score st)
    (<["consecutive_negative" := consecutive_negative st]>
       (<["consecutive_positive" := consecutive_positive st]> context)).

(** A property of every stored record. *)
Definition all_states (P : AffectionState.t -> Prop) (s : System) : Prop :=
  forall uid st, states s !! uid = Some st -> P st.

Section Body.

Variable clock : nat -> Datetime.datetime.

(** The body of [update] when the user is still sulking: nothing is written,
    the clock is read twice. *)
Lemma update_body_sulking (action : string) (context : gmap string Z) (o : Focus) :
  still_sulking (this o) (clock (reads o)) = true ->
  exists until,
    ignore_until (this o) = Some until /\
    update_body clock action context o =
    ((score (this o),
      still_angry (Datetime.seconds (until - clock (S (reads o))) / 60)),
     {| this := this o; reads := S (S (reads o)) |}).
Proof.
  unfold still_sulking. destruct o as [st n]. cbn [this reads].
  destruct (is_ignoring st) eqn:Hign; [|discriminate].
  destruct (ignore_until st) as [until|] eqn:Huntil; [|discriminate].
  cbn [andb]. intros Hlt. exists until. split; [reflexivity|].
  unfold update_body, bind, read, now, ret. cbn [this reads].
  rewrite Hign, Huntil. cbn [this reads]. rewrite Hlt. reflexivity.
Qed.

(** The record after the body of [update] ran to the end on [st], for the
    delta [change] and the clock reads [t_last] (line 289) and [t_sulk]
    (line 306). *)
Definition counted (change : float) (st : AffectionState.t) : AffectionState.t :=
  if (0 <? change)%float then
    set_positive_interactions (positive_interactions st + 1)
      (set_consecutive_negative 0
         (set_consecutive_positive (consecutive_positive st + 1) st))
  else if (change <? 0)%float then
    set_negative_interactions (negative_interactions st + 1)
      (set_consecutive_positive 0
         (set_consecutive_negative (consecutive_negative st + 1) st))
  else st.

Definition sulk_triggered (change new_score : float) : bool :=
  (negb (0 <? change) && (change <? 0) && (change <=? -5) && (new_score <? 50))%float.

Definition applied (change : float) (t_last t_sulk : Datetime.datetime)
  (st : AffectionState.t) : AffectionState.t :=
  let new_score := Py.max2 0 (Py.min2 100 (score st + change)) in
  let st := set_score new_score st in
  let st := set_last_interaction t_last st in
  let st := set_interaction_count (interaction_count st + 1) st in
  let st := set_total_messages (total_messages st + 1) st in
  let st := counted change st in
  if sulk_triggered change new_score
  then set_ignore_until (Some (t_sulk + Datetime.minutes 30))
         (set_is_ignoring true st)
  else st.

(** The record the delta is computed on: the entry record, with a sulk that
    has run out cleared (lines 275-277). *)
Definition calmed (st : AffectionState.t) : AffectionState.t :=
  match is_ignoring st, ignore_until st with
  | true, Some _ => set_ignore_until None (set_is_ignoring false st)
  | _, _ => st
  end.

(** Clock reads of the sulk check: one when the record says sulking. *)
Definition check_reads (st : AffectionState.t) : nat :=
  match is_ignoring st, ignore_until st with
  | true, Some _ => 1
  | _, _ => 0
  end.

(** The body of [update] when the user is not, or no longer, sulking. *)
Lemma update_body_applied (action : string) (context : gmap string Z) (o : Focus) :
  still_sulking (this o) (clock (reads o)) = false ->
  let st := calmed (this o) in
  let change := update_delta st action context in
  let n := (reads o + check_reads (this o))%nat in
  let new_score := Py.max2 0 (Py.min2 100 (score st + change)) in
  let st' := applied change (clock n) (clock (S n)) st in
  update_body clock action context o =
  ((score st', _generate_feedback (score st) (score st') action),
   {| this := st';
      reads := if sulk_triggered change new_score then S (S n) else S n |}).
Proof.
  unfold still_sulking, calmed, check_reads. destruct o as [st n]. cbn [this reads].
  intros Hfree.
  assert (Hbody :
    forall st0 n0,
      (let* positive := read consecutive_positive in
       let context := <["consecutive_positive" := positive]> context in
       let* negative := read consecutive_negative in
       let context := <["consecutive_negative" := negative]> context in
       let* current := read score in
       let change := AffectionCalculator.calculate_change action current context in
       let old_score := current in
       assign (set_score (Py.max2 0 (Py.min2 100 (current + change)))) ;;
       let* t := now clock in
       assign (set_last_interaction t) ;;
       let* n := read interaction_count in
       assign (set_interaction_count (n + 1)) ;;
       let* n := read total_messages in
       assign (set_total_messages (n + 1)) ;;
       (if (0 <? change)%float then
          let* n := read consecutive_positive in
          assign (set_consecutive_positive (n + 1)) ;;
          assign (set_consecutive_negative 0) ;;
          let* n := read positive_interactions in
          assign (set_positive_interactions (n + 1))
        else if (change <? 0)%float then
          let* n := read consecutive_negative in
          assign (set_consecutive_negative (n + 1)) ;;
          assign (set_consecutive_positive 0) ;;
          let* n := read negative_interactions in
          assign (set_negative_interactions (n + 1)) ;;
          let* current := read score in
          if ((change <=? -5) && (current <? 50))%float then
            assign (set_is_ignoring true) ;;
            let* t := now clock in
            assign (set_ignore_until (Some (t + Datetime.minutes 30)))
          else ret tt
        else ret tt) ;;
       let* current := read score in
       let feedback := _generate_feedback old_score current action in
       let* current := read score in
       ret (current, feedback)) {| this := st0; reads := n0 |} =
      (let change := update_delta st0 action context in
       let new_score := Py.max2 0 (Py.min2 100 (score st0 + change)) in
       let st' := applied change (clock n0) (clock (S n0)) st0 in
       ((score st', _generate_feedback (score st0) (score st') action),
        {| this := st';
           reads := if sulk_triggered change new_score then S (S n0) else S n0 |}))).
  { intros st0 n0. unfold update_delta, applied, counted, sulk_triggered.
    unfold bind, read, assign, now, ret. cbn [this reads].
    set (change := AffectionCalculator.calculate_change _ _ _).
    cbn [score set_score set_last_interaction set_interaction_count
         set_total_messages].
    destruct (0 <? change)%float eqn:Hpos; cbn [this reads negb andb].
    - reflexivity.
    - destruct (change <? 0)%float eqn:Hneg; cbn [this reads negb andb].
      + cbn [score set_negative_interactions set_consecutive_positive
             set_consecutive_negative].
        destruct (change <=? -5)%float; cbn [andb]; [|reflexivity].
        destruct (_ <? 50)%float; reflexivity.
      + reflexivity. }
  unfold update_body at 1.
  unfold bind at 1. unfold read at 1. cbn [this reads].
  unfold bind at 1. unfold read at 1. cbn [this reads].
  destruct (is_ignoring st) eqn:Hign.
  - destruct (ignore_until st) as [until|] eqn:Huntil.
    + cbn [andb] in Hfree.
      unfold bind at 1. unfold bind at 1. unfold now at 1. cbn [this reads].
      rewrite Hfree.
      unfold bind at 1. unfold assign at 1. cbn [this reads].
      unfold bind at 1. unfold assign at 1. cbn [this reads].
      unfold ret at 1.
      rewrite Hbody. replace (n + 1)%nat with (S n) by lia. reflexivity.
    + unfold bind at 1. unfold ret at 1.
      rewrite Hbody. replace (n + 0)%nat with n by lia. reflexivity.
  - unfold bind at 1. unfold ret at 1.
    destruct (ignore_until st);
      rewrite Hbody; replace (n + 0)%nat with n by lia; reflexivity.
Qed.

End Body.

(** *** Fields of the record an applied update leaves *)

Lemma score_applied change t_last t_sulk st :
  score (applied change t_last t_sulk st) =
  Py.max2 0 (Py.min2 100 (score st + change)).
Proof.
  unfold applied, counted.
  destruct (sulk_triggered _ _), (0 <? change)%float, (change <? 0)%float;
    reflexivity.
Qed.

Lemma consecutive_applied change t_last t_sulk st :
  consecutive_positive (applied change t_last t_sulk st) =
    consecutive_positive (counted change st) /\
  consecutive_negative (applied change t_last t_sulk st) =
    consecutive_negative (counted change st).
Proof.
  unfold applied, counted.
  destruct (sulk_triggered _ _), (0 <? change)%float, (change <? 0)%float;
    split; reflexivity.
Qed.

Lemma sulk_applied change t_last t_sulk st :
  let triggered :=
    sulk_triggered change (Py.max2 0 (Py.min2 100 (score st + change))) in
  is_ignoring (applied change t_last t_sulk st) =
    (if triggered then true else is_ignoring st) /\
  ignore_until (applied change t_last t_sulk st) =
    (if triggered then Some (t_sulk + Datetime.minutes 30)
     else ignore_until st).
Proof.
  unfold applied, counted. cbv zeta.
  destruct (sulk_triggered _ _), (0 <? change)%float, (change <? 0)%float;
    split; reflexivity.
Qed.

(** *** Methods on the whole system *)

Section System.

Variable str_lower : string -> string.
Variable clock : nat -> Datetime.datetime.

(** What the body of a method on a user starts from: the stored record,
    created if need be, and the position of the clock. *)
Definition entry_focus (uid : string) (s : System) : Focus :=
  let s1 := snd (get_state clock uid s) in
  {| this := states s1 !!! uid; reads := clock_reads s1 |}.

Lemma get_state_known (uid : string) (s : System) (st : AffectionState.t) :
  states s !! uid = Some st -> get_state clock uid s = (uid, s).
Proof. intros H. unfold get_state. rewrite H. reflexivity. Qed.

Lemma get_state_fresh (uid : string) (s : System) :
  states s !! uid = None ->
  get_state clock uid s =
  (uid, {| states := <[uid := AffectionState.new uid (clock (clock_reads s))]> (states s);
           clock_reads := S (clock_reads s);
           update_calls := update_calls s |}).
Proof. intros H. unfold get_state. rewrite H. reflexivity. Qed.

Lemma get_state_ref (uid : string) (s : System) :
  fst (get_state clock uid s) = uid.
Proof. unfold get_state. destruct (states s !! uid); reflexivity. Qed.

Lemma get_state_bound (uid : string) (s : System) :
  states (snd (get_state clock uid s)) !! uid =
  Some (states (snd (get_state clock uid s)) !!! uid).
Proof.
  rewrite lookup_total_alt.
  destruct (states s !! uid) as [st|] eqn:H.
  - rewrite (get_state_known _ _ _ H). cbn. rewrite H. reflexivity.
  - rewrite (get_state_fresh _ _ H). cbn. rewrite lookup_insert_eq. reflexivity.
Qed.

Lemma get_state_calls (uid : string) (s : System) :
  update_calls (snd (get_state clock uid s)) = update_calls s.
Proof. unfold get_state. destruct (states s !! uid); reflexivity. Qed.

(** [update] is its body run on the entry record, written back. *)
Lemma update_unfold (uid action : string) (context : gmap string Z) (s : System) :
  update clock uid action context s =
  let r := update_body clock action context (entry_focus uid s) in
  (fst r,
   {| states := <[uid := this (snd r)]> (states (snd (get_state clock uid s)));
      clock_reads := reads (snd r);
      update_calls := update_calls s ++ [(uid, action)] |}).
Proof.
  unfold update, entry_focus, bind, trace_update, on_object, get_state,
    datetime_now.
  cbn [states clock_reads update_calls].
  destruct (states s !! uid); cbn [fst snd states clock_reads update_calls];
    destruct (update_body _ _ _ _); reflexivity.
Qed.

(** *** Properties kept by every method *)

(** A property of records that the defaults have and every write of a
    method keeps. *)
Record stable (P : AffectionState.t -> Prop) : Prop := {
  stable_new : forall uid t, P (AffectionState.new uid t);
  stable_update : forall action context st n,
    P st ->
    P (this (snd (update_body clock action context {| this := st; reads := n |})));
  stable_current_mood : forall v st, P st -> P (set_current_mood v st);
  stable_mood_intensity : forall v st, P st -> P (set_mood_intensity v st);
  stable_mood_reason : forall v st, P st -> P (set_mood_reason v st);
  stable_special_events : forall v st, P st -> P (set_special_events v st);
  stable_gifts_received : forall v st, P st -> P (set_gifts_received v st);
}.

Definition preserves {A} (P : AffectionState.t -> Prop) (m : M A) : Prop :=
  forall s, all_states P s -> all_states P (snd (m s)).

Section Preservation.

Variable P : AffectionState.t -> Prop.
Hypothesis P_stable : stable P.

Lemma lookup_total_stable (s : System) (r : ref) :
  all_states P s -> P (states s !!! r).
Proof.
  intros Hall. rewrite lookup_total_alt.
  destruct (states s !! r) as [st|] eqn:H; cbn.
  - apply (Hall _ _ H).
  - apply (stable_new P P_stable).
Qed.

Lemma preserves_ret {A} (a : A) : preserves P (ret a).
Proof. intros s H. exact H. Qed.

Lemma preserves_bind {A B} (m : M A) (k : A -> M B) :
  preserves P m -> (forall a, preserves P (k a)) -> preserves P (bind m k).
Proof.
  intros Hm Hk s H. unfold bind. specialize (Hm s H).
  destruct (m s) as [a s']. apply Hk, Hm.
Qed.

Lemma preserves_for_each {A B} (xs : list A) (body : A -> M B) :
  (forall x, preserves P (body x)) -> preserves P (for_each xs body).
Proof.
  intros Hbody. induction xs as [|x xs IH]; cbn [for_each].
  - apply preserves_ret.
  - apply preserves_bind; auto.
Qed.

Lemma preserves_datetime_now : preserves P (datetime_now clock).
Proof. intros s H. exact H. Qed.

Lemma preserves_trace_update uid action : preserves P (trace_update uid action).
Proof. intros s H. exact H. Qed.

Lemma preserves_get_state uid : preserves P (get_state clock uid).
Proof.
  intros s H. destruct (states s !! uid) as [st|] eqn:Hst.
  - rewrite (get_state_known _ _ _ Hst). exact H.
  - rewrite (get_state_fresh _ _ Hst). intros uid' st'. cbn [snd states].
    destruct (decide (uid = uid')) as [<-|Hne].
    + rewrite lookup_insert_eq. intros [= <-]. apply (stable_new P P_stable).
    + rewrite lookup_insert_ne by exact Hne. apply H.
Qed.

Lemma preserves_on_object {A} (r : ref) (body : Obj A) :
  (forall st n, P st -> P (this (snd (body {| this := st; reads := n |})))) ->
  preserves P (on_object r body).
Proof.
  intros Hbody s H. unfold on_object.
  pose proof (Hbody (states s !!! r) (clock_reads s) (lookup_total_stable s r H)) as Hr.
  destruct (body _) as [a o]. cbn [snd states this] in *.
  intros uid' st'. cbn [snd states].
  destruct (decide (r = uid')) as [<-|Hne].
  - rewrite lookup_insert_eq. intros [= <-]. exact Hr.
  - rewrite lookup_insert_ne by exact Hne. apply H.
Qed.

Lemma preserves_deref r : preserves P (deref r).
Proof. apply preserves_on_object. intros st n H. exact H. Qed.

Lemma preserves_mutate r f :
  (forall st, P st -> P (f st)) -> preserves P (mutate r f).
Proof. intros Hf. apply preserves_on_object. intros st n H. apply Hf, H. Qed.

Lemma preserves_update uid action context :
  preserves P (update clock uid action context).
Proof.
  unfold update.
  apply preserves_bind; [apply preserves_trace_update|intros _].
  apply preserves_bind; [apply preserves_get_state|intros r].
  apply preserves_on_object. intros st n. apply (stable_update P P_stable).
Qed.

Lemma preserves_apply_decay uid : preserves P (_apply_decay clock uid).
Proof.
  unfold _apply_decay.
  apply preserves_bind; [apply preserves_get_state|intros r].
  apply preserves_bind; [apply preserves_datetime_now|intros t].
  apply preserves_bind; [apply preserves_deref|intros st].
  destruct (_ <=? _); [|apply preserves_ret].
  apply preserves_bind; [apply preserves_update|intros _; apply preserves_ret].
Qed.

Lemma preserves_process_message uid message response_time :
  preserves P (process_message str_lower clock uid message response_time).
Proof.
  unfold process_message.
  apply preserves_bind; [apply preserves_get_state|intros r].
  destruct (AffectionCalculator.analyze_message_sentiment _ _) as [name magnitude].
  apply preserves_bind; [apply preserves_datetime_now|intros t].
  apply preserves_bind;
    [apply preserves_for_each; intros x; apply preserves_update|intros _].
  apply preserves_bind.
  { destruct (if Py.truthy _ && _ then _ else _); [|apply preserves_ret].
    apply preserves_bind; [apply preserves_update|intros _; apply preserves_ret]. }
  intros _.
  apply preserves_bind; [apply preserves_apply_decay|intros _].
  apply preserves_bind; [apply preserves_deref|intros st].
  apply preserves_bind; [apply preserves_deref|intros st'].
  apply preserves_ret.
Qed.

Lemma preserves_set_mood uid mood intensity reason :
  preserves P (set_mood clock uid mood intensity reason).
Proof.
  unfold set_mood.
  apply preserves_bind; [apply preserves_get_state|intros r].
  apply preserves_bind;
    [apply preserves_mutate, (stable_current_mood P P_stable)|intros _].
  apply preserves_bind;
    [apply preserves_mutate, (stable_mood_intensity P P_stable)|intros _].
  apply preserves_mutate, (stable_mood_reason P P_stable).
Qed.

Lemma preserves_add_special_event uid event_type description :
  preserves P (add_special_event clock uid event_type description).
Proof.
  unfold add_special_event.
  apply preserves_bind; [apply preserves_get_state|intros r].
  apply preserves_bind; [apply preserves_datetime_now|intros t].
  apply preserves_bind.
  { apply preserves_mutate. intros st. apply (stable_special_events P P_stable). }
  intros _.
  repeat (destruct (String.eqb event_type _);
          [repeat (apply preserves_bind;
                   [first [apply preserves_update
                          |apply preserves_mutate; intros st;
                           apply (stable_gifts_received P P_stable)]
                   |intros _]);
           apply preserves_ret|]).
  apply preserves_ret.
Qed.

End Preservation.

(** The systems a program can be in: a fresh system, then any calls of the
    public methods. The query methods ([get_level], [get_relationship_status],
    [get_affection_hint_for_prompt]) act on the store as [get_state] does. *)
Inductive reachable : System -> Prop :=
| reach_init : reachable init
| reach_get_state s uid :
    reachable s -> reachable (snd (get_state clock uid s))
| reach_update s uid action context :
    reachable s -> reachable (snd (update clock uid action context s))
| reach_process_message s uid message response_time :
    reachable s ->
    reachable (snd (process_message str_lower clock uid message response_time s))
| reach_set_mood s uid mood intensity reason :
    reachable s -> reachable (snd (set_mood clock uid mood intensity reason s))
| reach_add_special_event s uid event_type description :
    reachable s ->
    reachable (snd (add_special_event clock uid event_type description s)).

Lemma reachable_all_states (P : AffectionState.t -> Prop) (s : System) :
  stable P -> reachable s -> all_states P s.
Proof.
  intros HP Hs. induction Hs.
  - intros uid st H. cbn in H. rewrite lookup_empty in H. discriminate.
  - apply preserves_get_state; assumption.
  - apply preserves_update; assumption.
  - apply preserves_process_message; assumption.
  - apply preserves_set_mood; assumption.
  - apply preserves_add_special_event; assumption.
Qed.

End System.

(** *** Three stable properties *)

Section Stable.

Variable str_lower : string -> string.
Variable clock : nat -> Datetime.datetime.

(** It is enough to look at the two writes of [update], the clearing of a
    sulk that ran out and the applied change, and at the defaults; the other
    setters are those of [set_mood] and [add_special_event]. *)
Lemma stable_intro (P : AffectionState.t -> Prop) :
  (forall uid t, P (AffectionState.new uid t)) ->
  (forall st, P st -> P (calmed st)) ->
  (forall change t_last t_sulk st, P st -> P (applied change t_last t_sulk st)) ->
  (forall v st, P st -> P (set_current_mood v st)) ->
  (forall v st, P st -> P (set_mood_intensity v st)) ->
  (forall v st, P st -> P (set_mood_reason v st)) ->
  (forall v st, P st -> P (set_special_events v st)) ->
  (forall v st, P st -> P (set_gifts_received v st)) ->
  stable clock P.
Proof.
  intros Hnew Hcalm Happ H1 H2 H3 H4 H5.
  split; try assumption.
  intros action context st n HP.
  destruct (still_sulking st (clock n)) eqn:Hs.
  - destruct (update_body_sulking clock action context
                {| this := st; reads := n |} Hs) as (until & _ & ->).
    exact HP.
  - rewrite (update_body_applied clock action context
               {| this := st; reads := n |} Hs).
    cbn [snd this]. apply Happ, Hcalm, HP.
Qed.

Definition score_in_range (st : AffectionState.t) : Prop := in_0_100 (score st).

Definition counters_exclusive (st : AffectionState.t) : Prop :=
  consecutive_positive st = 0 \/ consecutive_negative st = 0.

Definition sulk_consistent (st : AffectionState.t) : Prop :=
  forall until, ignore_until st = Some until -> is_ignoring st = true.

Lemma calmed_fields (st : AffectionState.t) :
  score (calmed st) = score st /\
  consecutive_positive (calmed st) = consecutive_positive st /\
  consecutive_negative (calmed st) = consecutive_negative st.
Proof.
  unfold calmed. destruct (is_ignoring st), (ignore_until st); auto.
Qed.

Lemma update_delta_calmed st action context :
  update_delta (calmed st) action context = update_delta st action context.
Proof.
  unfold update_delta. destruct (calmed_fields st) as (-> & -> & ->). reflexivity.
Qed.

Lemma score_in_range_stable : stable clock score_in_range.
Proof.
  apply stable_intro; unfold score_in_range; try (intros; assumption).
  - intros uid t. split; vm_compute; reflexivity.
  - intros st H. destruct (calmed_fields st) as (-> & _). exact H.
  - intros change t_last t_sulk st _. rewrite score_applied. apply clamp_in_0_100.
Qed.

Lemma counted_counters change st :
  ((0 <? change)%float = true ->
   consecutive_positive (counted change st) = consecutive_positive st + 1 /\
   consecutive_negative (counted change st) = 0) /\
  ((change <? 0)%float = true ->
   consecutive_negative (counted change st) = consecutive_negative st + 1 /\
   consecutive_positive (counted change st) = 0) /\
  ((0 <? change)%float = false -> (change <? 0)%float = false ->
   consecutive_positive (counted change st) = consecutive_positive st /\
   consecutive_negative (counted change st) = consecutive_negative st).
Proof.
  unfold counted. split; [|split].
  - intros ->. split; reflexivity.
  - intros H. rewrite (ltb_asym _ _ H), H. split; reflexivity.
  - intros -> ->. split; reflexivity.
Qed.

Lemma counters_exclusive_stable : stable clock counters_exclusive.
Proof.
  apply stable_intro; unfold counters_exclusive; try (intros; assumption).
  - intros uid t. left. reflexivity.
  - intros st H. destruct (calmed_fields st) as (_ & -> & ->). exact H.
  - intros change t_last t_sulk st H.
    destruct (consecutive_applied change t_last t_sulk st) as (-> & ->).
    destruct (counted_counters change st) as (Hpos & Hneg & Hzero).
    destruct (0 <? change)%float eqn:Ep.
    + right. apply Hpos. reflexivity.
    + destruct (change <? 0)%float eqn:En.
      * left. apply Hneg. reflexivity.
      * destruct (Hzero eq_refl eq_refl) as (-> & ->). exact H.
Qed.

Lemma sulk_consistent_stable : stable clock sulk_consistent.
Proof.
  apply stable_intro; unfold sulk_consistent; try (intros; eauto; fail).
  - intros uid t until H. discriminate.
  - intros st H until. unfold calmed.
    destruct (is_ignoring st) eqn:Hi, (ignore_until st) eqn:Hu;
      cbn; rewrite ?Hi, ?Hu; try discriminate; eauto.
  - intros change t_last t_sulk st H until.
    destruct (sulk_applied change t_last t_sulk st) as (-> & ->).
    destruct (sulk_triggered _ _); eauto.
Qed.

End Stable.

(** *** What a call of [update] returns and stores *)

Section UpdateFacts.

Variable str_lower : string -> string.
Variable clock : nat -> Datetime.datetime.

Lemma update_body_returns_stored action context (o : Focus) :
  fst (fst (update_body clock action context o)) =
  score (this (snd (update_body clock action context o))).
Proof.
  destruct (still_sulking (this o) (clock (reads o))) eqn:Hs.
  - destruct (update_body_sulking clock action context o Hs) as (until & _ & ->).
    reflexivity.
  - rewrite (update_body_applied clock action context o Hs). reflexivity.
Qed.

Lemma update_stores (uid action : string) (context : gmap string Z) (s : System) :
  states (snd (update clock uid action context s)) !! uid =
  Some (this (snd (update_body clock action context (entry_focus clock uid s)))).
Proof. rewrite update_unfold. cbn [snd states]. apply lookup_insert_eq. Qed.

Lemma update_returns (uid action : string) (context : gmap string Z) (s : System) :
  fst (update clock uid action context s) =
  fst (update_body clock action context (entry_focus clock uid s)).
Proof. rewrite update_unfold. reflexivity. Qed.

Lemma update_clock_reads (uid action : string) (context : gmap string Z) (s : System) :
  clock_reads (snd (update clock uid action context s)) =
  reads (snd (update_body clock action context (entry_focus clock uid s))).
Proof. rewrite update_unfold. reflexivity. Qed.

Lemma entry_focus_stable (P : AffectionState.t -> Prop) uid s :
  stable clock P -> reachable str_lower clock s ->
  P (this (entry_focus clock uid s)).
Proof.
  intros HP Hs. unfold entry_focus. cbn [this].
  apply (reachable_all_states str_lower clock P _ HP (reach_get_state _ _ s uid Hs) uid).
  apply get_state_bound.
Qed.

End UpdateFacts.

End SystemFacts.

Import SystemFacts.

(** C1. In every system reached from a fresh one by calls of the public
    methods, a call of [update], for any user, action (known, unknown,
    "decay", the bonus actions of special events) and context, leaves the
    user with a stored score in [0,100], which is also the score it returns,
    and leaves every stored score in [0,100]. *)
Theorem update_score_in_range :
  forall (str_lower : string -> string) (clock : nat -> Datetime.datetime)
         (s : AffectionSystem.System) (uid action : string)
         (context : gmap string Z),
    reachable str_lower clock s ->
    let r := AffectionSystem.update clock uid action context s in
    (exists st,
        AffectionSystem.states (snd r) !! uid = Some st /\
        in_0_100 (AffectionState.score st) /\
        fst (fst r) = AffectionState.score st) /\
    all_states score_in_range (snd r).
Proof.
  intros str_lower clock s uid action context Hs r.
  assert (Hall : all_states score_in_range (snd r)).
  { apply (reachable_all_states str_lower clock).
    - apply score_in_range_stable.
    - apply reach_update, Hs. }
  split; [|exact Hall].
  eexists. split; [apply update_stores|]. split.
  - apply (Hall uid). apply update_stores.
  - subst r. rewrite update_returns. apply update_body_returns_stored.
Qed.

(** A clock for running the model: noon of a day, one microsecond later at
    each read. *)
Definition noon_clock (n : nat) : Datetime.datetime :=
  63000000000000000 + 12 * 3600 * Datetime.us_per_second + Z.of_nat n.

Lemma update_score_in_range_witness :
  reachable Py.ascii_lower noon_clock AffectionSystem.init /\
  exists st,
    AffectionSystem.states
      (snd (AffectionSystem.update noon_clock "u" "insult" ∅ AffectionSystem.init))
      !! "u" = Some st /\
    in_0_100 (AffectionState.score st).
Proof.
  split; [constructor|].
  destruct (update_score_in_range Py.ascii_lower noon_clock AffectionSystem.init
              "u" "insult" ∅ (reach_init _ _)) as ((st & Hst & Hrange & _) & _).
  exists st. split; assumption.
Defined.

(** C6. In every reachable system, after a call of [update] the user's
    [consecutive_positive] and [consecutive_negative] are not both nonzero.
    When the call is not turned away by a sulk, a positive delta adds one to
    [consecutive_positive] and sets [consecutive_negative] to 0, a negative
    delta adds one to [consecutive_negative] and sets [consecutive_positive]
    to 0, and any other delta leaves both as they were; a call turned away
    by a sulk leaves both as they were too. *)
Theorem update_consecutive_counters :
  forall (str_lower : string -> string) (clock : nat -> Datetime.datetime)
         (s : AffectionSystem.System) (uid action : string)
         (context : gmap string Z),
    reachable str_lower clock s ->
    let o := entry_focus clock uid s in
    let st := AffectionSystem.this o in
    let st' :=
      AffectionSystem.states
        (snd (AffectionSystem.update clock uid action context s)) !!! uid in
    let change := update_delta st action context in
    (AffectionState.consecutive_positive st' = 0 \/
     AffectionState.consecutive_negative st' = 0) /\
    (still_sulking st (clock (AffectionSystem.reads o)) = false ->
     ((0 <? change)%float = true ->
      AffectionState.consecutive_positive st' =
        AffectionState.consecutive_positive st + 1 /\
      AffectionState.consecutive_negative st' = 0) /\
     ((change <? 0)%float = true ->
      AffectionState.consecutive_negative st' =
        AffectionState.consecutive_negative st + 1 /\
      AffectionState.consecutive_positive st' = 0) /\
     ((0 <? change)%float = false -> (change <? 0)%float = false ->
      AffectionState.consecutive_positive st' =
        AffectionState.consecutive_positive st /\
      AffectionState.consecutive_negative st' =
        AffectionState.consecutive_negative st)) /\
    (still_sulking st (clock (AffectionSystem.reads o)) = true ->
     AffectionState.consecutive_positive st' =
       AffectionState.consecutive_positive st /\
     AffectionState.consecutive_negative st' =
       AffectionState.consecutive_negative st).
Proof.
  intros str_lower clock s uid action context Hs o st st' change.
  assert (Hst' : st' = AffectionSystem.this
                         (snd (AffectionSystem.update_body clock action context o))).
  { subst st'. rewrite lookup_total_alt, update_stores. reflexivity. }
  split; [|split].
  - pose proof (reachable_all_states str_lower clock counters_exclusive _
                  (counters_exclusive_stable clock)
                  (reach_update _ _ s uid action context Hs) uid st') as H.
    apply H. rewrite Hst'. apply update_stores.
  - intros Hfree. rewrite Hst'.
    rewrite (update_body_applied clock action context o Hfree).
    cbn [snd AffectionSystem.this]. fold st.
    destruct (consecutive_applied (update_delta (calmed st) action context)
                (clock (AffectionSystem.reads o + check_reads st)%nat)
                (clock (S (AffectionSystem.reads o + check_reads st)%nat))
                (calmed st)) as (-> & ->).
    rewrite update_delta_calmed. fold change.
    destruct (calmed_fields st) as (_ & Hp & Hn).
    destruct (counted_counters change (calmed st)) as (Hpos & Hneg & Hzero).
    split; [|split].
    + intros H. rewrite <- Hp. apply Hpos, H.
    + intros H. rewrite <- Hn. apply Hneg, H.
    + intros H1 H2. rewrite <- Hp, <- Hn. apply Hzero; assumption.
  - intros Hsulk. rewrite Hst'.
    destruct (update_body_sulking clock action context o Hsulk) as (until & _ & ->).
    split; reflexivity.
Qed.

Lemma update_consecutive_counters_witness :
  reachable Py.ascii_lower noon_clock AffectionSystem.init /\
  let st' :=
    AffectionSystem.states
      (snd (AffectionSystem.update noon_clock "u" "gift" ∅ AffectionSystem.init))
      !!! "u" in
  AffectionState.consecutive_positive st' = 1 /\
  AffectionState.consecutive_negative st' = 0.
Proof.
  split; [constructor|].
  destruct (update_consecutive_counters Py.ascii_lower noon_clock
              AffectionSystem.init "u" "gift" ∅ (reach_init _ _))
    as (_ & Hfree & _).
  destruct (Hfree eq_refl) as (Hpos & _ & _).
  apply Hpos. vm_compute. reflexivity.
Defined.

(** C5. In every reachable system: a call of [update] that is not turned
    away by a sulk, whose delta (the post-clamp delta of [calculate_change])
    is at most -5 and whose resulting stored score is below 50, leaves the
    user with [is_ignoring] true and [ignore_until] exactly 30 minutes after
    the time the clock shows when it is set, which is the last clock read of
    the call; and a call made while the clock is before the user's
    [ignore_until] returns the stored score with the still-upset message for
    the remaining minutes and leaves the user's record, its score included,
    as it was. *)
Theorem update_sulk :
  forall (str_lower : string -> string) (clock : nat -> Datetime.datetime)
         (s : AffectionSystem.System) (uid action : string)
         (context : gmap string Z),
    reachable str_lower clock s ->
    let o := entry_focus clock uid s in
    let st := AffectionSystem.this o in
    let r := AffectionSystem.update clock uid action context s in
    let change := update_delta st action context in
    let new_score := Py.max2 0 (Py.min2 100 (AffectionState.score st + change)) in
    (still_sulking st (clock (AffectionSystem.reads o)) = false ->
     (change <=? -5)%float = true ->
     (new_score <? 50)%float = true ->
     exists st',
       AffectionSystem.states (snd r) !! uid = Some st' /\
       AffectionState.score st' = new_score /\
       AffectionState.is_ignoring st' = true /\
       AffectionState.ignore_until st' =
         Some (clock (pred (AffectionSystem.clock_reads (snd r)))
               + Datetime.minutes 30)) /\
    (forall until,
       AffectionState.ignore_until st = Some until ->
       clock (AffectionSystem.reads o) < until ->
       AffectionSystem.states (snd r) !! uid = Some st /\
       fst r =
         (AffectionState.score st,
          AffectionSystem.still_angry
            (Datetime.seconds (until - clock (S (AffectionSystem.reads o))) / 60))).
Proof.
  intros str_lower clock s uid action context Hs o st r change new_score.
  split.
  - intros Hfree Hle Hlow.
    exists (AffectionSystem.this
              (snd (AffectionSystem.update_body clock action context o))).
    split; [apply update_stores|].
    subst r. rewrite update_clock_reads. fold o.
    rewrite (update_body_applied clock action context o Hfree).
    cbn [snd AffectionSystem.this AffectionSystem.reads]. fold st.
    destruct (calmed_fields st) as (Hscore & _).
    rewrite update_delta_calmed, Hscore. fold change. fold new_score.
    assert (Htrig : sulk_triggered change new_score = true).
    { unfold sulk_triggered.
      destruct (leb_minus5_negative change Hle) as (Hneg & Hpos).
      rewrite Hpos, Hneg, Hle, Hlow. reflexivity. }
    rewrite Htrig. cbn [pred].
    rewrite score_applied, Hscore. fold new_score.
    destruct (sulk_applied change
                (clock (AffectionSystem.reads o + check_reads st)%nat)
                (clock (S (AffectionSystem.reads o + check_reads st)%nat))
                (calmed st)) as (Hi & Hu).
    rewrite Hscore in Hi, Hu. fold new_score in Hi, Hu.
    rewrite Htrig in Hi, Hu. auto.
  - intros deadline Huntil Hbefore.
    assert (Hsulk : still_sulking st (clock (AffectionSystem.reads o)) = true).
    { assert (Hi : AffectionState.is_ignoring st = true)
        by exact (entry_focus_stable str_lower clock sulk_consistent uid s
                    (sulk_consistent_stable clock) Hs deadline Huntil).
      unfold still_sulking. rewrite Hi, Huntil. apply Z.ltb_lt, Hbefore. }
    destruct (update_body_sulking clock action context o Hsulk)
      as (until' & Huntil' & Hbody).
    fold st in Huntil'. rewrite Huntil in Huntil'. injection Huntil' as <-.
    subst r. split.
    + rewrite update_stores. fold o. rewrite Hbody. reflexivity.
    + rewrite update_returns. fold o. rewrite Hbody. reflexivity.
Qed.

Lemma update_sulk_witness :
  reachable Py.ascii_lower noon_clock AffectionSystem.init /\
  (exists st',
      AffectionSystem.states
        (snd (AffectionSystem.update noon_clock "u" "insult" ∅ AffectionSystem.init))
        !! "u" = Some st' /\
      AffectionState.score st' = 7%float /\
      AffectionState.is_ignoring st' = true /\
      AffectionState.ignore_until st' =
        Some (noon_clock 2 + Datetime.minutes 30)) /\
  let s1 :=
    snd (AffectionSystem.update noon_clock "u" "insult" ∅ AffectionSystem.init) in
  reachable Py.ascii_lower noon_clock s1 /\
  fst (fst (AffectionSystem.update noon_clock "u" "gift" ∅ s1)) = 7%float /\
  AffectionState.score
    (AffectionSystem.states
       (snd (AffectionSystem.update noon_clock "u" "gift" ∅ s1)) !!! "u") = 7%float.
Proof.
  split; [constructor|]. split.
  - destruct (update_sulk Py.ascii_lower noon_clock AffectionSystem.init
                "u" "insult" ∅ (reach_init _ _)) as (Hset & _).
    destruct Hset as (st' & Hst & Hscore & Hi & Hu);
      [vm_compute; reflexivity ..|].
    exists st'. repeat split; assumption.
  - intros s1.
    assert (Hs1 : reachable Py.ascii_lower noon_clock s1)
      by (apply reach_update; constructor).
    split; [exact Hs1|].
    destruct (update_sulk Py.ascii_lower noon_clock s1 "u" "gift" ∅ Hs1)
      as (_ & Hkept).
    destruct (Hkept (noon_clock 2 + Datetime.minutes 30)) as (Hst & Hret);
      [vm_compute; reflexivity ..|].
    split.
    + rewrite Hret. vm_compute. reflexivity.
    + rewrite lookup_total_alt, Hst. vm_compute. reflexivity.
Defined.

(** The end-to-end scenario of the specification: a user at the default
    score 20 sends a message with a rude keyword and no positive one. The
    action is "rude", amplified by 1.3 below 30 to a delta of -6.5; the
    score becomes 13.5 and the user is ignored for 30 minutes. *)
Example process_message_rude_scenario :
  let r :=
    AffectionSystem.process_message Py.ascii_lower noon_clock "u"
      "you are stupid" None AffectionSystem.init in
  let st := AffectionSystem.states (snd r) !!! "u" in
  fst r = (13.5%float, "（少し悲しそう）", ["rude"]) /\
  AffectionState.is_ignoring st = true /\
  AffectionState.ignore_until st = Some (noon_clock 3 + Datetime.minutes 30) /\
  AffectionState.consecutive_negative st = 1.
Proof. cbv zeta. repeat split; vm_compute; reflexivity. Qed.



(** ** AffectionSystem.process_message *)

Module ProcessMessageFacts.

Import StateMonad AffectionState AffectionSystem.

Section Trace.

Variable str_lower : string -> string.
Variable clock : nat -> Datetime.datetime.

Lemma update_trace uid action context s :
  update_calls (snd (update clock uid action context s)) =
  update_calls s ++ [(uid, action)].
Proof. rewrite update_unfold. reflexivity. Qed.

Lemma for_each_update_trace uid (actions : list string) s :
  update_calls
    (snd (for_each actions (fun action => update clock uid action ∅) s)) =
  update_calls s ++ map (pair uid) actions.
Proof.
  revert s. induction actions as [|a actions IH]; intros s; cbn [for_each map].
  - cbn. rewrite app_nil_r. reflexivity.
  - unfold bind.
    destruct (update clock uid a ∅ s) as [res s'] eqn:Hu.
    rewrite IH.
    change s' with (snd (res, s')). rewrite <- Hu, update_trace.
    rewrite <- app_assoc. reflexivity.
Qed.

Lemma on_object_trace {A} (r : ref) (body : Obj A) s :
  update_calls (snd (on_object r body s)) = update_calls s.
Proof. unfold on_object. destruct (body _). reflexivity. Qed.

(** [_apply_decay] calls [update] with "decay" once or not at all. *)
Lemma apply_decay_trace uid s :
  update_calls (snd (_apply_decay clock uid s)) = update_calls s \/
  update_calls (snd (_apply_decay clock uid s)) =
    update_calls s ++ [(uid, "decay")].
Proof.
  unfold _apply_decay, bind.
  destruct (get_state clock uid s) as [r s1] eqn:Hg.
  assert (H1 : update_calls s1 = update_calls s)
    by (change s1 with (snd (r, s1)); rewrite <- Hg; apply get_state_calls).
  unfold datetime_now.
  set (s2 := {| states := states s1; clock_reads := S (clock_reads s1);
                update_calls := update_calls s1 |}).
  destruct (deref r s2) as [st s3] eqn:Hd.
  assert (H3 : update_calls s3 = update_calls s).
  { change s3 with (snd (st, s3)). rewrite <- Hd. unfold deref.
    rewrite on_object_trace. exact H1. }
  destruct (AffectionCalculator.DECAY_THRESHOLD_DAYS <=? _).
  - right. destruct (update clock uid "decay" _ s3) as [res s4] eqn:Hu.
    cbn [ret snd]. change s4 with (snd (res, s4)).
    rewrite <- Hu, update_trace, H3. reflexivity.
  - left. exact H3.
Qed.

(** The [update] calls of one [process_message]: the triggered actions in
    order, or "base_message" when there is none, then at most one "decay";
    and the score returned is the one stored when the call ends. *)
Lemma process_message_effect uid message response_time s
  (returned : float) (feedback : string) (actions : list string) (s' : System) :
  process_message str_lower clock uid message response_time s =
    (returned, feedback, actions, s') ->
  let applied_actions :=
    match actions with [] => ["base_message"] | _ => actions end in
  (update_calls s' = update_calls s ++ map (pair uid) applied_actions \/
   update_calls s' =
     update_calls s ++ map (pair uid) applied_actions ++ [(uid, "decay")]) /\
  states s' !! uid = Some (states s' !!! uid) /\
  returned = score (states s' !!! uid).
Proof.
  unfold process_message.
  destruct (AffectionCalculator.analyze_message_sentiment str_lower message)
    as [name magnitude].
  unfold bind at 1.
  destruct (get_state clock uid s) as [r0 s1] eqn:Hg.
  assert (Hr0 : r0 = uid)
    by (change r0 with (fst (r0, s1)); rewrite <- Hg; apply get_state_ref).
  subst r0.
  assert (H1 : update_calls s1 = update_calls s)
    by (pose proof (get_state_calls clock uid s) as H; rewrite Hg in H; exact H).
  unfold bind at 1. unfold datetime_now.
  match goal with |- context [for_each ?l _] => set (triggered := l) end.
  set (s2 := {| states := states s1; clock_reads := S (clock_reads s1);
                update_calls := update_calls s1 |}).
  unfold bind at 1.
  destruct (for_each triggered _ s2) as [u3 s3] eqn:Hf.
  assert (H3 : update_calls s3 = update_calls s ++ map (pair uid) triggered).
  { change s3 with (snd (u3, s3)). rewrite <- Hf, for_each_update_trace.
    cbn [update_calls s2]. rewrite H1. reflexivity. }
  unfold bind at 1.
  set (base := match triggered with
               | [] => _
               | _ => _
               end).
  destruct (base s3) as [u4 s4] eqn:Hb.
  assert (H4 : update_calls s4 = update_calls s ++
                 map (pair uid)
                   match triggered with [] => ["base_message"] | _ => triggered end).
  { subst base. destruct triggered as [|a l].
    - unfold bind in Hb.
      destruct (update clock uid "base_message" ∅ s3) as [res s0] eqn:Hu.
      cbn [ret] in Hb. injection Hb as _ <-.
      change s0 with (snd (res, s0)). rewrite <- Hu, update_trace, H3.
      cbn [map]. rewrite app_nil_r. reflexivity.
    - cbn [ret] in Hb. injection Hb as _ <-. exact H3. }
  unfold bind at 1.
  destruct (_apply_decay clock uid s4) as [u5 s5] eqn:Hdec.
  assert (H5 : update_calls s5 = update_calls s4 \/
               update_calls s5 = update_calls s4 ++ [(uid, "decay")]).
  { change s5 with (snd (u5, s5)). rewrite <- Hdec. apply apply_decay_trace. }
  unfold bind, deref, on_object, read, ret.
  cbn [fst snd this reads states clock_reads update_calls id].
  intros [= <- _ <- <-].
  cbn [states update_calls].
  rewrite !lookup_total_alt, !lookup_insert_eq. cbn [default from_option].
  split; [|split; reflexivity].
  rewrite H4 in H5. rewrite <- app_assoc in H5. exact H5.
Qed.

End Trace.

End ProcessMessageFacts.

(** C3, as the code has it. The score [process_message] returns is the
    score stored for the user when the call ends: the [update] calls of all
    triggered actions, in order, or of "base_message" when there is none,
    and the decay check with its possible "decay" call have been made before
    it is read through the reference taken at entry. *)
Theorem process_message_returns_stored_score :
  forall (str_lower : string -> string) (clock : nat -> Datetime.datetime)
         (s : AffectionSystem.System) (uid message : string)
         (response_time_seconds : option float),
    let r :=
      AffectionSystem.process_message str_lower clock uid message
        response_time_seconds s in
    let returned := fst (fst (fst r)) in
    let actions := snd (fst r) in
    let applied_actions :=
      match actions with [] => ["base_message"] | _ => actions end in
    (exists st,
        AffectionSystem.states (snd r) !! uid = Some st /\
        returned = AffectionState.score st) /\
    (exists decay,
        AffectionSystem.update_calls (snd r) =
          AffectionSystem.update_calls s ++ map (pair uid) applied_actions ++ decay /\
        (decay = [] \/ decay = [(uid, "decay")])).
Proof.
  intros str_lower clock s uid message response_time_seconds r.
  destruct r as [[[returned feedback] actions] s'] eqn:Hr.
  cbn [fst snd].
  destruct (ProcessMessageFacts.process_message_effect str_lower clock uid
              message response_time_seconds s returned feedback actions s' Hr)
    as (Htrace & Hbound & Hscore).
  split.
  - eexists. split; [exact Hbound | exact Hscore].
  - destruct Htrace as [Ht|Ht].
    + exists []. rewrite app_nil_r. auto.
    + exists [(uid, "decay")]. auto.
Qed.

(** C3, as the claim has it, fails: for a new user, whose score at entry is
    the default 20.0, the message "I love you" triggers "compliment" and the
    call returns 22.0, the score after that action. *)
Lemma process_message_returns_pre_update_score_counterexample :
  let r :=
    AffectionSystem.process_message Py.ascii_lower noon_clock "u" "I love you"
      None AffectionSystem.init in
  let score_at_entry :=
    AffectionState.score
      (AffectionSystem.this (entry_focus noon_clock "u" AffectionSystem.init)) in
  score_at_entry = 20.0%float /\
  snd (fst r) = ["compliment"] /\
  fst (fst (fst r)) = 22.0%float /\
  fst (fst (fst r)) <> score_at_entry.
Proof.
  cbv zeta. repeat split; try (vm_compute; reflexivity).
  intros H. apply (f_equal (fun x => (x <? 21)%float)) in H.
  vm_compute in H. discriminate.
Qed.

(** A clock for two messages three days apart: the four reads of the first
    message at noon, every later read three days after. *)
Definition three_days_clock (n : nat) : Datetime.datetime :=
  if (n <? 4)%nat then noon_clock 0
  else noon_clock 0 + 3 * Datetime.us_per_day.

(** C4 fails on the code. A user writes "hello" and, three days later,
    "hello" again. At entry of the second call the user has been inactive
    for 3 days, which is over the threshold of 2, yet the only [update] call
    the second message makes is "base_message": it sets [last_interaction]
    to the present before [_apply_decay] looks at it, so no "decay" is
    applied, first or later, and the score stays 20.0, where a decay applied
    at entry would have made it 19.4. *)
Theorem process_message_decay_not_applied :
  let clock := three_days_clock in
  let s1 :=
    snd (AffectionSystem.process_message Py.ascii_lower clock "u" "hello" None
           AffectionSystem.init) in
  let days_inactive_at_entry :=
    Datetime.days
      (clock (AffectionSystem.clock_reads s1)
       - AffectionState.last_interaction (AffectionSystem.states s1 !!! "u")) in
  let r :=
    AffectionSystem.process_message Py.ascii_lower clock "u" "hello" None s1 in
  days_inactive_at_entry = 3 /\
  AffectionCalculator.DECAY_THRESHOLD_DAYS <= days_inactive_at_entry /\
  AffectionSystem.update_calls s1 = [("u", "base_message")] /\
  AffectionSystem.update_calls (snd r) =
    [("u", "base_message"); ("u", "base_message")] /\
  fst r = (20.0%float, "", []) /\
  fst (fst (AffectionSystem.update clock "u" "decay"
              {["days_inactive" := days_inactive_at_entry]} s1)) = 19.4%float.
Proof.
  cbv zeta. repeat split; try (vm_compute; reflexivity).
  vm_compute. discriminate.
Qed.

(** In general, whatever "decay" call [process_message] makes comes after
    the calls for the triggered actions, of which there is at least one. *)
Lemma process_message_decay_last :
  forall (str_lower : string -> string) (clock : nat -> Datetime.datetime)
         (s : AffectionSystem.System) (uid message : string)
         (response_time_seconds : option float),
    exists (first : string * string) (others decay : list (string * string)),
      AffectionSystem.update_calls
        (snd (AffectionSystem.process_message str_lower clock uid message
                response_time_seconds s)) =
        AffectionSystem.update_calls s ++ first :: others ++ decay /\
      (decay = [] \/ decay = [(uid, "decay")]).
Proof.
  intros str_lower clock s uid message response_time_seconds.
  destruct (AffectionSystem.process_message str_lower clock uid message
              response_time_seconds s) as [[[returned feedback] actions] s'] eqn:Hr.
  destruct (ProcessMessageFacts.process_message_effect str_lower clock uid
              message response_time_seconds s returned feedback actions s' Hr)
    as (Htrace & _).
  cbn [snd].
  destruct actions as [|a l]; cbn [map app] in Htrace;
    destruct Htrace as [Ht|Ht]; rewrite Ht.
  - exists (uid, "base_message"), [], []. auto.
  - exists (uid, "base_message"), [], [(uid, "decay")]. auto.
  - exists (uid, a), (map (pair uid) l), []. rewrite app_nil_r. auto.
  - exists (uid, a), (map (pair uid) l), [(uid, "decay")]. auto.
Qed.

(** ** ShortTermMemory *)

Module ShortTermMemoryFacts.

Import ShortTermMemory.

(** The last [n] elements of a list, all of it when it is shorter. *)
Definition last_n {A} (n : nat) (l : list A) : list A :=
  drop (length l - n) l.

Lemma last_n_length {A} (n : nat) (l : list A) :
  length (last_n n l) = Nat.min n (length l).
Proof. unfold last_n. rewrite length_drop. lia. Qed.

Lemma last_n_all {A} (n : nat) (l : list A) :
  (length l <= n)%nat -> last_n n l = l.
Proof.
  intros H. unfold last_n. replace (length l - n)%nat with 0%nat by lia.
  reflexivity.
Qed.

Lemma last_n_app {A} (n : nat) (x y : list A) :
  last_n n (last_n n x ++ y) = last_n n (x ++ y).
Proof.
  unfold last_n. rewrite !length_app, length_drop.
  rewrite <- (drop_app_le x y (length x - n)) by lia.
  rewrite drop_drop. f_equal. lia.
Qed.

(** A negative slice start [-k], k at least 1, keeps the last k elements. *)
Lemma slice_from_neg {A} (k : Z) (l : list A) :
  1 <= k -> Py.slice_from (- k) l = last_n (Z.to_nat k) l.
Proof.
  intros Hk. unfold Py.slice_from, last_n.
  destruct (- k <? 0) eqn:Hneg; [|apply Z.ltb_ge in Hneg; lia].
  f_equal. lia.
Qed.

(** A slice start of 0, which is what [-0] is, keeps everything. *)
Lemma slice_from_zero {A} (l : list A) : Py.slice_from (- 0) l = l.
Proof. reflexivity. Qed.

Section Buffer.

Variable clock : nat -> Datetime.datetime.
Variable isoformat : Datetime.datetime -> string.
Variable md5_hexdigest : string -> string.

(** The user's list of turns, empty when there is none. *)
Definition buffer (m : t) (uid : string) : list ConversationTurn :=
  default [] (conversations m !! uid).

(** One [add_turn]: the new turn is appended, and a list longer than
    [max_turns] is cut by the slice. *)
Lemma add_turn_buffer (uid : string) (a : TurnArgs) (m : t) :
  let turn :=
    make_turn isoformat md5_hexdigest uid
      (clock (clock_reads m)) (clock (S (clock_reads m))) a in
  let appended := buffer m uid ++ [turn] in
  conversations (add_turn clock isoformat md5_hexdigest uid a m) !! uid =
    Some (if max_turns m <? Z.of_nat (length appended)
          then Py.slice_from (- max_turns m) appended
          else appended) /\
  max_turns (add_turn clock isoformat md5_hexdigest uid a m) = max_turns m /\
  clock_reads (add_turn clock isoformat md5_hexdigest uid a m) =
    S (S (clock_reads m)).
Proof.
  unfold add_turn, buffer. cbn [conversations max_turns clock_reads].
  split; [|split; reflexivity].
  destruct (conversations m !! uid) as [l|] eqn:Hl; cbn [default].
  - rewrite !lookup_total_alt, !lookup_alter_eq, Hl. cbn [fmap option_fmap option_map default].
    destruct (max_turns m <? _).
    + apply lookup_insert_eq.
    + rewrite lookup_alter_eq, Hl. reflexivity.
  - rewrite !lookup_total_alt, !lookup_alter_eq, !lookup_insert_eq.
    cbn [fmap option_fmap option_map default].
    destruct (max_turns m <? _).
    + apply lookup_insert_eq.
    + rewrite lookup_alter_eq, lookup_insert_eq. reflexivity.
Qed.

(** With a capacity of at least 1, the buffer holds the last [max_turns] of
    the turns it held and the turns added since. *)
Lemma add_turns_buffer (uid : string) (calls : list TurnArgs) (m : t) :
  1 <= max_turns m ->
  (length (buffer m uid) <= Z.to_nat (max_turns m))%nat ->
  let m' := add_turns clock isoformat md5_hexdigest uid calls m in
  max_turns m' = max_turns m /\
  (calls <> [] ->
   conversations m' !! uid =
     Some (last_n (Z.to_nat (max_turns m))
             (buffer m uid ++
              turns_made clock isoformat md5_hexdigest uid (clock_reads m) calls))).
Proof.
  revert m. induction calls as [|a calls IH]; intros m Hcap Hlen; cbn zeta.
  - split; [reflexivity|]. intros H. contradiction.
  - unfold add_turns. cbn [foldl turns_made].
    destruct (add_turn_buffer uid a m) as (Hbuf & Hmax & Hreads).
    set (m1 := add_turn clock isoformat md5_hexdigest uid a m) in *.
    set (turn := make_turn _ _ _ _ _ _) in *.
    assert (Hb1 : buffer m1 uid =
                  last_n (Z.to_nat (max_turns m)) (buffer m uid ++ [turn])).
    { unfold buffer in *. rewrite Hbuf. cbn [default].
      destruct (max_turns m <? _) eqn:Hover.
      - apply slice_from_neg, Hcap.
      - apply Z.ltb_ge in Hover. symmetry. apply last_n_all.
        apply Nat2Z.inj_le. rewrite Z2Nat.id by lia. exact Hover. }
    assert (Hlen1 : (length (buffer m1 uid) <= Z.to_nat (max_turns m1))%nat).
    { rewrite Hb1, Hmax, last_n_length. lia. }
    destruct (IH m1) as (IHmax & IHbuf); [rewrite Hmax; exact Hcap | exact Hlen1|].
    fold (add_turns clock isoformat md5_hexdigest uid calls m1).
    split; [rewrite IHmax; exact Hmax|]. intros _.
    destruct calls as [|b calls].
    + cbn [add_turns foldl turns_made]. unfold buffer in Hb1.
      destruct (conversations m1 !! uid) as [l|] eqn:Hl.
      * f_equal. exact Hb1.
      * congruence.
    + rewrite IHbuf by discriminate.
      rewrite Hmax, Hreads, Hb1, last_n_app, <- app_assoc. reflexivity.
Qed.

End Buffer.

End ShortTermMemoryFacts.

Import ShortTermMemoryFacts.

Lemma turns_made_length clock isoformat md5_hexdigest uid r calls :
  length (ShortTermMemory.turns_made clock isoformat md5_hexdigest uid r calls)
  = length calls.
Proof.
  revert r. induction calls as [|a calls IH]; intros r; cbn; [|rewrite IH];
    reflexivity.
Qed.

Lemma get_recent_context_last_n (m : ShortTermMemory.t) (uid : string) (n : Z) :
  1 <= n ->
  ShortTermMemory.get_recent_context m uid n =
  last_n (Z.to_nat n) (buffer m uid).
Proof.
  intros Hn. unfold ShortTermMemory.get_recent_context, buffer.
  destruct (default [] (ShortTermMemory.conversations m !! uid)) as [|x l].
  - reflexivity.
  - apply slice_from_neg, Hn.
Qed.

(** X29. With capacity N >= 1, N+1 calls of [add_turn] for a user on a new
    [ShortTermMemory] leave the user's buffer with exactly the N turns made
    last, in the order they were made: the first turn is the one evicted.
    For n >= 1, [get_recent_context(user, n)] on any memory is the last n
    turns of the user's buffer (all of them when there are fewer), in buffer
    order. *)
Theorem add_turn_keeps_last_turns :
  forall (clock : nat -> Datetime.datetime)
         (isoformat : Datetime.datetime -> string)
         (md5_hexdigest : string -> string)
         (N : Z) (uid : string) (calls : list ShortTermMemory.TurnArgs),
    1 <= N ->
    Z.of_nat (length calls) = N + 1 ->
    let m :=
      ShortTermMemory.add_turns clock isoformat md5_hexdigest uid calls
        (ShortTermMemory.new N) in
    let made :=
      ShortTermMemory.turns_made clock isoformat md5_hexdigest uid 0 calls in
    ShortTermMemory.conversations m !! uid = Some (drop 1 made) /\
    Z.of_nat (length (drop 1 made)) = N /\
    forall (m' : ShortTermMemory.t) (n : Z),
      1 <= n ->
      ShortTermMemory.get_recent_context m' uid n =
      last_n (Z.to_nat n) (buffer m' uid).
Proof.
  intros clock isoformat md5_hexdigest N uid calls HN Hcalls m made.
  split; [|split].
  - destruct (add_turns_buffer clock isoformat md5_hexdigest uid calls
                (ShortTermMemory.new N)) as (_ & Hbuf).
    + exact HN.
    + unfold buffer.
      cbn [ShortTermMemory.new ShortTermMemory.conversations
           ShortTermMemory.max_turns].
      rewrite lookup_empty. cbn. lia.
    + subst m. rewrite Hbuf by (intros ->; cbn in Hcalls; lia).
      unfold buffer. cbn [ShortTermMemory.new ShortTermMemory.conversations
                          ShortTermMemory.max_turns ShortTermMemory.clock_reads].
      rewrite lookup_empty. cbn [default app]. fold made.
      unfold last_n. f_equal. f_equal.
      subst made. rewrite turns_made_length. lia.
  - rewrite length_drop. subst made. rewrite turns_made_length. lia.
  - intros m' n Hn. apply get_recent_context_last_n, Hn.
Qed.

(** Stand-ins for [isoformat] and the MD5 digest when the model is run; no
    property depends on what they return. *)
Definition demo_isoformat (t : Datetime.datetime) : string := pretty t.
Definition demo_digest (text : string) : string := text.

Definition demo_call (text : string) : ShortTermMemory.TurnArgs :=
  {| ShortTermMemory.arg_user_message := text;
     ShortTermMemory.arg_bot_response := "ok";
     ShortTermMemory.arg_emotional_context := None;
     ShortTermMemory.arg_topics := None |}.

Lemma add_turn_keeps_last_turns_witness :
  1 <= 2 /\
  Z.of_nat (length [demo_call "a"; demo_call "b"; demo_call "c"]) = 2 + 1 /\
  map ShortTermMemory.user_message
    (buffer
       (ShortTermMemory.add_turns noon_clock demo_isoformat demo_digest "u"
          [demo_call "a"; demo_call "b"; demo_call "c"] (ShortTermMemory.new 2))
       "u") = ["b"; "c"].
Proof.
  split; [lia|]. split; [reflexivity|].
  destruct (add_turn_keeps_last_turns noon_clock demo_isoformat demo_digest 2 "u"
              [demo_call "a"; demo_call "b"; demo_call "c"])
    as (Hbuf & _ & _); [lia | reflexivity |].
  unfold buffer. rewrite Hbuf. reflexivity.
Defined.

(** At capacity 0 [add_turn] keeps what it appends: the length is over the
    capacity, so the truncation of line 108 runs, and its slice [lst[-0:]]
    is the whole list. *)
Lemma add_turn_capacity_zero clock isoformat md5_hexdigest
  (uid : string) (a : ShortTermMemory.TurnArgs) (m : ShortTermMemory.t) :
  ShortTermMemory.max_turns m = 0 ->
  buffer (ShortTermMemory.add_turn clock isoformat md5_hexdigest uid a m) uid =
  buffer m uid ++
  [ShortTermMemory.make_turn isoformat md5_hexdigest uid
     (clock (ShortTermMemory.clock_reads m))
     (clock (S (ShortTermMemory.clock_reads m))) a].
Proof.
  intros Hcap.
  destruct (add_turn_buffer clock isoformat md5_hexdigest uid a m) as (Hbuf & _).
  cbv zeta in Hbuf. unfold buffer at 1. rewrite Hbuf, Hcap.
  cbn [default from_option]. unfold Datatypes.id.
  destruct (0 <? _); [apply slice_from_zero | reflexivity].
Qed.

Lemma add_turns_capacity_zero clock isoformat md5_hexdigest
  (uid : string) (calls : list ShortTermMemory.TurnArgs) (m : ShortTermMemory.t) :
  ShortTermMemory.max_turns m = 0 ->
  buffer (ShortTermMemory.add_turns clock isoformat md5_hexdigest uid calls m) uid =
  buffer m uid ++
  ShortTermMemory.turns_made clock isoformat md5_hexdigest uid
    (ShortTermMemory.clock_reads m) calls.
Proof.
  revert m. induction calls as [|a calls IH]; intros m Hcap.
  - cbn. rewrite app_nil_r. reflexivity.
  - unfold ShortTermMemory.add_turns. cbn [foldl ShortTermMemory.turns_made].
    fold (ShortTermMemory.add_turns clock isoformat md5_hexdigest uid calls
            (ShortTermMemory.add_turn clock isoformat md5_hexdigest uid a m)).
    destruct (add_turn_buffer clock isoformat md5_hexdigest uid a m)
      as (_ & Hmax & Hreads).
    rewrite IH by (rewrite Hmax; exact Hcap).
    rewrite (add_turn_capacity_zero _ _ _ uid a m Hcap), Hreads, <- app_assoc.
    reflexivity.
Qed.

(** C8 fails on the code at a capacity of 0, and at a count of 0. With
    capacity 0 the claim has the buffer hold the last 0 turns, none. In the
    code every [add_turn] finds the length over the capacity and truncates
    with the slice [lst[-0:]], which is the whole list: nothing is ever
    evicted, and after any number of calls on a new memory of capacity 0 the
    buffer holds every turn made, in order, as many turns as there were
    calls. [get_recent_context(user, 0)] cuts with the same slice and
    returns, on any memory, the whole buffer of the user, where the last 0
    turns are none. *)
Theorem add_turn_capacity_zero_keeps_every_turn :
  forall (clock : nat -> Datetime.datetime)
         (isoformat : Datetime.datetime -> string)
         (md5_hexdigest : string -> string)
         (uid : string) (calls : list ShortTermMemory.TurnArgs),
    let m :=
      ShortTermMemory.add_turns clock isoformat md5_hexdigest uid calls
        (ShortTermMemory.new 0) in
    buffer m uid =
      ShortTermMemory.turns_made clock isoformat md5_hexdigest uid 0 calls /\
    length (buffer m uid) = length calls /\
    forall m' : ShortTermMemory.t,
      ShortTermMemory.get_recent_context m' uid 0 = buffer m' uid.
Proof.
  intros clock isoformat md5_hexdigest uid calls m.
  assert (Hall : buffer m uid =
                 ShortTermMemory.turns_made clock isoformat md5_hexdigest uid 0 calls).
  { subst m. rewrite add_turns_capacity_zero by reflexivity.
    unfold buffer.
    cbn [ShortTermMemory.new ShortTermMemory.conversations
         ShortTermMemory.clock_reads].
    rewrite lookup_empty. reflexivity. }
  split; [exact Hall|]. split.
  - rewrite Hall. apply turns_made_length.
  - intros m'. unfold ShortTermMemory.get_recent_context, buffer.
    destruct (default [] (ShortTermMemory.conversations m' !! uid));
      [reflexivity | apply slice_from_zero].
Qed.

(** A run of it: three calls at capacity 0 leave three turns in the buffer,
    the oldest among them; and [get_recent_context(user, 0)] on a memory of
    capacity 2 that holds two turns returns both. *)
Example add_turn_capacity_zero_run :
  let m0 :=
    ShortTermMemory.add_turns noon_clock demo_isoformat demo_digest "u"
      [demo_call "a"; demo_call "b"; demo_call "c"] (ShortTermMemory.new 0) in
  let m2 :=
    ShortTermMemory.add_turns noon_clock demo_isoformat demo_digest "u"
      [demo_call "a"; demo_call "b"] (ShortTermMemory.new 2) in
  map ShortTermMemory.user_message (buffer m0 "u") = ["a"; "b"; "c"] /\
  length (buffer m0 "u") <> Z.to_nat 0 /\
  map ShortTermMemory.user_message
    (ShortTermMemory.get_recent_context m2 "u" 0) = ["a"; "b"] /\
  ShortTermMemory.get_recent_context m2 "u" 0 <> last_n 0 (buffer m2 "u").
Proof.
  cbv zeta. split; [vm_compute; reflexivity|]. split; [vm_compute; lia|].
  split; [vm_compute; reflexivity|].
  intros H. apply (f_equal length) in H. vm_compute in H. discriminate.
Qed.

(** ** KnowledgeIntegrator *)

Module KnowledgeIntegratorFacts.

Import KnowledgeIntegrator.

(** Appending to a list the texts it does not hold yet, one at a time. *)
Definition merge_into (l : list string) (texts : list string) : list string :=
  foldl (fun l c => if bool_decide (c ∈ l) then l else l ++ [c]) l texts.

Lemma merge_into_present (l texts : list string) :
  (forall c, c ∈ texts -> c ∈ l) -> merge_into l texts = l.
Proof.
  revert l. induction texts as [|c texts IH]; intros l Hall; cbn.
  - reflexivity.
  - rewrite bool_decide_eq_true_2 by (apply Hall; left).
    apply IH. intros c' Hc'. apply Hall. right. exact Hc'.
Qed.

Lemma merge_into_keeps (l texts : list string) (c : string) :
  c ∈ l -> c ∈ merge_into l texts.
Proof.
  revert l. induction texts as [|c' texts IH]; intros l Hc; cbn.
  - exact Hc.
  - apply IH. destruct (bool_decide (c' ∈ l)); [exact Hc|].
    apply elem_of_app. left. exact Hc.
Qed.

Lemma merge_into_adds (l texts : list string) (c : string) :
  c ∈ texts -> c ∈ merge_into l texts.
Proof.
  revert l. induction texts as [|c' texts IH]; intros l Hc; cbn.
  - inversion Hc.
  - apply elem_of_cons in Hc as [->|Hc].
    + apply merge_into_keeps.
      destruct (bool_decide (c' ∈ l)) eqn:Hd.
      * apply bool_decide_eq_true in Hd. exact Hd.
      * apply elem_of_app. right. left.
    + apply IH, Hc.
Qed.

Lemma merge_into_NoDup (l texts : list string) :
  NoDup l -> NoDup (merge_into l texts).
Proof.
  revert l. induction texts as [|c texts IH]; intros l Hl; cbn.
  - exact Hl.
  - apply IH. destruct (bool_decide (c ∈ l)) eqn:Hd; [exact Hl|].
    apply bool_decide_eq_false in Hd.
    apply NoDup_app. split; [exact Hl|]. split.
    + intros x Hx Hx'. apply list_elem_of_singleton in Hx'. subst x. contradiction.
    + apply NoDup_singleton.
Qed.

(** The loop of a block, once the list named [key] exists. *)
Lemma bucket_loop (key : string) (bucket : list LearnedInsight)
  (data : Document) (l : list string) :
  data !! key = Some l ->
  foldl
    (fun learned_data insight =>
       if bool_decide (content insight ∈ learned_data !!! key)
       then learned_data
       else alter (fun l => l ++ [content insight]) key learned_data)
    data bucket =
  <[key := merge_into l (map content bucket)]> data.
Proof.
  revert data l. induction bucket as [|i bucket IH]; intros data l Hl;
    cbn [foldl map merge_into].
  - symmetry. apply insert_id, Hl.
  - rewrite lookup_total_alt, Hl. cbn [from_option]. unfold Datatypes.id.
    destruct (bool_decide (content i ∈ l)).
    + apply IH, Hl.
    + rewrite (IH _ (l ++ [content i])).
      * apply insert_alter_eq.
      * rewrite lookup_alter_eq, Hl. reflexivity.
Qed.

(** A block, as one write. *)
Lemma integrate_bucket_eq (type_name key : string)
  (grouped : gmap string (list LearnedInsight)) (data : Document) :
  integrate_bucket type_name key grouped data =
  match grouped !! type_name with
  | None => data
  | Some bucket =>
      <[key := merge_into (default [] (data !! key)) (map content bucket)]> data
  end.
Proof.
  unfold integrate_bucket. destruct (grouped !! type_name) as [bucket|]; [|reflexivity].
  rewrite (bucket_loop key bucket _ (default [] (data !! key)))
    by apply lookup_insert_eq.
  apply insert_insert_eq.
Qed.

Lemma integrate_bucket_other (type_name key key' : string) grouped (data : Document) :
  key <> key' ->
  integrate_bucket type_name key grouped data !! key' = data !! key'.
Proof.
  intros Hne. rewrite integrate_bucket_eq.
  destruct (grouped !! type_name); [apply lookup_insert_ne, Hne | reflexivity].
Qed.

(** After a block every text of its group is in its list. *)
Lemma integrate_bucket_holds (type_name key : string) grouped (data : Document)
  (bucket : list LearnedInsight) :
  grouped !! type_name = Some bucket ->
  exists l,
    integrate_bucket type_name key grouped data !! key = Some l /\
    forall c, c ∈ map content bucket -> c ∈ l.
Proof.
  intros Hg. rewrite integrate_bucket_eq, Hg. eexists.
  split; [apply lookup_insert_eq|]. intros c. apply merge_into_adds.
Qed.

(** A block whose group is all in its list already changes nothing. *)
Lemma integrate_bucket_fixed (type_name key : string) grouped (data : Document) :
  (forall bucket,
      grouped !! type_name = Some bucket ->
      exists l, data !! key = Some l /\
                forall c, c ∈ map content bucket -> c ∈ l) ->
  integrate_bucket type_name key grouped data = data.
Proof.
  intros H. rewrite integrate_bucket_eq.
  destruct (grouped !! type_name) as [bucket|]; [|reflexivity].
  destruct (H bucket eq_refl) as (l & Hl & Hall).
  rewrite Hl. cbn [from_option]; unfold Datatypes.id.
  rewrite (merge_into_present l _ Hall). apply insert_id, Hl.
Qed.

Lemma integrate_bucket_NoDup (type_name key key' : string) grouped (data : Document) :
  NoDup (default [] (data !! key')) ->
  NoDup (default [] (integrate_bucket type_name key grouped data !! key')).
Proof.
  intros H. rewrite integrate_bucket_eq.
  destruct (grouped !! type_name) as [bucket|]; [|exact H].
  destruct (decide (key = key')) as [<-|Hne].
  - rewrite lookup_insert_eq. cbn [from_option]; unfold Datatypes.id.
    apply merge_into_NoDup, H.
  - rewrite lookup_insert_ne by exact Hne. exact H.
Qed.

(** The group of a single insight. *)
Lemma group_single (i : LearnedInsight) :
  _group_by_type [i] = {[insight_type i := [i]]}.
Proof.
  unfold _group_by_type. cbn [foldl]. rewrite lookup_empty.
  rewrite alter_insert_eq. reflexivity.
Qed.

End KnowledgeIntegratorFacts.

Import KnowledgeIntegratorFacts.

(** The four kinds of insight that are integrated, each with the list of the
    document it goes to (lines 425, 432, 439 and 446). *)
Definition buckets : list (string * string) :=
  [ ("preference", "user_preferences"); ("fact", "user_facts");
    ("pattern", "user_patterns"); ("emotion_rule", "emotional_rules") ].

(** C9. Integrating one insight of an integrated kind whose text is already
    in the list of its kind leaves the learned-knowledge document as it is;
    integrating any list of insights a second time changes nothing more;
    and a list of the document without repeated texts has none after an
    integration. *)
Theorem integrate_insights_idempotent :
  (forall (doc : KnowledgeIntegrator.Document) (i : KnowledgeIntegrator.LearnedInsight)
          (key : string) (l : list string),
      (KnowledgeIntegrator.insight_type i, key) ∈ buckets ->
      doc !! key = Some l ->
      KnowledgeIntegrator.content i ∈ l ->
      KnowledgeIntegrator.integrate_insights (Some doc) [i] = Some doc) /\
  (forall (file : option KnowledgeIntegrator.Document)
          (insights : list KnowledgeIntegrator.LearnedInsight),
      KnowledgeIntegrator.integrate_insights
        (KnowledgeIntegrator.integrate_insights file insights) insights =
      KnowledgeIntegrator.integrate_insights file insights) /\
  (forall (file : option KnowledgeIntegrator.Document)
          (insights : list KnowledgeIntegrator.LearnedInsight)
          (key : string) (doc' : KnowledgeIntegrator.Document),
      NoDup (default [] (KnowledgeIntegrator._load_learned_knowledge file !! key)) ->
      KnowledgeIntegrator.integrate_insights file insights = Some doc' ->
      NoDup (default [] (doc' !! key))).
Proof.
  split; [|split].
  - intros doc i key l Hkind Hl Hin.
    unfold KnowledgeIntegrator.integrate_insights,
      KnowledgeIntegrator._load_learned_knowledge.
    rewrite group_single. cbn [default from_option]. unfold Datatypes.id.
    assert (Hfixed : forall type_name key',
               (type_name, key') ∈ buckets ->
               KnowledgeIntegrator.integrate_bucket type_name key'
                 {[KnowledgeIntegrator.insight_type i := [i]]} doc = doc).
    { intros type_name key' Hkind'. apply integrate_bucket_fixed.
      intros bucket Hb.
      destruct (decide (KnowledgeIntegrator.insight_type i = type_name)) as [Heq|Hne].
      - rewrite Heq, lookup_singleton_eq in Hb. injection Hb as <-.
        assert (key' = key) as ->.
        { rewrite Heq in Hkind. unfold buckets in Hkind, Hkind'.
          repeat (apply elem_of_cons in Hkind as [Hkind|Hkind];
                  [injection Hkind as -> ->|]);
            try (inversion Hkind; fail);
            repeat (apply elem_of_cons in Hkind' as [Hkind'|Hkind'];
                    [injection Hkind' as ?; try discriminate; subst; try reflexivity|]);
            inversion Hkind'. }
        exists l. split; [exact Hl|].
        intros c Hc. cbn in Hc. apply list_elem_of_singleton in Hc. subst c.
        exact Hin.
      - rewrite lookup_singleton_ne in Hb by exact Hne. discriminate. }
    rewrite !Hfixed; [reflexivity| unfold buckets ..].
    + repeat constructor.
    + do 2 right. left.
    + right. left.
    + left.
  - intros file insights.
    unfold KnowledgeIntegrator.integrate_insights at 1 2 3.
    set (grouped := KnowledgeIntegrator._group_by_type insights).
    set (d0 := KnowledgeIntegrator._load_learned_knowledge file).
    set (d1 := KnowledgeIntegrator.integrate_bucket "preference" "user_preferences" grouped d0).
    set (d2 := KnowledgeIntegrator.integrate_bucket "fact" "user_facts" grouped d1).
    set (d3 := KnowledgeIntegrator.integrate_bucket "pattern" "user_patterns" grouped d2).
    set (d4 := KnowledgeIntegrator.integrate_bucket "emotion_rule" "emotional_rules" grouped d3).
    change (KnowledgeIntegrator._load_learned_knowledge (Some d4)) with d4.
    assert (H1 : KnowledgeIntegrator.integrate_bucket
                   "preference" "user_preferences" grouped d4 = d4).
    { apply integrate_bucket_fixed. intros bucket Hb.
      subst d4 d3 d2. rewrite !integrate_bucket_other by discriminate.
      apply integrate_bucket_holds, Hb. }
    assert (H2 : KnowledgeIntegrator.integrate_bucket
                   "fact" "user_facts" grouped d4 = d4).
    { apply integrate_bucket_fixed. intros bucket Hb.
      subst d4 d3. rewrite !integrate_bucket_other by discriminate.
      apply integrate_bucket_holds, Hb. }
    assert (H3 : KnowledgeIntegrator.integrate_bucket
                   "pattern" "user_patterns" grouped d4 = d4).
    { apply integrate_bucket_fixed. intros bucket Hb.
      subst d4. rewrite !integrate_bucket_other by discriminate.
      apply integrate_bucket_holds, Hb. }
    assert (H4 : KnowledgeIntegrator.integrate_bucket
                   "emotion_rule" "emotional_rules" grouped d4 = d4).
    { apply integrate_bucket_fixed. intros bucket Hb.
      apply integrate_bucket_holds, Hb. }
    rewrite H1, H2, H3, H4. reflexivity.
  - intros file insights key doc' Hnodup Hdoc.
    unfold KnowledgeIntegrator.integrate_insights in Hdoc.
    injection Hdoc as <-.
    repeat apply integrate_bucket_NoDup. exact Hnodup.
Qed.

Definition demo_insight (kind text : string) : KnowledgeIntegrator.LearnedInsight :=
  {| KnowledgeIntegrator.id := "fact_0";
     KnowledgeIntegrator.original_knowledge_ids := ["k1"];
     KnowledgeIntegrator.insight_type := kind;
     KnowledgeIntegrator.content := text;
     KnowledgeIntegrator.confidence := 0.8;
     KnowledgeIntegrator.created_at := noon_clock 0;
     KnowledgeIntegrator.verified := false;
     KnowledgeIntegrator.application_count := 0 |}.

(** The end-to-end scenario of the specification: the fact is entered once,
    and importing it again adds nothing. *)
Lemma integrate_insights_idempotent_witness :
  let fact := demo_insight "fact" "私は東京から来た" in
  let doc : KnowledgeIntegrator.Document := {["user_facts" := ["私は東京から来た"]]} in
  KnowledgeIntegrator.integrate_insights None [fact] = Some doc /\
  (KnowledgeIntegrator.insight_type fact, "user_facts") ∈ buckets /\
  KnowledgeIntegrator.integrate_insights (Some doc) [fact] = Some doc.
Proof.
  cbv zeta. split; [vm_compute; reflexivity|].
  assert (Hkind : (KnowledgeIntegrator.insight_type
                     (demo_insight "fact" "私は東京から来た"), "user_facts")
                  ∈ buckets) by (right; left).
  split; [exact Hkind|].
  destruct integrate_insights_idempotent as (Hpresent & _ & _).
  apply (Hpresent _ _ "user_facts" ["私は東京から来た"] Hkind).
  - apply lookup_singleton_eq.
  - left.
Defined.

(** * Further properties of the code *)

(** ** The order of floats *)

Section FloatOrder.

Local Open Scope float_scope.

Lemma SFcompare_antisym (a b : spec_float) :
  SFcompare b a = option_map CompOpp (SFcompare a b).
Proof.
  destruct a as [sa|sa| |sa ma ea], b as [sb|sb| |sb mb eb]; simpl;
    try reflexivity;
    try (destruct sa; reflexivity); try (destruct sb; reflexivity);
    try (destruct sa, sb; reflexivity).
  destruct sa, sb; try reflexivity; simpl; f_equal.
  - rewrite (Z.compare_antisym ea eb).
    destruct (ea ?= eb)%Z; simpl; try reflexivity.
    rewrite (compare_cont_flip ma mb).
    destruct (Pos.compare_cont Eq ma mb); reflexivity.
  - rewrite (Z.compare_antisym ea eb).
    destruct (ea ?= eb)%Z; simpl; try reflexivity.
    apply compare_cont_flip.
Qed.

(** A float that compares with itself is a number, and two numbers always
    compare. *)
Lemma SFcompare_numbers (a b : spec_float) :
  SFleb a a = true -> SFleb b b = true -> exists c, SFcompare a b = Some c.
Proof.
  unfold SFleb.
  destruct a as [sa|sa| |sa ma ea], b as [sb|sb| |sb mb eb]; simpl;
    intros Ha Hb; try discriminate; eauto.
Qed.

Lemma leb_numbers (x y : float) :
  (x <=? y) = true -> (x <=? x) = true /\ (y <=? y) = true.
Proof.
  rewrite !leb_spec. unfold SFleb.
  destruct (Prim2SF x) as [sa|sa| |sa ma ea], (Prim2SF y) as [sb|sb| |sb mb eb];
    simpl; try discriminate; intros _;
    rewrite ?Z.compare_refl, ?Pos.compare_cont_refl;
    try (destruct sa); try (destruct sb); simpl;
    rewrite ?Z.compare_refl, ?Pos.compare_cont_refl; auto.
Qed.

(** Among numbers, "not below" is "at least". *)
Lemma ltb_false_leb (x y : float) :
  (x <=? x) = true -> (y <=? y) = true -> (x <? y) = false -> (y <=? x) = true.
Proof.
  rewrite !leb_spec, ltb_spec. intros Hx Hy.
  destruct (SFcompare_numbers _ _ Hx Hy) as (c & Hc).
  unfold SFltb, SFleb. rewrite (SFcompare_antisym (Prim2SF x) (Prim2SF y)), Hc.
  destruct c; simpl; congruence.
Qed.

Lemma SFcompare_trans (a b c : spec_float) (c1 c2 : comparison) :
  SFcompare a b = Some c1 -> c1 <> Gt ->
  SFcompare b c = Some c2 -> c2 <> Gt ->
  exists c3, SFcompare a c = Some c3 /\ c3 <> Gt /\
             (c1 = Lt \/ c2 = Lt -> c3 = Lt).
Proof.
  destruct a as [sa|sa| |sa ma ea], b as [sb|sb| |sb mb eb],
    c as [sc|sc| |sc mc ec]; simpl; try discriminate;
    try destruct sa; try destruct sb; try destruct sc; simpl;
    intros [= <-] H1 [= <-] H2; try congruence;
    try (eexists; split; [reflexivity|]; split; [congruence|tauto]).
  all: revert H1 H2.
  all: change (PosDef.Pos.compare_cont Eq) with Pos.compare.
  all: destruct (Z.compare_spec ea eb), (Z.compare_spec eb ec),
         (Z.compare_spec ea ec);
    try lia; simpl; try congruence; subst;
    try (eexists; split; [reflexivity|]; split; [congruence|tauto]).
  all: destruct (Pos.compare_spec ma mb), (Pos.compare_spec mb mc),
         (Pos.compare_spec ma mc);
    try lia; simpl; try congruence; subst;
    try (eexists; split; [reflexivity|]; split; [congruence|tauto]).
Qed.

Lemma leb_compare (x y : float) :
  (x <=? y) = true <->
  exists c, SFcompare (Prim2SF x) (Prim2SF y) = Some c /\ c <> Gt.
Proof.
  rewrite leb_spec. unfold SFleb.
  destruct (SFcompare (Prim2SF x) (Prim2SF y)) as [[]|]; split;
    try (intros _; eexists; split; [reflexivity|congruence]);
    try reflexivity; try discriminate;
    intros (c & [= <-] & H); congruence.
Qed.

Lemma ltb_compare (x y : float) :
  (x <? y) = true <-> SFcompare (Prim2SF x) (Prim2SF y) = Some Lt.
Proof.
  rewrite ltb_spec. unfold SFltb.
  destruct (SFcompare (Prim2SF x) (Prim2SF y)) as [[]|]; split;
    congruence.
Qed.

Lemma leb_trans (x y z : float) :
  (x <=? y) = true -> (y <=? z) = true -> (x <=? z) = true.
Proof.
  rewrite !leb_compare. intros (c1 & H1 & N1) (c2 & H2 & N2).
  destruct (SFcompare_trans _ _ _ _ _ H1 N1 H2 N2) as (c3 & H3 & N3 & _).
  eauto.
Qed.

Lemma ltb_leb_trans (x y z : float) :
  (x <? y) = true -> (y <=? z) = true -> (x <? z) = true.
Proof.
  rewrite !ltb_compare, leb_compare. intros H1 (c2 & H2 & N2).
  destruct (SFcompare_trans _ _ _ _ _ H1 ltac:(discriminate) H2 N2)
    as (c3 & H3 & _ & Hlt).
  rewrite H3. f_equal. apply Hlt. left. reflexivity.
Qed.

Lemma leb_ltb_trans (x y z : float) :
  (x <=? y) = true -> (y <? z) = true -> (x <? z) = true.
Proof.
  rewrite !ltb_compare, leb_compare. intros (c1 & H1 & N1) H2.
  destruct (SFcompare_trans _ _ _ _ _ H1 N1 H2 ltac:(discriminate))
    as (c3 & H3 & _ & Hlt).
  rewrite H3. f_equal. apply Hlt. right. reflexivity.
Qed.

(** "At least" excludes "below". *)
Lemma leb_not_ltb (x y : float) : (x <=? y) = true -> (y <? x) = false.
Proof.
  intros H. destruct (y <? x) eqn:E; [|reflexivity].
  pose proof (ltb_leb_trans _ _ _ E H) as Hyy.
  rewrite (ltb_asym _ _ Hyy) in Hyy. discriminate.
Qed.

Lemma ltb_not_leb (x y : float) : (x <? y) = true -> (y <=? x) = false.
Proof.
  intros H. destruct (y <=? x) eqn:E; [|reflexivity].
  rewrite (leb_not_ltb _ _ E) in H. discriminate.
Qed.

End FloatOrder.

(** ** AffectionLevel.get_level and _get_next_level *)

(** X1. A score from 0 up to, but not including, 100 is in the band of the
    level [get_level] gives it; a score of at least 100 is a SOULMATE and a
    score below 0 a STRANGER. *)
Theorem get_level_band :
  forall score : float,
    ((0 <=? score)%float = true -> (score <? 100)%float = true ->
     AffectionLevel.in_band score (AffectionLevel.get_level score) = true) /\
    ((100 <=? score)%float = true ->
     AffectionLevel.get_level score = AffectionLevel.SOULMATE) /\
    ((score <? 0)%float = true ->
     AffectionLevel.get_level score = AffectionLevel.STRANGER).
Proof.
  intros score.
  assert (Hbounds : forall l,
             (0 <=? Py.float_of_int (AffectionLevel.min_val l))%float = true /\
             (Py.float_of_int (AffectionLevel.max_val l) <=? 100)%float = true)
    by (intros []; split; vm_compute; reflexivity).
  unfold AffectionLevel.get_level.
  destruct (List.find (AffectionLevel.in_band score) AffectionLevel.levels)
    as [l|] eqn:Hfind.
  - apply List.find_some in Hfind as (_ & Hband).
    split; [intros _ _; exact Hband|].
    unfold AffectionLevel.in_band in Hband.
    apply andb_prop in Hband as (Hlo & Hhi).
    destruct (Hbounds l) as (Hmin & Hmax).
    split.
    + intros Hge. pose proof (ltb_leb_trans _ _ _ Hhi Hmax) as Hlt.
      rewrite (leb_not_ltb _ _ Hge) in Hlt. discriminate.
    + intros Hneg. pose proof (leb_ltb_trans _ _ _ Hlo Hneg) as Hlt.
      rewrite (leb_not_ltb _ _ Hmin) in Hlt. discriminate.
  - pose proof (List.find_none _ _ Hfind) as Hnone.
    split; [|split].
    + intros Hlo Hhi. exfalso.
      destruct (leb_numbers _ _ Hlo) as (_ & Hnum).
      assert (Hstep : forall l (c : float),
                 List.In l AffectionLevel.levels ->
                 Py.float_of_int (AffectionLevel.max_val l) = c ->
                 (Py.float_of_int (AffectionLevel.min_val l) <=? score)%float = true ->
                 (c <=? score)%float = true).
      { intros l c Hin <- Hmin. specialize (Hnone l Hin).
        unfold AffectionLevel.in_band in Hnone. rewrite Hmin in Hnone.
        cbn [andb] in Hnone. apply ltb_false_leb; [exact Hnum| |exact Hnone].
        destruct (Hbounds l) as (_ & Hmax). apply (leb_numbers _ _ Hmax). }
      assert (H10 : (10 <=? score)%float = true)
        by (apply (Hstep AffectionLevel.STRANGER); [cbn; tauto|reflexivity|exact Hlo]).
      assert (H30 : (30 <=? score)%float = true)
        by (apply (Hstep AffectionLevel.ACQUAINTANCE); [cbn; tauto|reflexivity|exact H10]).
      assert (H50 : (50 <=? score)%float = true)
        by (apply (Hstep AffectionLevel.FRIEND); [cbn; tauto|reflexivity|exact H30]).
      assert (H70 : (70 <=? score)%float = true)
        by (apply (Hstep AffectionLevel.CLOSE_FRIEND); [cbn; tauto|reflexivity|exact H50]).
      assert (H85 : (85 <=? score)%float = true)
        by (apply (Hstep AffectionLevel.CRUSH); [cbn; tauto|reflexivity|exact H70]).
      assert (H95 : (95 <=? score)%float = true)
        by (apply (Hstep AffectionLevel.LOVER); [cbn; tauto|reflexivity|exact H85]).
      assert (H100 : (100 <=? score)%float = true)
        by (apply (Hstep AffectionLevel.SOULMATE); [cbn; tauto|reflexivity|exact H95]).
      rewrite (leb_not_ltb _ _ H100) in Hhi. discriminate.
    + intros ->. reflexivity.
    + intros Hneg. destruct (100 <=? score)%float eqn:E; [|reflexivity].
      pose proof (leb_ltb_trans _ _ _ E Hneg) as Hlt.
      vm_compute in Hlt. discriminate.
Qed.

(** X2. The levels follow each other without a gap: for every level but the
    last, [_get_next_level] names a level whose band starts where the band
    of the level ends; for SOULMATE, and only for it, there is no next
    level. *)
Theorem get_next_level_contiguous :
  forall level : AffectionLevel.t,
    (AffectionSystem._get_next_level level = None <->
     level = AffectionLevel.SOULMATE) /\
    (forall name,
        AffectionSystem._get_next_level level = Some name ->
        exists next,
          AffectionLevel.level_name next = name /\
          AffectionLevel.min_val next = AffectionLevel.max_val level /\
          AffectionLevel.max_val level < AffectionLevel.max_val next).
Proof.
  intros level. split.
  - destruct level; vm_compute; split; congruence.
  - intros name.
    destruct level; vm_compute; intros [= <-];
      [exists AffectionLevel.ACQUAINTANCE | exists AffectionLevel.FRIEND
      |exists AffectionLevel.CLOSE_FRIEND | exists AffectionLevel.CRUSH
      |exists AffectionLevel.LOVER | exists AffectionLevel.SOULMATE];
      repeat split.
Qed.

(** ** Invariants of the stored records *)

Module RecordInvariants.

Import StateMonad AffectionState AffectionSystem.

Section Invariants.

Variable str_lower : string -> string.
Variable clock : nat -> Datetime.datetime.

(** As [stable_intro], with the applied change looked at where it happens:
    on a record whose run-out sulk has been cleared. *)
Lemma stable_intro_calmed (P : AffectionState.t -> Prop) :
  (forall uid t, P (AffectionState.new uid t)) ->
  (forall change t_last t_sulk st,
      P st -> P (applied change t_last t_sulk (calmed st))) ->
  (forall v st, P st -> P (set_current_mood v st)) ->
  (forall v st, P st -> P (set_mood_intensity v st)) ->
  (forall v st, P st -> P (set_mood_reason v st)) ->
  (forall v st, P st -> P (set_special_events v st)) ->
  (forall v st, P st -> P (set_gifts_received v st)) ->
  stable clock P.
Proof.
  intros Hnew Happ H1 H2 H3 H4 H5.
  split; try assumption.
  intros action context st n HP.
  destruct (still_sulking st (clock n)) eqn:Hs.
  - destruct (update_body_sulking clock action context
                {| this := st; reads := n |} Hs) as (deadline & _ & ->).
    exact HP.
  - rewrite (update_body_applied clock action context
               {| this := st; reads := n |} Hs).
    cbn [snd this]. apply Happ, HP.
Qed.

(** The counters agree with each other. *)
Definition counters_sound (st : AffectionState.t) : Prop :=
  interaction_count st = total_messages st /\
  0 <= positive_interactions st /\
  0 <= negative_interactions st /\
  positive_interactions st + negative_interactions st <= total_messages st /\
  0 <= consecutive_positive st <= positive_interactions st /\
  0 <= consecutive_negative st <= negative_interactions st.

Lemma counters_sound_stable : stable clock counters_sound.
Proof.
  apply stable_intro_calmed; unfold counters_sound;
    try (intros v st H; exact H).
  - intros uid t. cbn. lia.
  - intros change t_last t_sulk st H.
    unfold applied, counted, calmed.
    destruct (is_ignoring st), (ignore_until st), (sulk_triggered _ _),
      (0 <? change)%float, (change <? 0)%float; cbn; lia.
Qed.

(** Sulking and its deadline go together, and a sulking user has a score
    below 50. *)
Definition sulk_sound (st : AffectionState.t) : Prop :=
  (is_ignoring st = true <-> ignore_until st <> None) /\
  (is_ignoring st = true -> (score st <? 50)%float = true).

Lemma sulk_sound_stable : stable clock sulk_sound.
Proof.
  apply stable_intro_calmed; unfold sulk_sound;
    try (intros v st H; exact H).
  - intros uid t. cbn. split; [split|]; congruence.
  - intros change t_last t_sulk st ((Hiff1 & Hiff2) & Hlow).
    destruct (sulk_applied change t_last t_sulk (calmed st)) as (-> & ->).
    rewrite score_applied.
    assert (Hcalm : is_ignoring (calmed st) = false /\ ignore_until (calmed st) = None).
    { unfold calmed.
      destruct (is_ignoring st) eqn:Hi, (ignore_until st) eqn:Hu; cbn; auto.
      - exfalso. specialize (Hiff1 eq_refl). congruence.
      - assert (true = false) by (symmetry; apply Hiff2; congruence). congruence. }
    destruct Hcalm as (-> & ->).
    destruct (sulk_triggered _ _) eqn:Htrig.
    + split; [split; congruence|]. intros _.
      unfold sulk_triggered in Htrig.
      apply andb_prop in Htrig as (_ & Hlt). exact Hlt.
    + split; [split; congruence|]. discriminate.
Qed.

End Invariants.

End RecordInvariants.

(** X3. In every system reached from a fresh one, the counters of every
    stored record agree: [interaction_count] equals [total_messages], the
    positive and the negative interactions are counted among the messages,
    and each consecutive counter is between 0 and the interactions of its
    sign. *)
Theorem reachable_counters_sound :
  forall (str_lower : string -> string) (clock : nat -> Datetime.datetime)
         (s : AffectionSystem.System),
    reachable str_lower clock s ->
    all_states RecordInvariants.counters_sound s.
Proof.
  intros str_lower clock s Hs.
  apply (reachable_all_states str_lower clock); [|exact Hs].
  apply RecordInvariants.counters_sound_stable.
Qed.

Lemma reachable_counters_sound_witness :
  let s :=
    snd (AffectionSystem.process_message Py.ascii_lower noon_clock "u"
           "you are stupid" None AffectionSystem.init) in
  reachable Py.ascii_lower noon_clock s /\
  RecordInvariants.counters_sound (AffectionSystem.states s !!! "u") /\
  AffectionState.total_messages (AffectionSystem.states s !!! "u") = 1.
Proof.
  intros s.
  assert (Hs : reachable Py.ascii_lower noon_clock s)
    by (apply reach_process_message; constructor).
  split; [exact Hs|]. split.
  - apply (reachable_counters_sound Py.ascii_lower noon_clock s Hs "u").
    vm_compute. reflexivity.
  - vm_compute. reflexivity.
Defined.

(** X4. In every system reached from a fresh one, a record is sulking
    exactly when it has an [ignore_until], and a sulking record has a score
    below 50. *)
Theorem reachable_sulk_sound :
  forall (str_lower : string -> string) (clock : nat -> Datetime.datetime)
         (s : AffectionSystem.System),
    reachable str_lower clock s ->
    all_states RecordInvariants.sulk_sound s.
Proof.
  intros str_lower clock s Hs.
  apply (reachable_all_states str_lower clock); [|exact Hs].
  apply RecordInvariants.sulk_sound_stable.
Qed.

Lemma reachable_sulk_sound_witness :
  let s :=
    snd (AffectionSystem.process_message Py.ascii_lower noon_clock "u"
           "you are stupid" None AffectionSystem.init) in
  reachable Py.ascii_lower noon_clock s /\
  AffectionState.is_ignoring (AffectionSystem.states s !!! "u") = true /\
  RecordInvariants.sulk_sound (AffectionSystem.states s !!! "u").
Proof.
  intros s.
  assert (Hs : reachable Py.ascii_lower noon_clock s)
    by (apply reach_process_message; constructor).
  split; [exact Hs|]. split.
  - vm_compute. reflexivity.
  - apply (reachable_sulk_sound Py.ascii_lower noon_clock s Hs "u").
    vm_compute. reflexivity.
Defined.

(** ** Actions without effect on the score *)

Module NoEffect.

Import StateMonad AffectionState AffectionSystem.

Section Floats.

Local Open Scope float_scope.

(** The scores the code stores: the default, or what the clamp gives, which
    is 0, 100 or a float strictly between them. *)
Definition stored_score (x : float) : Prop :=
  x = 0 \/ x = 100 \/ ((0 <? x) = true /\ (x <? 100) = true).

Lemma SF_between_finite (f : spec_float) (m : positive) (e : Z) :
  SFltb (S754_zero false) f = true ->
  SFltb f (S754_finite false m e) = true ->
  exists m' e', f = S754_finite false m' e'.
Proof.
  unfold SFltb.
  destruct f as [s|s| |s m' e']; simpl; try discriminate.
  - destruct s; simpl; discriminate.
  - destruct s; simpl; try discriminate. eauto.
Qed.

Lemma between_finite (x : float) :
  (0 <? x) = true -> (x <? 100) = true ->
  exists m e, Prim2SF x = S754_finite false m e.
Proof.
  rewrite (ltb_spec 0 x), (ltb_spec x 100).
  set (z := Prim2SF 0). vm_compute in z. subst z.
  set (c := Prim2SF 100). vm_compute in c. subst c.
  apply SF_between_finite.
Qed.

Lemma Prim2SF_inj (x y : float) : Prim2SF x = Prim2SF y -> x = y.
Proof.
  intros H. rewrite <- (SF2Prim_Prim2SF x), <- (SF2Prim_Prim2SF y), H.
  reflexivity.
Qed.

Lemma add_zero_finite (x : float) (s : bool) (m : positive) (e : Z) :
  Prim2SF x = S754_finite s m e -> x + 0 = x.
Proof.
  intros H. apply Prim2SF_inj. rewrite add_spec, H.
  set (z := Prim2SF 0). vm_compute in z. subst z. reflexivity.
Qed.

Lemma sub_self_finite (x : float) (s : bool) (m : positive) (e : Z) :
  Prim2SF x = S754_finite s m e -> x - x = 0.
Proof.
  intros H. apply Prim2SF_inj. rewrite sub_spec, H.
  set (z := Prim2SF 0). vm_compute in z. subst z.
  unfold SF64sub, SFsub, shl_align.
  assert (Hdiag : forall a : Z, BinIntDef.Z.sub a a = 0%Z)
    by (intros a; apply Z.sub_diag).
  rewrite Hdiag. reflexivity.
Qed.

(** On a stored score, adding 0.0, clamping and subtracting the score from
    itself are exact. *)
Lemma stored_score_exact (x : float) :
  stored_score x ->
  x + 0 = x /\ Py.max2 0 (Py.min2 100 x) = x /\ x - x = 0.
Proof.
  intros [->|[->|(Hlo & Hhi)]].
  - repeat split; vm_compute; reflexivity.
  - repeat split; vm_compute; reflexivity.
  - destruct (between_finite x Hlo Hhi) as (m & e & Hx).
    split; [exact (add_zero_finite x _ _ _ Hx)|].
    split; [|exact (sub_self_finite x _ _ _ Hx)].
    unfold Py.max2, Py.min2. rewrite Hhi, Hlo. reflexivity.
Qed.

Lemma clamp_stored (x : float) : stored_score (Py.max2 0 (Py.min2 100 x)).
Proof.
  unfold stored_score, Py.max2, Py.min2.
  destruct (x <? 100) eqn:Hhi.
  - destruct (0 <? x) eqn:Hlo; auto.
  - change (0 <? 100) with true. cbv iota. auto.
Qed.

End Floats.

Section Update.

Variable str_lower : string -> string.
Variable clock : nat -> Datetime.datetime.

Lemma stored_score_stable : stable clock (fun st => stored_score (score st)).
Proof.
  apply stable_intro; try (intros; assumption).
  - intros uid t. right. right. split; vm_compute; reflexivity.
  - intros st H. destruct (calmed_fields st) as (-> & _). exact H.
  - intros change t_last t_sulk st _. rewrite score_applied. apply clamp_stored.
Qed.

(** An action the tables do not list, "decay" counting only from two days
    of inactivity on. *)
Definition no_effect (action : string) (context : gmap string Z) : Prop :=
  AffectionCalculator.POSITIVE_FACTORS !! action = None /\
  AffectionCalculator.NEGATIVE_FACTORS !! action = None /\
  (action = "decay" ->
   AffectionCalculator.ctx_get context "days_inactive"
   < AffectionCalculator.DECAY_THRESHOLD_DAYS).

Lemma no_effect_delta (st : AffectionState.t) action context :
  no_effect action context ->
  stored_score (score st) ->
  update_delta st action context = 0%float.
Proof.
  intros (Hpos & Hneg & Hdecay) Hscore.
  unfold update_delta, AffectionCalculator.calculate_change.
  assert (Hraw : AffectionCalculator.change_before_clamp action (score st)
                   (<["consecutive_negative" := consecutive_negative st]>
                      (<["consecutive_positive" := consecutive_positive st]> context))
                 = 0%float).
  { unfold AffectionCalculator.change_before_clamp. rewrite Hpos, Hneg.
    destruct (String.eqb action "decay") eqn:Heq; [|reflexivity].
    apply String.eqb_eq in Heq. specialize (Hdecay Heq).
    unfold AffectionCalculator.ctx_get in *.
    rewrite !lookup_insert_ne by discriminate.
    destruct (_ <=? _) eqn:Hge; [|reflexivity].
    apply Z.leb_le in Hge. lia. }
  rewrite Hraw.
  destruct (stored_score_exact (score st) Hscore) as (-> & -> & ->).
  reflexivity.
Qed.

(** The record an update without effect leaves. *)
Lemma applied_zero (st : AffectionState.t) t_last t_sulk :
  stored_score (score st) ->
  applied 0 t_last t_sulk st =
  set_total_messages (total_messages st + 1)
    (set_interaction_count (interaction_count st + 1)
       (set_last_interaction t_last st)).
Proof.
  intros Hscore. unfold applied, counted, sulk_triggered.
  destruct (stored_score_exact (score st) Hscore) as (-> & -> & _).
  change (0 <? 0)%float with false. cbn [negb andb].
  destruct st; reflexivity.
Qed.

End Update.

End NoEffect.

(** X5. In every system reached from a fresh one, an [update] with an action
    that neither table lists ("base_message", "date", "anniversary", any
    unknown name, and "decay" below two days of inactivity) never changes
    the user's score, whatever the context holds: the score stored after the
    call is the score stored before, the consecutive counters and the
    counts of positive and negative interactions stay as they were. *)
Theorem update_unlisted_action_keeps_score :
  forall (str_lower : string -> string) (clock : nat -> Datetime.datetime)
         (s : AffectionSystem.System) (uid action : string)
         (context : gmap string Z),
    reachable str_lower clock s ->
    NoEffect.no_effect action context ->
    let st := AffectionSystem.this (entry_focus clock uid s) in
    let st' :=
      AffectionSystem.states
        (snd (AffectionSystem.update clock uid action context s)) !!! uid in
    AffectionState.score st' = AffectionState.score st /\
    AffectionState.consecutive_positive st' = AffectionState.consecutive_positive st /\
    AffectionState.consecutive_negative st' = AffectionState.consecutive_negative st /\
    AffectionState.positive_interactions st' = AffectionState.positive_interactions st /\
    AffectionState.negative_interactions st' = AffectionState.negative_interactions st.
Proof.
  intros str_lower clock s uid action context Hs Hno st st'.
  assert (Hst' : st' = AffectionSystem.this
                         (snd (AffectionSystem.update_body clock action context
                                 (entry_focus clock uid s)))).
  { subst st'. rewrite lookup_total_alt, update_stores. reflexivity. }
  rewrite Hst'. clear Hst' st'.
  set (o := entry_focus clock uid s) in *.
  assert (Hscore : NoEffect.stored_score (AffectionState.score st))
    by exact (entry_focus_stable str_lower clock _ uid s
                (NoEffect.stored_score_stable clock) Hs).
  destruct (still_sulking st (clock (AffectionSystem.reads o))) eqn:Hsulk.
  - destruct (update_body_sulking clock action context o Hsulk) as (deadline & _ & ->).
    repeat split; reflexivity.
  - rewrite (update_body_applied clock action context o Hsulk).
    cbn [snd AffectionSystem.this]. fold st.
    assert (Hcalm : NoEffect.stored_score (AffectionState.score (calmed st)))
      by (destruct (calmed_fields st) as (-> & _); exact Hscore).
    rewrite (NoEffect.no_effect_delta (calmed st) action context Hno Hcalm).
    rewrite (NoEffect.applied_zero (calmed st) _ _ Hcalm).
    cbn [AffectionState.score AffectionState.consecutive_positive
         AffectionState.consecutive_negative AffectionState.positive_interactions
         AffectionState.negative_interactions AffectionState.set_total_messages
         AffectionState.set_interaction_count AffectionState.set_last_interaction].
    unfold calmed. destruct (AffectionState.is_ignoring st),
      (AffectionState.ignore_until st); repeat split; reflexivity.
Qed.

Lemma update_unlisted_action_keeps_score_witness :
  let s :=
    snd (AffectionSystem.update noon_clock "u" "gift" ∅ AffectionSystem.init) in
  reachable Py.ascii_lower noon_clock s /\
  NoEffect.no_effect "base_message" ∅ /\
  NoEffect.no_effect "anniversary" {["bonus" := 15]} /\
  AffectionState.score (AffectionSystem.states s !!! "u") = 25%float /\
  AffectionState.score
    (AffectionSystem.states
       (snd (AffectionSystem.update noon_clock "u" "anniversary" {["bonus" := 15]} s))
       !!! "u") = 25%float.
Proof.
  intros s.
  assert (Hs : reachable Py.ascii_lower noon_clock s)
    by (apply reach_update; constructor).
  assert (Hno : forall context, NoEffect.no_effect "anniversary" context)
    by (intros context; unfold NoEffect.no_effect;
        split; [vm_compute; reflexivity|split; [vm_compute; reflexivity|discriminate]]).
  split; [exact Hs|].
  split; [unfold NoEffect.no_effect;
          split; [vm_compute; reflexivity|split; [vm_compute; reflexivity|discriminate]]|].
  split; [apply Hno|]. split; [vm_compute; reflexivity|].
  destruct (update_unlisted_action_keeps_score Py.ascii_lower noon_clock s "u"
              "anniversary" {["bonus" := 15]} Hs (Hno _)) as (Hscore & _).
  rewrite Hscore. vm_compute. reflexivity.
Defined.

(** ** What the methods write, and where *)

Module Effects.

Import StateMonad AffectionState AffectionSystem.

Section Frames.

Variable str_lower : string -> string.
Variable clock : nat -> Datetime.datetime.

(** A method that leaves the record of [other] as it is. *)
Definition keeps {A} (other : string) (m : M A) : Prop :=
  forall s, states (snd (m s)) !! other = states s !! other.

Lemma keeps_ret {A} other (a : A) : keeps other (ret a).
Proof. intros s. reflexivity. Qed.

Lemma keeps_bind {A B} other (m : M A) (k : A -> M B) :
  keeps other m -> (forall a, keeps other (k a)) -> keeps other (bind m k).
Proof.
  intros Hm Hk s. unfold bind. specialize (Hm s).
  destruct (m s) as [a s']. rewrite (Hk a s'). exact Hm.
Qed.

Lemma keeps_for_each {A B} other (xs : list A) (body : A -> M B) :
  (forall x, keeps other (body x)) -> keeps other (for_each xs body).
Proof.
  intros Hbody. induction xs as [|x xs IH]; cbn [for_each].
  - apply keeps_ret.
  - apply keeps_bind; auto.
Qed.

Lemma keeps_datetime_now other : keeps other (datetime_now clock).
Proof. intros s. reflexivity. Qed.

Lemma keeps_trace_update other uid action : keeps other (trace_update uid action).
Proof. intros s. reflexivity. Qed.

Lemma keeps_get_state other uid : uid <> other -> keeps other (get_state clock uid).
Proof.
  intros Hne s. unfold get_state.
  destruct (states s !! uid); [reflexivity|].
  cbn [snd states datetime_now]. apply lookup_insert_ne, Hne.
Qed.

Lemma keeps_on_object {A} other (r : ref) (body : Obj A) :
  r <> other -> keeps other (on_object r body).
Proof.
  intros Hne s. unfold on_object. destruct (body _) as [a o].
  cbn [snd states]. apply lookup_insert_ne, Hne.
Qed.

Lemma get_state_returns uid s : get_state clock uid s = (uid, snd (get_state clock uid s)).
Proof. unfold get_state. destruct (states s !! uid); reflexivity. Qed.

Lemma keeps_with_state {A} other uid (k : ref -> M A) :
  uid <> other -> keeps other (k uid) ->
  keeps other (bind (get_state clock uid) k).
Proof.
  intros Hne Hk s. unfold bind. rewrite get_state_returns.
  rewrite Hk. apply keeps_get_state, Hne.
Qed.

Lemma keeps_update other uid action context :
  uid <> other -> keeps other (update clock uid action context).
Proof.
  intros Hne. unfold update.
  apply keeps_bind; [apply keeps_trace_update|intros _].
  apply keeps_with_state; [exact Hne|]. apply keeps_on_object, Hne.
Qed.

Lemma keeps_apply_decay other uid :
  uid <> other -> keeps other (_apply_decay clock uid).
Proof.
  intros Hne. unfold _apply_decay.
  apply keeps_with_state; [exact Hne|].
  apply keeps_bind; [apply keeps_datetime_now|intros t].
  apply keeps_bind; [apply keeps_on_object, Hne|intros st].
  destruct (AffectionCalculator.DECAY_THRESHOLD_DAYS <=? _); [|apply keeps_ret].
  apply keeps_bind; [apply keeps_update, Hne|intros _; apply keeps_ret].
Qed.

Lemma keeps_process_message other uid message response_time :
  uid <> other ->
  keeps other (process_message str_lower clock uid message response_time).
Proof.
  intros Hne. unfold process_message.
  apply keeps_with_state; [exact Hne|].
  destruct (AffectionCalculator.analyze_message_sentiment _ _) as [name magnitude].
  apply keeps_bind; [apply keeps_datetime_now|intros t].
  apply keeps_bind;
    [apply keeps_for_each; intros x; apply keeps_update, Hne|intros _].
  apply keeps_bind.
  { destruct (if Py.truthy _ && _ then _ else _); [|apply keeps_ret].
    apply keeps_bind; [apply keeps_update, Hne|intros _; apply keeps_ret]. }
  intros _.
  apply keeps_bind; [apply keeps_apply_decay, Hne|intros _].
  apply keeps_bind; [apply keeps_on_object, Hne|intros st].
  apply keeps_bind; [apply keeps_on_object, Hne|intros st'].
  apply keeps_ret.
Qed.

Lemma keeps_set_mood other uid mood intensity reason :
  uid <> other -> keeps other (set_mood clock uid mood intensity reason).
Proof.
  intros Hne. unfold set_mood.
  apply keeps_with_state; [exact Hne|].
  repeat (apply keeps_bind; [apply keeps_on_object, Hne|intros _]).
  apply keeps_on_object, Hne.
Qed.

Lemma keeps_add_special_event other uid event_type description :
  uid <> other -> keeps other (add_special_event clock uid event_type description).
Proof.
  intros Hne. unfold add_special_event.
  apply keeps_with_state; [exact Hne|].
  apply keeps_bind; [apply keeps_datetime_now|intros t].
  apply keeps_bind; [apply keeps_on_object, Hne|intros _].
  repeat (destruct (String.eqb event_type _);
          [repeat (apply keeps_bind;
                   [first [apply keeps_update, Hne | apply keeps_on_object, Hne]
                   |intros _]);
           apply keeps_ret|]).
  apply keeps_ret.
Qed.

End Frames.

End Effects.

(** X6. The state is partitioned by user id: [update], [process_message],
    [set_mood] and [add_special_event] for one user leave the stored record
    of every other user, and the absence of one, exactly as it was. *)
Theorem methods_leave_other_users :
  forall (str_lower : string -> string) (clock : nat -> Datetime.datetime)
         (s : AffectionSystem.System) (uid other : string),
    uid <> other ->
    (forall action context,
        AffectionSystem.states
          (snd (AffectionSystem.update clock uid action context s)) !! other =
        AffectionSystem.states s !! other) /\
    (forall message response_time,
        AffectionSystem.states
          (snd (AffectionSystem.process_message str_lower clock uid message
                  response_time s)) !! other =
        AffectionSystem.states s !! other) /\
    (forall mood intensity reason,
        AffectionSystem.states
          (snd (AffectionSystem.set_mood clock uid mood intensity reason s)) !! other =
        AffectionSystem.states s !! other) /\
    (forall event_type description,
        AffectionSystem.states
          (snd (AffectionSystem.add_special_event clock uid event_type
                  description s)) !! other =
        AffectionSystem.states s !! other).
Proof.
  intros str_lower clock s uid other Hne.
  split; [|split; [|split]].
  - intros action context. apply Effects.keeps_update, Hne.
  - intros message response_time. apply Effects.keeps_process_message, Hne.
  - intros mood intensity reason. apply Effects.keeps_set_mood, Hne.
  - intros event_type description. apply Effects.keeps_add_special_event, Hne.
Qed.

Lemma methods_leave_other_users_witness :
  let s :=
    snd (AffectionSystem.update noon_clock "ann" "gift" ∅ AffectionSystem.init) in
  "bob" <> "ann" /\
  AffectionSystem.states
    (snd (AffectionSystem.process_message Py.ascii_lower noon_clock "bob"
            "you are stupid" None s)) !! "ann" =
  AffectionSystem.states s !! "ann".
Proof.
  intros s. split; [discriminate|].
  destruct (methods_leave_other_users Py.ascii_lower noon_clock s "bob" "ann")
    as (_ & Hprocess & _); [discriminate|].
  apply Hprocess.
Defined.

(** ** set_mood and add_special_event *)

Module RecordEffects.

Import StateMonad AffectionState AffectionSystem.

Section Records.

Variable clock : nat -> Datetime.datetime.

Lemma clamp_in_0_1 (x : float) :
  let c := Py.max2 0 (Py.min2 1 x) in
  (0 <=? c)%float = true /\ (c <=? 1)%float = true.
Proof.
  unfold Py.max2, Py.min2.
  destruct (x <? 1)%float eqn:Hhi.
  - destruct (0 <? x)%float eqn:Hlo.
    + split; apply ltb_leb; assumption.
    + split; vm_compute; reflexivity.
  - change (0 <? 1)%float with true. cbv iota. split; vm_compute; reflexivity.
Qed.

(** The record [set_mood] leaves for the user. *)
Lemma set_mood_record uid mood intensity reason s :
  states (snd (set_mood clock uid mood intensity reason s)) !! uid =
  Some (set_mood_reason reason
          (set_mood_intensity (Py.max2 0 (Py.min2 1 intensity))
             (set_current_mood mood (this (entry_focus clock uid s))))).
Proof.
  unfold set_mood, bind, entry_focus. rewrite Effects.get_state_returns.
  unfold mutate, on_object, assign. cbn [fst snd states clock_reads this].
  rewrite !lookup_total_insert_eq. apply lookup_insert_eq.
Qed.

Lemma applied_keeps_events change t_last t_sulk st :
  let st' := applied change t_last t_sulk (calmed st) in
  special_events st' = special_events st /\
  gifts_received st' = gifts_received st /\
  dates_had st' = dates_had st /\
  current_mood st' = current_mood st /\
  mood_intensity st' = mood_intensity st /\
  user_id st' = user_id st.
Proof.
  unfold applied, counted, calmed. cbv zeta.
  destruct (is_ignoring st), (ignore_until st), (sulk_triggered _ _),
    (0 <? change)%float, (change <? 0)%float; repeat split; reflexivity.
Qed.

(** The fields the body of [update] never writes. *)
Lemma update_body_keeps_events action context (o : Focus) :
  let st' := this (snd (update_body clock action context o)) in
  special_events st' = special_events (this o) /\
  gifts_received st' = gifts_received (this o) /\
  dates_had st' = dates_had (this o) /\
  current_mood st' = current_mood (this o) /\
  mood_intensity st' = mood_intensity (this o) /\
  user_id st' = user_id (this o).
Proof.
  cbv zeta.
  destruct (still_sulking (this o) (clock (reads o))) eqn:Hs.
  - destruct (update_body_sulking clock action context o Hs) as (deadline & _ & ->).
    repeat split; reflexivity.
  - rewrite (update_body_applied clock action context o Hs).
    cbn [snd this]. apply applied_keeps_events.
Qed.

(** An action without effect leaves the score of a record as it is. *)
Lemma update_body_no_effect action context (o : Focus) :
  NoEffect.stored_score (score (this o)) ->
  NoEffect.no_effect action context ->
  score (this (snd (update_body clock action context o))) = score (this o).
Proof.
  intros Hscore Hno.
  destruct (still_sulking (this o) (clock (reads o))) eqn:Hs.
  - destruct (update_body_sulking clock action context o Hs) as (deadline & _ & ->).
    reflexivity.
  - rewrite (update_body_applied clock action context o Hs).
    cbn [snd this].
    assert (Hcalm : NoEffect.stored_score (score (calmed (this o))))
      by (destruct (calmed_fields (this o)) as (-> & _); exact Hscore).
    rewrite (NoEffect.no_effect_delta (calmed (this o)) action context Hno Hcalm).
    rewrite (NoEffect.applied_zero (calmed (this o)) _ _ Hcalm).
    cbn [score set_total_messages set_interaction_count set_last_interaction].
    apply calmed_fields.
Qed.

(** The entry record of a user that is known. *)
Lemma entry_focus_known uid s st :
  states s !! uid = Some st ->
  entry_focus clock uid s = {| this := st; reads := clock_reads s |}.
Proof.
  intros H. unfold entry_focus. rewrite (get_state_known clock uid s st H).
  cbn [snd]. rewrite lookup_total_alt, H. reflexivity.
Qed.

End Records.

End RecordEffects.

(** X7. [set_mood] stores the mood and the reason it is given and an
    intensity clamped to [0,1], which is the given intensity when that is
    strictly between 0 and 1; it leaves the user's score, sulk and
    consecutive counters as they were. *)
Theorem set_mood_clamps_intensity :
  forall (clock : nat -> Datetime.datetime) (s : AffectionSystem.System)
         (uid mood : string) (intensity : float) (reason : string),
    let st := AffectionSystem.this (entry_focus clock uid s) in
    exists st',
      AffectionSystem.states
        (snd (AffectionSystem.set_mood clock uid mood intensity reason s)) !! uid
        = Some st' /\
      AffectionState.current_mood st' = mood /\
      AffectionState.mood_reason st' = reason /\
      (0 <=? AffectionState.mood_intensity st')%float = true /\
      (AffectionState.mood_intensity st' <=? 1)%float = true /\
      ((0 <? intensity)%float = true -> (intensity <? 1)%float = true ->
       AffectionState.mood_intensity st' = intensity) /\
      AffectionState.score st' = AffectionState.score st /\
      AffectionState.is_ignoring st' = AffectionState.is_ignoring st /\
      AffectionState.ignore_until st' = AffectionState.ignore_until st /\
      AffectionState.consecutive_positive st' = AffectionState.consecutive_positive st /\
      AffectionState.consecutive_negative st' = AffectionState.consecutive_negative st.
Proof.
  intros clock s uid mood intensity reason st.
  eexists. split; [apply RecordEffects.set_mood_record|].
  cbn [AffectionState.current_mood AffectionState.mood_reason
       AffectionState.mood_intensity AffectionState.score
       AffectionState.is_ignoring AffectionState.ignore_until
       AffectionState.consecutive_positive AffectionState.consecutive_negative
       AffectionState.set_mood_reason AffectionState.set_mood_intensity
       AffectionState.set_current_mood].
  destruct (RecordEffects.clamp_in_0_1 intensity) as (Hlo & Hhi).
  repeat split; try assumption.
  intros Hpos Hlt. unfold Py.max2, Py.min2. rewrite Hlt, Hpos. reflexivity.
Qed.

(** X8. [add_special_event] appends the event, with the time of the call,
    to the user's [special_events]; a "gift" adds one to [gifts_received]
    and no other event changes it; and [dates_had] is never changed. In a
    system reached from a fresh one, a "first_date" and an "anniversary"
    leave the score as it was: their actions "date" and "anniversary" are in
    no table and the bonus of their context is not read. *)
Theorem add_special_event_records :
  forall (str_lower : string -> string) (clock : nat -> Datetime.datetime)
         (s : AffectionSystem.System) (uid event_type description : string),
    let o := entry_focus clock uid s in
    let st := AffectionSystem.this o in
    let st' :=
      AffectionSystem.states
        (snd (AffectionSystem.add_special_event clock uid event_type description s))
        !!! uid in
    AffectionState.special_events st' =
      AffectionState.special_events st ++
      [{| AffectionState.event_type := event_type;
          AffectionState.description := description;
          AffectionState.date := clock (AffectionSystem.reads o) |}] /\
    AffectionState.gifts_received st' =
      AffectionState.gifts_received st
      + (if String.eqb event_type "gift" then 1 else 0) /\
    AffectionState.dates_had st' = AffectionState.dates_had st /\
    (reachable str_lower clock s ->
     event_type <> "gift" ->
     AffectionState.score st' = AffectionState.score st).
Proof.
  intros str_lower clock s uid event_type description o st st'.
  assert (Hsnd : forall (A B : Type) (m : AffectionSystem.M A)
                        (k : A -> AffectionSystem.M B) s0,
             snd (StateMonad.bind m k s0) = snd (k (fst (m s0)) (snd (m s0))))
    by (intros A B m k s0; unfold StateMonad.bind; destruct (m s0); reflexivity).
  set (ev := {| AffectionState.event_type := event_type;
                AffectionState.description := description;
                AffectionState.date := clock (AffectionSystem.reads o) |}).
  set (st1 := AffectionState.set_special_events
                (AffectionState.special_events st ++ [ev]) st).
  set (s3 := {| AffectionSystem.states :=
                  <[uid := st1]>
                    (AffectionSystem.states (snd (AffectionSystem.get_state clock uid s)));
                AffectionSystem.clock_reads := S (AffectionSystem.reads o);
                AffectionSystem.update_calls :=
                  AffectionSystem.update_calls (snd (AffectionSystem.get_state clock uid s)) |}).
  set (st2 := AffectionState.set_gifts_received
                (AffectionState.gifts_received st1 + 1) st1).
  set (s4 := {| AffectionSystem.states := <[uid := st2]> (AffectionSystem.states s3);
                AffectionSystem.clock_reads := AffectionSystem.clock_reads s3;
                AffectionSystem.update_calls := AffectionSystem.update_calls s3 |}).
  assert (Hfinal :
    snd (AffectionSystem.add_special_event clock uid event_type description s) =
    if String.eqb event_type "first_date"
    then snd (AffectionSystem.update clock uid "date" (<["bonus" := 10]> ∅) s3)
    else if String.eqb event_type "anniversary"
    then snd (AffectionSystem.update clock uid "anniversary" (<["bonus" := 15]> ∅) s3)
    else if String.eqb event_type "gift"
    then snd (AffectionSystem.update clock uid "gift" ∅ s4)
    else s3).
  { unfold AffectionSystem.add_special_event.
    rewrite Hsnd, get_state_ref, Hsnd.
    cbn [fst snd AffectionSystem.datetime_now].
    rewrite Hsnd.
    assert (Hm : forall f (s0 : AffectionSystem.System),
               AffectionSystem.mutate uid f s0 =
               (tt, {| AffectionSystem.states :=
                         <[uid := f (AffectionSystem.states s0 !!! uid)]>
                           (AffectionSystem.states s0);
                       AffectionSystem.clock_reads := AffectionSystem.clock_reads s0;
                       AffectionSystem.update_calls := AffectionSystem.update_calls s0 |}))
      by reflexivity.
    rewrite Hm. cbn [fst snd AffectionSystem.states AffectionSystem.clock_reads
                     AffectionSystem.update_calls].
    fold o. fold st. fold ev. fold st1. fold s3.
    destruct (String.eqb event_type "first_date");
      [rewrite Hsnd; reflexivity|].
    destruct (String.eqb event_type "anniversary");
      [rewrite Hsnd; reflexivity|].
    destruct (String.eqb event_type "gift"); [|reflexivity].
    rewrite Hsnd, Hm, Hsnd.
    cbn [fst snd StateMonad.ret].
    replace (AffectionSystem.states s3 !!! uid) with st1
      by (symmetry; apply lookup_total_insert_eq).
    reflexivity. }
  assert (Hupd : forall action context st0 (s0 : AffectionSystem.System),
             AffectionSystem.states s0 !! uid = Some st0 ->
             let st' := AffectionSystem.states
                          (snd (AffectionSystem.update clock uid action context s0))
                          !!! uid in
             AffectionState.special_events st' = AffectionState.special_events st0 /\
             AffectionState.gifts_received st' = AffectionState.gifts_received st0 /\
             AffectionState.dates_had st' = AffectionState.dates_had st0 /\
             (NoEffect.stored_score (AffectionState.score st0) ->
              NoEffect.no_effect action context ->
              AffectionState.score st' = AffectionState.score st0)).
  { intros action context st0 s0 Hst0. cbv zeta.
    rewrite lookup_total_alt, update_stores.
    rewrite (RecordEffects.entry_focus_known clock uid s0 st0 Hst0).
    cbn [default from_option]. unfold Datatypes.id.
    destruct (RecordEffects.update_body_keeps_events clock action context
                {| AffectionSystem.this := st0;
                   AffectionSystem.reads := AffectionSystem.clock_reads s0 |})
      as (H1 & H2 & H3 & _).
    repeat split; try assumption.
    intros Hscore Hno.
    apply (RecordEffects.update_body_no_effect clock action context
             {| AffectionSystem.this := st0;
                AffectionSystem.reads := AffectionSystem.clock_reads s0 |});
      assumption. }
  assert (Hst1 : AffectionSystem.states s3 !! uid = Some st1)
    by apply lookup_insert_eq.
  assert (Hst2 : AffectionSystem.states s4 !! uid = Some st2)
    by apply lookup_insert_eq.
  assert (Hstored : reachable str_lower clock s ->
                    NoEffect.stored_score (AffectionState.score st1))
    by (intros Hs; exact (entry_focus_stable str_lower clock _ uid s
                            (NoEffect.stored_score_stable clock) Hs)).
  subst st'. rewrite Hfinal. clear Hfinal.
  destruct (String.eqb event_type "first_date") eqn:E1.
  { destruct (Hupd "date" (<["bonus" := 10]> ∅) st1 s3 Hst1) as (H1 & H2 & H3 & H4).
    rewrite H1, H2, H3.
    apply String.eqb_eq in E1. subst event_type.
    repeat split; try (cbn; lia).
    intros Hs _. rewrite H4; [reflexivity|apply Hstored, Hs|].
    unfold NoEffect.no_effect.
    split; [vm_compute; reflexivity|split; [vm_compute; reflexivity|discriminate]]. }
  destruct (String.eqb event_type "anniversary") eqn:E2.
  { destruct (Hupd "anniversary" (<["bonus" := 15]> ∅) st1 s3 Hst1)
      as (H1 & H2 & H3 & H4).
    rewrite H1, H2, H3.
    apply String.eqb_eq in E2. subst event_type.
    repeat split; try (cbn; lia).
    intros Hs _. rewrite H4; [reflexivity|apply Hstored, Hs|].
    unfold NoEffect.no_effect.
    split; [vm_compute; reflexivity|split; [vm_compute; reflexivity|discriminate]]. }
  destruct (String.eqb event_type "gift") eqn:E3.
  { destruct (Hupd "gift" ∅ st2 s4 Hst2) as (H1 & H2 & H3 & _).
    rewrite H1, H2, H3. repeat split; try (cbn; lia).
    intros _ Hne. apply String.eqb_eq in E3. contradiction. }
  rewrite lookup_total_alt, Hst1. cbn [default from_option]. unfold Datatypes.id.
  repeat split; try (cbn; lia).
Qed.

(** ** Texts *)

Module StringFacts.

Lemma append_cons (c : ascii) (x y : string) :
  String c x +:+ y = String c (x +:+ y).
Proof. reflexivity. Qed.

Lemma append_nil_l (y : string) : "" +:+ y = y.
Proof. reflexivity. Qed.

Lemma append_nil_r (x : string) : x +:+ "" = x.
Proof.
  induction x as [|c x IH]; [reflexivity|]. rewrite append_cons, IH. reflexivity.
Qed.

Lemma append_assoc (x y z : string) : (x +:+ y) +:+ z = x +:+ (y +:+ z).
Proof.
  induction x as [|c x IH]; [reflexivity|]. rewrite !append_cons, IH. reflexivity.
Qed.

Lemma prefix_append (x y : string) : String.prefix x (x +:+ y) = true.
Proof.
  induction x as [|c x IH]; [destruct y; reflexivity|].
  rewrite append_cons. cbn [String.prefix].
  destruct (ascii_dec c c); [exact IH|contradiction].
Qed.

Lemma prefix_append_r (x y z : string) :
  String.prefix x y = true -> String.prefix x (y +:+ z) = true.
Proof.
  revert y. induction x as [|c x IH]; intros y H.
  - destruct (y +:+ z); reflexivity.
  - destruct y as [|d y]; [discriminate|]. rewrite append_cons.
    cbn [String.prefix] in *. destruct (ascii_dec c d); [apply IH, H|discriminate].
Qed.

Lemma endswith_append (x y : string) : Py.endswith (x +:+ y) y = true.
Proof.
  induction x as [|c x IH].
  - rewrite append_nil_l. destruct y; cbn [Py.endswith];
      rewrite String.eqb_refl; reflexivity.
  - rewrite append_cons. cbn [Py.endswith]. rewrite IH. apply orb_true_r.
Qed.

Lemma str_in_append_l (x a b : string) :
  Py.str_in x a = true -> Py.str_in x (a +:+ b) = true.
Proof.
  induction a as [|c a IH]; intros H.
  - cbn [Py.str_in] in H. rewrite orb_false_r in H.
    destruct x; [|discriminate]. destruct (_ +:+ _); reflexivity.
  - rewrite append_cons. cbn [Py.str_in] in *.
    apply orb_true_iff in H. apply orb_true_iff. destruct H as [H|H].
    + left. apply (prefix_append_r x (String c a) b H).
    + right. apply IH, H.
Qed.

Lemma str_in_append_r (x a b : string) :
  Py.str_in x b = true -> Py.str_in x (a +:+ b) = true.
Proof.
  intros H. induction a as [|c a IH]; [exact H|].
  rewrite append_cons. cbn [Py.str_in]. rewrite IH. apply orb_true_r.
Qed.

Lemma str_in_here (x b : string) : Py.str_in x (x +:+ b) = true.
Proof.
  destruct (x +:+ b) eqn:E; cbn [Py.str_in]; rewrite <- E, prefix_append;
    reflexivity.
Qed.

(** A text holds what stands between two of its parts. *)
Lemma str_in_middle (x a b : string) : Py.str_in x (a +:+ x +:+ b) = true.
Proof. apply str_in_append_r, str_in_here. Qed.

End StringFacts.

(** ** ShortTermMemory: every call sequence *)

Module MemoryInvariants.

Import ShortTermMemory.

Section Reachable.

Variable clock : nat -> Datetime.datetime.
Variable isoformat : Datetime.datetime -> string.
Variable md5_hexdigest : string -> string.

(** The memories a program can reach from [ShortTermMemory(N)] by calls of
    [add_turn] and [clear], for any users in any order. *)
Inductive reachable_memory (N : Z) : t -> Prop :=
| reach_new : reachable_memory N (new N)
| reach_add_turn m uid a :
    reachable_memory N m ->
    reachable_memory N (add_turn clock isoformat md5_hexdigest uid a m)
| reach_clear m user_id :
    reachable_memory N m -> reachable_memory N (clear user_id m).

Lemma reachable_max_turns N m : reachable_memory N m -> max_turns m = N.
Proof. induction 1; [reflexivity|exact IHreachable_memory..]. Qed.

(** What [add_turn] stores for the user, whatever the capacity: a suffix of
    the old buffer followed by the new turn, or a suffix of that. *)
Lemma add_turn_suffix (uid : string) (a : TurnArgs) (m : t) :
  exists k,
    conversations (add_turn clock isoformat md5_hexdigest uid a m) !! uid =
    Some (drop k (buffer m uid ++
                  [make_turn isoformat md5_hexdigest uid
                     (clock (clock_reads m)) (clock (S (clock_reads m))) a])).
Proof.
  destruct (add_turn_buffer clock isoformat md5_hexdigest uid a m) as (H & _).
  cbv zeta in H. rewrite H. destruct (_ <? _).
  - unfold Py.slice_from. destruct (_ <? 0); eexists; reflexivity.
  - exists 0%nat. reflexivity.
Qed.

Lemma add_turn_other (uid other : string) (a : TurnArgs) (m : t) :
  uid <> other ->
  conversations (add_turn clock isoformat md5_hexdigest uid a m) !! other =
  conversations m !! other.
Proof.
  intros Hne. unfold add_turn. cbn [conversations].
  destruct (max_turns m <? _).
  - rewrite lookup_insert_ne, lookup_alter_ne by exact Hne.
    destruct (conversations m !! uid); [reflexivity|].
    apply lookup_insert_ne, Hne.
  - rewrite lookup_alter_ne by exact Hne.
    destruct (conversations m !! uid); [reflexivity|].
    apply lookup_insert_ne, Hne.
Qed.

Lemma clear_lookup (user_id : option string) (m : t) (uid : string) :
  conversations (clear user_id m) !! uid = None \/
  conversations (clear user_id m) !! uid = conversations m !! uid.
Proof.
  unfold clear. cbn [conversations].
  destruct user_id as [[|c u]|]; [left; apply lookup_empty| |left; apply lookup_empty].
  destruct (decide (String c u = uid)) as [->|Hne].
  - left. apply lookup_delete_eq.
  - right. apply lookup_delete_ne, Hne.
Qed.

(** Every stored buffer holds turns of its own user, at least one and at
    most [N] of them. *)
Definition buffers_sound (N : Z) (m : t) : Prop :=
  forall uid l,
    conversations m !! uid = Some l ->
    (1 <= length l)%nat /\ Z.of_nat (length l) <= N /\
    Forall (fun turn => user_id turn = uid) l.

Lemma buffers_sound_reachable N m :
  1 <= N -> reachable_memory N m -> buffers_sound N m.
Proof.
  intros HN Hm. induction Hm as [|m uid a Hm IH|m user_id Hm IH].
  - intros uid l H. cbn in H. rewrite lookup_empty in H. discriminate.
  - intros other l H.
    destruct (decide (uid = other)) as [<-|Hne].
    + destruct (add_turn_buffer clock isoformat md5_hexdigest uid a m) as (Hb & _).
      cbv zeta in Hb. rewrite Hb in H. clear Hb.
      rewrite (reachable_max_turns N m Hm) in H.
      set (turn := make_turn _ _ _ _ _ _) in *.
      assert (Hold : Forall (fun turn => user_id turn = uid) (buffer m uid ++ [turn])).
      { apply Forall_app. split.
        - unfold buffer. destruct (conversations m !! uid) as [l0|] eqn:E.
          + apply (IH uid l0 E).
          + constructor.
        - repeat constructor. }
      destruct (N <? _) eqn:Hover; inversion H; subst l; clear H.
      * rewrite (slice_from_neg N _ HN). rewrite last_n_length.
        apply Z.ltb_lt in Hover. split; [lia|]. split; [lia|].
        unfold last_n. apply Forall_drop, Hold.
      * apply Z.ltb_ge in Hover. rewrite length_app in *. cbn [length] in *.
        split; [lia|]. split; [lia|exact Hold].
    + rewrite (add_turn_other uid other a m Hne) in H. apply (IH other l H).
  - intros uid l H.
    destruct (clear_lookup user_id m uid) as [E|E]; rewrite E in H.
    + discriminate.
    + apply (IH uid l H).
Qed.

(** Every stored turn was stamped by a clock read already made, and the
    stamps of a buffer are in the order of the reads. *)
Definition stamped (m : t) (l : list ConversationTurn) : Prop :=
  Forall (fun turn => exists k, (k < clock_reads m)%nat /\ timestamp turn = clock k) l.

Definition in_time_order (l : list ConversationTurn) : Prop :=
  forall i j ti tj,
    l !! i = Some ti -> l !! j = Some tj -> (i <= j)%nat ->
    timestamp ti <= timestamp tj.

Lemma in_time_order_drop k l : in_time_order l -> in_time_order (drop k l).
Proof.
  intros H i j ti tj Hi Hj Hij. rewrite lookup_drop in Hi, Hj.
  apply (H (k + i)%nat (k + j)%nat ti tj Hi Hj). lia.
Qed.

Hypothesis clock_monotone : forall i j : nat, (i <= j)%nat -> clock i <= clock j.

Lemma in_time_order_snoc m l turn :
  stamped m l -> in_time_order l ->
  timestamp turn = clock (S (clock_reads m)) ->
  in_time_order (l ++ [turn]).
Proof.
  intros Hst Hord Hturn i j ti tj Hi Hj Hij.
  destruct (decide (j < length l)%nat) as [Hj'|Hj'].
  - rewrite lookup_app_l in Hi, Hj by lia. apply (Hord i j ti tj Hi Hj Hij).
  - rewrite (lookup_app_r l) in Hj by lia.
    destruct (j - length l)%nat eqn:Ej; [|destruct n; discriminate].
    inversion Hj; subst tj; clear Hj. rewrite Hturn.
    destruct (decide (i < length l)%nat) as [Hi'|Hi'].
    + rewrite lookup_app_l in Hi by lia.
      unfold stamped in Hst. rewrite Forall_lookup in Hst.
      destruct (Hst i ti Hi) as (k & Hk & ->). apply clock_monotone. lia.
    + rewrite (lookup_app_r l) in Hi by lia.
      destruct (i - length l)%nat eqn:Ei; [|destruct n; discriminate].
      inversion Hi; subst ti. rewrite Hturn. lia.
Qed.

Definition buffers_in_time_order (m : t) : Prop :=
  forall uid l,
    conversations m !! uid = Some l -> stamped m l /\ in_time_order l.

Lemma stamped_later m m' l :
  (clock_reads m <= clock_reads m')%nat -> stamped m l -> stamped m' l.
Proof.
  intros Hle Hst. unfold stamped in *. eapply Forall_impl; [exact Hst|].
  intros turn (k & Hk & E). exists k. split; [lia|exact E].
Qed.

Lemma buffers_in_time_order_reachable N m :
  reachable_memory N m -> buffers_in_time_order m.
Proof.
  intros Hm. induction Hm as [|m uid a Hm IH|m user_id Hm IH].
  - intros uid l H. cbn in H. rewrite lookup_empty in H. discriminate.
  - intros other l H.
    destruct (add_turn_buffer clock isoformat md5_hexdigest uid a m) as (_ & _ & Hr).
    destruct (decide (uid = other)) as [<-|Hne].
    + destruct (add_turn_suffix uid a m) as (k & Hk). rewrite Hk in H.
      inversion H; subst l; clear H Hk.
      set (turn := make_turn _ _ _ _ _ _).
      assert (Hold : stamped m (buffer m uid) /\ in_time_order (buffer m uid)).
      { unfold buffer. destruct (conversations m !! uid) as [l0|] eqn:E.
        - apply (IH uid l0 E).
        - split; [constructor|]. intros i j ti tj Hi. discriminate. }
      destruct Hold as (Hst & Hord). split.
      * unfold stamped. apply Forall_drop, Forall_app. split.
        -- apply (stamped_later m); [lia|exact Hst].
        -- repeat constructor. exists (S (clock_reads m)). split; [lia|reflexivity].
      * apply in_time_order_drop.
        apply (in_time_order_snoc m); [exact Hst|exact Hord|reflexivity].
    + rewrite (add_turn_other uid other a m Hne) in H.
      destruct (IH other l H) as (Hst & Hord). split; [|exact Hord].
      apply (stamped_later m); [lia|exact Hst].
  - intros uid l H.
    destruct (clear_lookup user_id m uid) as [E|E]; rewrite E in H.
    + discriminate.
    + apply (IH uid l H).
Qed.

End Reachable.

End MemoryInvariants.

(** X9. Whatever the order of [add_turn] and [clear] calls on a memory of
    capacity N >= 1, and for whatever users, every stored buffer holds at
    least one and at most N turns, and each of them carries the user id the
    buffer is stored under. *)
Theorem reachable_buffers_bounded :
  forall (clock : nat -> Datetime.datetime)
         (isoformat : Datetime.datetime -> string)
         (md5_hexdigest : string -> string)
         (N : Z) (m : ShortTermMemory.t) (uid : string)
         (l : list ShortTermMemory.ConversationTurn),
    1 <= N ->
    MemoryInvariants.reachable_memory clock isoformat md5_hexdigest N m ->
    ShortTermMemory.conversations m !! uid = Some l ->
    (1 <= length l)%nat /\ Z.of_nat (length l) <= N /\
    Forall (fun turn => ShortTermMemory.user_id turn = uid) l.
Proof.
  intros clock isoformat md5_hexdigest N m uid l HN Hm Hl.
  exact (MemoryInvariants.buffers_sound_reachable clock isoformat md5_hexdigest
           N m HN Hm uid l Hl).
Qed.

Lemma reachable_buffers_bounded_witness :
  let m :=
    ShortTermMemory.clear (Some "v")
      (ShortTermMemory.add_turn noon_clock demo_isoformat demo_digest "u" (demo_call "c")
         (ShortTermMemory.add_turn noon_clock demo_isoformat demo_digest "v" (demo_call "b")
            (ShortTermMemory.add_turn noon_clock demo_isoformat demo_digest "u" (demo_call "a")
               (ShortTermMemory.new 1)))) in
  1 <= 1 /\
  MemoryInvariants.reachable_memory noon_clock demo_isoformat demo_digest 1 m /\
  ShortTermMemory.conversations m !! "u" = Some (buffer m "u") /\
  (1 <= length (buffer m "u"))%nat /\ Z.of_nat (length (buffer m "u")) <= 1 /\
  Forall (fun turn => ShortTermMemory.user_id turn = "u") (buffer m "u").
Proof.
  intros m.
  assert (Hm : MemoryInvariants.reachable_memory noon_clock demo_isoformat
                 demo_digest 1 m) by (subst m; repeat constructor).
  assert (Hl : ShortTermMemory.conversations m !! "u" = Some (buffer m "u"))
    by (vm_compute; reflexivity).
  split; [lia|]. split; [exact Hm|]. split; [exact Hl|].
  apply (reachable_buffers_bounded noon_clock demo_isoformat demo_digest 1 m "u"
           (buffer m "u")); [lia|exact Hm|exact Hl].
Defined.

(** X10. When the clock never goes back, the turns of every stored buffer
    are in the order of their time stamps, whatever the capacity and the
    order of the [add_turn] and [clear] calls. *)
Theorem reachable_buffers_in_time_order :
  forall (clock : nat -> Datetime.datetime)
         (isoformat : Datetime.datetime -> string)
         (md5_hexdigest : string -> string)
         (N : Z) (m : ShortTermMemory.t) (uid : string)
         (l : list ShortTermMemory.ConversationTurn)
         (i j : nat) (ti tj : ShortTermMemory.ConversationTurn),
    (forall a b : nat, (a <= b)%nat -> clock a <= clock b) ->
    MemoryInvariants.reachable_memory clock isoformat md5_hexdigest N m ->
    ShortTermMemory.conversations m !! uid = Some l ->
    l !! i = Some ti -> l !! j = Some tj -> (i <= j)%nat ->
    ShortTermMemory.timestamp ti <= ShortTermMemory.timestamp tj.
Proof.
  intros clock isoformat md5_hexdigest N m uid l i j ti tj Hmono Hm Hl Hi Hj Hij.
  destruct (MemoryInvariants.buffers_in_time_order_reachable clock isoformat
              md5_hexdigest Hmono N m Hm uid l Hl) as (_ & Hord).
  exact (Hord i j ti tj Hi Hj Hij).
Qed.

Lemma noon_clock_monotone :
  forall a b : nat, (a <= b)%nat -> noon_clock a <= noon_clock b.
Proof. intros a b H. unfold noon_clock. lia. Qed.

Lemma reachable_buffers_in_time_order_witness :
  let m :=
    ShortTermMemory.add_turn noon_clock demo_isoformat demo_digest "u" (demo_call "c")
      (ShortTermMemory.add_turn noon_clock demo_isoformat demo_digest "v" (demo_call "b")
         (ShortTermMemory.add_turn noon_clock demo_isoformat demo_digest "u" (demo_call "a")
            (ShortTermMemory.new 5))) in
  exists ti tj,
    (forall a b : nat, (a <= b)%nat -> noon_clock a <= noon_clock b) /\
    MemoryInvariants.reachable_memory noon_clock demo_isoformat demo_digest 5 m /\
    ShortTermMemory.conversations m !! "u" = Some (buffer m "u") /\
    buffer m "u" !! 0%nat = Some ti /\ buffer m "u" !! 1%nat = Some tj /\
    (0 <= 1)%nat /\
    ShortTermMemory.timestamp ti <= ShortTermMemory.timestamp tj.
Proof.
  intros m.
  assert (Hm : MemoryInvariants.reachable_memory noon_clock demo_isoformat
                 demo_digest 5 m) by (subst m; repeat constructor).
  assert (Hl : ShortTermMemory.conversations m !! "u" = Some (buffer m "u"))
    by (vm_compute; reflexivity).
  eexists. eexists.
  split; [exact noon_clock_monotone|]. split; [exact Hm|]. split; [exact Hl|].
  assert (H0 : buffer m "u" !! 0%nat = Some (default (ShortTermMemory.make_turn
                 demo_isoformat demo_digest "u" 0 0 (demo_call "a")) (buffer m "u" !! 0%nat)))
    by (vm_compute; reflexivity).
  assert (H1 : buffer m "u" !! 1%nat = Some (default (ShortTermMemory.make_turn
                 demo_isoformat demo_digest "u" 0 0 (demo_call "a")) (buffer m "u" !! 1%nat)))
    by (vm_compute; reflexivity).
  split; [exact H0|]. split; [exact H1|]. split; [lia|].
  apply (reachable_buffers_in_time_order noon_clock demo_isoformat demo_digest 5 m "u"
           (buffer m "u") 0%nat 1%nat); [exact noon_clock_monotone|exact Hm|exact Hl
           |exact H0|exact H1|lia].
Defined.

Module ContextFacts.

Import ShortTermMemory.

(** The two lines [get_context_string] writes for a turn. *)
Definition turn_lines (turn : ConversationTurn) : string :=
  "ユーザー：" +:+ user_message turn +:+ Py.newline
  +:+ "あなた：" +:+ bot_response turn +:+ Py.newline.

Definition header : string := "【最近の会話】" +:+ Py.newline.

(** The transcript of a list of turns is the start text followed by the
    lines of each turn in order. *)
Lemma transcript_snoc (start : string) (turns : list ConversationTurn)
  (turn : ConversationTurn) :
  foldl
    (fun context turn =>
       context +:+ "ユーザー：" +:+ user_message turn +:+ Py.newline
               +:+ "あなた：" +:+ bot_response turn +:+ Py.newline)
    start (turns ++ [turn]) =
  foldl
    (fun context turn =>
       context +:+ "ユーザー：" +:+ user_message turn +:+ Py.newline
               +:+ "あなた：" +:+ bot_response turn +:+ Py.newline)
    start turns +:+ turn_lines turn.
Proof. rewrite foldl_app. cbn [foldl]. unfold turn_lines. reflexivity. Qed.

Lemma transcript_prefix (start : string) (turns : list ConversationTurn) :
  String.prefix start
    (foldl
       (fun context turn =>
          context +:+ "ユーザー：" +:+ user_message turn +:+ Py.newline
                  +:+ "あなた：" +:+ bot_response turn +:+ Py.newline)
       start turns) = true.
Proof.
  induction turns as [|turn turns IH] using rev_ind.
  - cbn [foldl]. rewrite <- (StringFacts.append_nil_r start) at 2. apply StringFacts.prefix_append.
  - rewrite transcript_snoc. apply StringFacts.prefix_append_r, IH.
Qed.

Lemma get_context_string_cases (m : t) (uid : string) (n : Z) :
  get_context_string m uid n =
  match get_recent_context m uid n with
  | [] => ""
  | turns =>
      foldl
        (fun context turn =>
           context +:+ "ユーザー：" +:+ user_message turn +:+ Py.newline
                   +:+ "あなた：" +:+ bot_response turn +:+ Py.newline)
        header turns
  end.
Proof. reflexivity. Qed.

Lemma get_context_string_snoc (m : t) (uid : string) (n : Z) earlier turn :
  get_recent_context m uid n = earlier ++ [turn] ->
  get_context_string m uid n =
  foldl
    (fun context turn =>
       context +:+ "ユーザー：" +:+ user_message turn +:+ Py.newline
               +:+ "あなた：" +:+ bot_response turn +:+ Py.newline)
    header earlier +:+ turn_lines turn.
Proof.
  intros H. rewrite get_context_string_cases, H, <- transcript_snoc.
  destruct earlier; reflexivity.
Qed.

(** A slice [l[-k:]] with k >= 0 of a list that is not empty drops fewer
    elements than the list has. *)
Lemma slice_from_keeps_last {A} (k : Z) (l : list A) :
  0 <= k -> l <> [] ->
  exists j, (j < length l)%nat /\ Py.slice_from (- k) l = drop j l.
Proof.
  intros Hk Hl.
  assert (0 < length l)%nat by (destruct l; [contradiction|cbn; lia]).
  unfold Py.slice_from. destruct (- k <? 0) eqn:E.
  - apply Z.ltb_lt in E. eexists. split; [|reflexivity]. lia.
  - apply Z.ltb_ge in E. exists 0%nat. split; [lia|].
    replace (- k) with 0 by lia. reflexivity.
Qed.

Lemma drop_snoc {A} (j : nat) (l : list A) (x : A) :
  (j < length (l ++ [x]))%nat -> drop j (l ++ [x]) = drop j l ++ [x].
Proof.
  intros H. rewrite length_app in H. cbn in H. apply drop_app_le. lia.
Qed.

(** After [add_turn] on a memory whose capacity is not negative, the recent
    context of the user, for a count that is not negative, ends with the
    turn just made. *)
Lemma add_turn_recent clock isoformat md5_hexdigest (uid : string) (a : TurnArgs)
  (m : t) (n : Z) :
  0 <= max_turns m -> 0 <= n ->
  exists earlier,
    get_recent_context (add_turn clock isoformat md5_hexdigest uid a m) uid n =
    earlier ++ [make_turn isoformat md5_hexdigest uid
                  (clock (clock_reads m)) (clock (S (clock_reads m))) a].
Proof.
  intros Hcap Hn.
  destruct (add_turn_buffer clock isoformat md5_hexdigest uid a m) as (Hb & _).
  cbv zeta in Hb. set (turn := make_turn _ _ _ _ _ _) in *.
  assert (Hstored : exists l0,
             conversations (add_turn clock isoformat md5_hexdigest uid a m) !! uid
             = Some (l0 ++ [turn])).
  { rewrite Hb. destruct (_ <? _).
    - destruct (slice_from_keeps_last (max_turns m) (buffer m uid ++ [turn]) Hcap)
        as (j & Hj & ->); [destruct (buffer m uid); discriminate|].
      rewrite drop_snoc by exact Hj. eexists. reflexivity.
    - eexists. reflexivity. }
  destruct Hstored as (l0 & Hl0).
  unfold get_recent_context. rewrite Hl0.
  cbn [default from_option]. unfold Datatypes.id.
  assert (Hmatch : forall l : list ConversationTurn,
             l <> [] ->
             match l with [] => [] | _ :: _ => Py.slice_from (- n) l end =
             Py.slice_from (- n) l)
    by (intros [|? ?] ?; [contradiction|reflexivity]).
  rewrite Hmatch by (destruct l0; discriminate).
  destruct (slice_from_keeps_last n (l0 ++ [turn]) Hn) as (j & Hj & ->);
    [destruct l0; discriminate|].
  rewrite drop_snoc by exact Hj. eexists. reflexivity.
Qed.

End ContextFacts.

(** X11. [get_context_string] returns the empty text exactly when there is
    no recent turn; otherwise the text starts with the title line and ends
    with the two lines of the last recent turn. *)
Theorem get_context_string_transcript :
  forall (m : ShortTermMemory.t) (uid : string) (n : Z),
    (ShortTermMemory.get_context_string m uid n = "" <->
     ShortTermMemory.get_recent_context m uid n = []) /\
    (forall earlier turn,
        ShortTermMemory.get_recent_context m uid n = earlier ++ [turn] ->
        String.prefix ContextFacts.header
          (ShortTermMemory.get_context_string m uid n) = true /\
        Py.endswith (ShortTermMemory.get_context_string m uid n)
          (ContextFacts.turn_lines turn) = true).
Proof.
  intros m uid n. rewrite ContextFacts.get_context_string_cases. split.
  - destruct (ShortTermMemory.get_recent_context m uid n) as [|x l];
      [split; reflexivity|].
    split; [|discriminate].
    intros H.
    pose proof (ContextFacts.transcript_prefix ContextFacts.header (x :: l)) as Hp.
    rewrite H in Hp. vm_compute in Hp. discriminate.
  - intros earlier turn H.
    rewrite <- ContextFacts.get_context_string_cases.
    rewrite (ContextFacts.get_context_string_snoc m uid n earlier turn H). split.
    + apply StringFacts.prefix_append_r, ContextFacts.transcript_prefix.
    + apply StringFacts.endswith_append.
Qed.

(** X12. After [add_turn] on a memory whose capacity is not negative, the
    context text of the user, for any count that is not negative, ends with
    the user message and the bot response of that call. *)
Theorem add_turn_then_context_string :
  forall (clock : nat -> Datetime.datetime)
         (isoformat : Datetime.datetime -> string)
         (md5_hexdigest : string -> string)
         (m : ShortTermMemory.t) (uid : string) (a : ShortTermMemory.TurnArgs)
         (n : Z),
    0 <= ShortTermMemory.max_turns m -> 0 <= n ->
    Py.endswith
      (ShortTermMemory.get_context_string
         (ShortTermMemory.add_turn clock isoformat md5_hexdigest uid a m) uid n)
      ("ユーザー：" +:+ ShortTermMemory.arg_user_message a +:+ Py.newline
       +:+ "あなた：" +:+ ShortTermMemory.arg_bot_response a +:+ Py.newline) = true.
Proof.
  intros clock isoformat md5_hexdigest m uid a n Hcap Hn.
  destruct (ContextFacts.add_turn_recent clock isoformat md5_hexdigest uid a m n
              Hcap Hn) as (earlier & Hrecent).
  rewrite (ContextFacts.get_context_string_snoc _ uid n earlier _ Hrecent).
  apply StringFacts.endswith_append.
Qed.

Lemma add_turn_then_context_string_witness :
  0 <= ShortTermMemory.max_turns (ShortTermMemory.new 0) /\ 0 <= 5 /\
  Py.endswith
    (ShortTermMemory.get_context_string
       (ShortTermMemory.add_turn noon_clock demo_isoformat demo_digest "u"
          (demo_call "a") (ShortTermMemory.new 0)) "u" 5)
    ("ユーザー：" +:+ "a" +:+ Py.newline +:+ "あなた：" +:+ "ok" +:+ Py.newline) = true.
Proof.
  split; [cbn; lia|]. split; [lia|].
  apply (add_turn_then_context_string noon_clock demo_isoformat demo_digest
           (ShortTermMemory.new 0) "u" (demo_call "a") 5); [cbn; lia|lia].
Defined.

(** X13. [clear] with a user id that is not empty forgets that user and
    leaves every other buffer as it was; [clear] without a user id, and with
    the empty user id, forgets every user. In each case the user asked for
    has no recent context and an empty context text afterwards. *)
Theorem clear_forgets :
  forall (m : ShortTermMemory.t) (uid : string) (n : Z),
    let cleared := [ShortTermMemory.clear (Some uid) m;
                    ShortTermMemory.clear None m;
                    ShortTermMemory.clear (Some "") m] in
    Forall (fun m' =>
              ShortTermMemory.get_recent_context m' uid n = [] /\
              ShortTermMemory.get_context_string m' uid n = "") cleared /\
    (forall other,
        ShortTermMemory.conversations (ShortTermMemory.clear None m) !! other = None /\
        ShortTermMemory.conversations (ShortTermMemory.clear (Some "") m) !! other = None) /\
    (forall other,
        uid <> "" -> uid <> other ->
        ShortTermMemory.conversations (ShortTermMemory.clear (Some uid) m) !! other =
        ShortTermMemory.conversations m !! other).
Proof.
  intros m uid n cleared.
  assert (Hnone : forall m',
             ShortTermMemory.conversations m' !! uid = None ->
             ShortTermMemory.get_recent_context m' uid n = [] /\
             ShortTermMemory.get_context_string m' uid n = "").
  { intros m' H. unfold ShortTermMemory.get_context_string,
      ShortTermMemory.get_recent_context. rewrite H. split; reflexivity. }
  split; [|split].
  - subst cleared.
    constructor; [|constructor; [|constructor; [|constructor]]]; apply Hnone;
      unfold ShortTermMemory.clear; cbn [ShortTermMemory.conversations];
      try apply lookup_empty.
    destruct uid; [apply lookup_empty|apply lookup_delete_eq].
  - intros other. split; apply lookup_empty.
  - intros other Huid Hne. unfold ShortTermMemory.clear.
    cbn [ShortTermMemory.conversations].
    destruct uid; [contradiction|]. apply lookup_delete_ne, Hne.
Qed.

(** X14. [add_turn] for one user leaves the buffer, the recent context and
    the context text of every other user as they were. *)
Theorem add_turn_leaves_other_users :
  forall (clock : nat -> Datetime.datetime)
         (isoformat : Datetime.datetime -> string)
         (md5_hexdigest : string -> string)
         (m : ShortTermMemory.t) (uid other : string)
         (a : ShortTermMemory.TurnArgs) (n : Z),
    uid <> other ->
    let m' := ShortTermMemory.add_turn clock isoformat md5_hexdigest uid a m in
    ShortTermMemory.conversations m' !! other =
      ShortTermMemory.conversations m !! other /\
    ShortTermMemory.get_recent_context m' other n =
      ShortTermMemory.get_recent_context m other n /\
    ShortTermMemory.get_context_string m' other n =
      ShortTermMemory.get_context_string m other n.
Proof.
  intros clock isoformat md5_hexdigest m uid other a n Hne m'.
  pose proof (MemoryInvariants.add_turn_other clock isoformat md5_hexdigest
                uid other a m Hne) as H.
  fold m' in H.
  unfold ShortTermMemory.get_context_string, ShortTermMemory.get_recent_context.
  rewrite H. repeat split.
Qed.

Lemma add_turn_leaves_other_users_witness :
  let m :=
    ShortTermMemory.add_turn noon_clock demo_isoformat demo_digest "v"
      (demo_call "a") (ShortTermMemory.new 2) in
  let m' :=
    ShortTermMemory.add_turn noon_clock demo_isoformat demo_digest "u"
      (demo_call "b") m in
  "u" <> "v" /\
  ShortTermMemory.get_context_string m' "v" 5 =
  ShortTermMemory.get_context_string m "v" 5.
Proof.
  intros m m'. split; [discriminate|].
  apply (add_turn_leaves_other_users noon_clock demo_isoformat demo_digest m
           "u" "v" (demo_call "b") 5). discriminate.
Defined.

(** ** MemoryExtractor *)

Module MemoryExtractorFacts.

Import MemoryExtractor.

Lemma prefix_trans_l (p q hay : string) :
  String.prefix p q = true -> String.prefix q hay = true ->
  String.prefix p hay = true.
Proof.
  revert q hay. induction p as [|c p IH]; intros q hay Hpq Hqh.
  - destruct hay; reflexivity.
  - destruct q as [|d q]; [discriminate|].
    destruct hay as [|e hay]; [discriminate|].
    cbn [String.prefix] in *.
    destruct (ascii_dec c d) as [->|]; [|discriminate].
    destruct (ascii_dec d e) as [->|]; [|discriminate].
    apply (IH q hay Hpq Hqh).
Qed.

(** A text that holds a keyword holds every prefix of the keyword. *)
Lemma str_in_prefix (p q hay : string) :
  String.prefix p q = true -> Py.str_in q hay = true -> Py.str_in p hay = true.
Proof.
  intros Hpq. induction hay as [|c hay IH]; cbn [Py.str_in]; intros H.
  - rewrite orb_false_r in *. apply (prefix_trans_l p q "" Hpq H).
  - apply orb_true_iff in H. apply orb_true_iff. destruct H as [H|H].
    + left. apply (prefix_trans_l p q _ Hpq H).
    + right. apply IH, H.
Qed.

(** Of the six personal indicators only two matter: each of the other four
    starts with one of them. *)
Lemma personal_indicators_two (content : string) :
  any_in ["私は"; "私の名前は"; "私はから来た"; "私はに住んでいる"; "私は仕事"; "私の"] content =
  Py.str_in "私は" content || Py.str_in "私の" content.
Proof.
  unfold any_in. cbn [existsb].
  pose proof (str_in_prefix "私の" "私の名前は" content eq_refl) as H2.
  pose proof (str_in_prefix "私は" "私はから来た" content eq_refl) as H3.
  pose proof (str_in_prefix "私は" "私はに住んでいる" content eq_refl) as H4.
  pose proof (str_in_prefix "私は" "私は仕事" content eq_refl) as H5.
  destruct (Py.str_in "私は" content); [reflexivity|].
  destruct (Py.str_in "私の" content).
  - rewrite !orb_true_r. reflexivity.
  - destruct (Py.str_in "私の名前は" content); [discriminate (H2 eq_refl)|].
    destruct (Py.str_in "私はから来た" content); [discriminate (H3 eq_refl)|].
    destruct (Py.str_in "私はに住んでいる" content); [discriminate (H4 eq_refl)|].
    destruct (Py.str_in "私は仕事" content); [discriminate (H5 eq_refl)|].
    reflexivity.
Qed.

Lemma float_neq (x y : float) : Prim2SF x <> Prim2SF y -> x <> y.
Proof. intros H ->. apply H. reflexivity. Qed.

Lemma calculate_importance_bounds (content : string) :
  (0.5 <=? _calculate_importance content)%float = true /\
  (_calculate_importance content <=? 1)%float = true.
Proof.
  unfold _calculate_importance. cbv zeta.
  destruct (any_in _ content); destruct (any_in _ content);
    destruct (50 <? Py.len content); split; vm_compute; reflexivity.
Qed.

Section Methods.

Variable str_lower : string -> string.
Variable str_strip : string -> string.
Variable clock : nat -> Datetime.datetime.
Variable md5_hexdigest : string -> string.

Definition memory_types : list string := ["preference"; "event"; "emotion"; "fact"].

Lemma classify_memory_type_in (content : string) :
  _classify_memory_type str_lower content ∈ memory_types.
Proof.
  unfold _classify_memory_type, memory_types.
  repeat (destruct (any_in _ _);
          [repeat first [apply list_elem_of_here | apply list_elem_of_further]|]).
  repeat first [apply list_elem_of_here | apply list_elem_of_further].
Qed.

Lemma make_memories_elem (uid : string) (r : nat) (sentences : list string)
  (mem : Memory) :
  mem ∈ make_memories str_lower str_strip clock md5_hexdigest uid r sentences ->
  exists sent k,
    sent ∈ sentences /\
    mem = make_memory str_lower str_strip md5_hexdigest uid sent (clock k) (clock (S k)).
Proof.
  revert r. induction sentences as [|sent rest IH]; intros r H; cbn in H.
  - apply elem_of_nil in H. contradiction.
  - apply elem_of_cons in H. destruct H as [->|H].
    + exists sent, r. split; [left|reflexivity].
    + destruct (IH _ H) as (s & k & Hs & ->). exists s, k. split; [right; exact Hs|reflexivity].
Qed.

Lemma unique_by_content_spec (seen : list string) (memories : list Memory) :
  NoDup (map content (unique_by_content seen memories)) /\
  forall mem,
    mem ∈ unique_by_content seen memories ->
    mem ∈ memories /\ content mem ∉ seen.
Proof.
  revert seen. induction memories as [|m rest IH]; intros seen; cbn.
  - split; [constructor|]. intros mem H. apply elem_of_nil in H. contradiction.
  - destruct (bool_decide (content m ∈ seen)) eqn:E.
    + destruct (IH seen) as (Hnd & Hin). split; [exact Hnd|].
      intros mem H. destruct (Hin mem H). split; [right|]; assumption.
    + apply bool_decide_eq_false in E.
      destruct (IH (content m :: seen)) as (Hnd & Hin). split.
      * cbn. constructor; [|exact Hnd].
        intros H. apply list_elem_of_In, in_map_iff in H.
        destruct H as (m' & Heq & Hm').
        apply list_elem_of_In in Hm'.
        destruct (Hin m' Hm') as (_ & Hnot). apply Hnot. rewrite Heq. left.
      * intros mem H. apply elem_of_cons in H. destruct H as [->|H].
        -- split; [left|exact E].
        -- destruct (Hin mem H) as (H1 & H2). split; [right; exact H1|].
           intros H3. apply H2. right. exact H3.
Qed.

Lemma memorable_sentences_elem (combined sent : string) :
  sent ∈ memorable_sentences str_strip combined ->
  exists keyword,
    keyword ∈ MEMORY_KEYWORDS /\ Py.str_in keyword combined = true /\
    Py.str_in keyword sent = true /\ 5 < Py.len (str_strip sent).
Proof.
  unfold memorable_sentences. intros H.
  apply list_elem_of_In, in_flat_map in H. destruct H as (keyword & Hk & H).
  exists keyword. split; [apply list_elem_of_In, Hk|].
  destruct (Py.str_in keyword combined); [|contradiction].
  split; [reflexivity|].
  apply filter_In in H. destruct H as (_ & H).
  apply andb_true_iff in H. destruct H as (H1 & H2).
  split; [exact H1|]. apply Z.ltb_lt, H2.
Qed.

Lemma memorable_sentences_none (combined : string) :
  any_in MEMORY_KEYWORDS combined = false ->
  memorable_sentences str_strip combined = [].
Proof.
  unfold any_in, memorable_sentences.
  induction MEMORY_KEYWORDS as [|keyword rest IH]; cbn [existsb flat_map];
    intros H; [reflexivity|].
  apply orb_false_iff in H. destruct H as (H1 & H2).
  rewrite H1, (IH H2). reflexivity.
Qed.

End Methods.

(** The profile after the loop: each of the four named lists holds the
    contents of the memories of that type, in order; no list is added. *)
Definition profile_of (memories : list Memory) (key : string) : option (list string) :=
  if bool_decide (key ∈ ["facts"; "preferences"; "events"; "emotions"])
  then Some (map content (filter (fun mem => memory_type mem = key) memories))
  else None.

Lemma empty_profile_lookup (key : string) :
  empty_profile !! key = profile_of [] key.
Proof.
  unfold profile_of, empty_profile.
  destruct (decide (key = "facts")) as [->|H1]; [reflexivity|].
  destruct (decide (key = "preferences")) as [->|H2]; [reflexivity|].
  destruct (decide (key = "events")) as [->|H3]; [reflexivity|].
  destruct (decide (key = "emotions")) as [->|H4]; [reflexivity|].
  rewrite bool_decide_eq_false_2.
  - rewrite !lookup_insert_ne by congruence. apply lookup_singleton_ne. congruence.
  - intros Hin.
    repeat (apply elem_of_cons in Hin; destruct Hin as [->|Hin]; [contradiction|]).
    apply elem_of_nil in Hin. exact Hin.
Qed.

Lemma get_user_profile_snoc (memories : list Memory) (mem : Memory) :
  get_user_profile (memories ++ [mem]) =
  match get_user_profile memories !! memory_type mem with
  | Some bucket =>
      <[memory_type mem := bucket ++ [content mem]]> (get_user_profile memories)
  | None => get_user_profile memories
  end.
Proof. unfold get_user_profile. rewrite foldl_app. reflexivity. Qed.

Lemma get_user_profile_lookup (memories : list Memory) (key : string) :
  get_user_profile memories !! key = profile_of memories key.
Proof.
  induction memories as [|mem memories IH] using rev_ind.
  - apply empty_profile_lookup.
  - rewrite get_user_profile_snoc.
    assert (Hstep : profile_of (memories ++ [mem]) key =
                    if bool_decide (memory_type mem = key)
                    then (fun l => l ++ [content mem]) <$> profile_of memories key
                    else profile_of memories key).
    { unfold profile_of. rewrite filter_app, map_app.
      rewrite filter_cons, filter_nil.
      destruct (decide (memory_type mem = key)) as [E|E].
      - rewrite (bool_decide_eq_true_2 _ E). destruct (bool_decide (key ∈ _)); reflexivity.
      - rewrite (bool_decide_eq_false_2 _ E). rewrite app_nil_r. reflexivity. }
    rewrite Hstep. clear Hstep.
    destruct (decide (memory_type mem = key)) as [E|E].
    + rewrite (bool_decide_eq_true_2 _ E). subst key. rewrite <- IH.
      destruct (get_user_profile memories !! memory_type mem) as [bucket|] eqn:Hb.
      * rewrite lookup_insert_eq. reflexivity.
      * rewrite Hb. reflexivity.
    + rewrite (bool_decide_eq_false_2 _ E), <- IH.
      destruct (get_user_profile memories !! memory_type mem) as [bucket|].
      * apply lookup_insert_ne, E.
      * reflexivity.
Qed.

End MemoryExtractorFacts.

(** X15. [_calculate_importance] returns a value from 0.5 to 1.0. It is 0.5
    exactly when the text holds neither 私は nor 私の (the other four personal
    indicators start with one of these), holds none of the emotion words and
    has at most 50 characters. *)
Theorem calculate_importance_range :
  forall content : string,
    let r := MemoryExtractor._calculate_importance content in
    (0.5 <=? r)%float = true /\ (r <=? 1)%float = true /\
    (r = 0.5%float <->
     Py.str_in "私は" content = false /\ Py.str_in "私の" content = false /\
     MemoryExtractor.any_in ["愛"; "憎しみ"; "怖い"; "夢"; "love"; "hate"; "dream"]
       content = false /\
     Py.len content <= 50).
Proof.
  intros content. unfold MemoryExtractor._calculate_importance. cbv zeta.
  rewrite MemoryExtractorFacts.personal_indicators_two.
  destruct (Py.str_in "私は" content); destruct (Py.str_in "私の" content);
    destruct (MemoryExtractor.any_in _ content);
    destruct (50 <? Py.len content) eqn:Hlen;
    cbn [orb];
    (split; [vm_compute; reflexivity|]);
    (split; [vm_compute; reflexivity|]);
    (split;
     [ intros H;
       try (exfalso; revert H; apply MemoryExtractorFacts.float_neq;
            vm_compute; discriminate);
       apply Z.ltb_ge in Hlen; repeat split; assumption
     | intros (H1 & H2 & H3 & H4); try discriminate;
       try (apply Z.ltb_lt in Hlen; lia); vm_compute; reflexivity ]).
Qed.

(** X16. [extract_from_message] returns at most three memories, no two with
    the same content. Each is for the user given, has never been accessed,
    has a content of more than 5 characters that is the stripped form of a
    sentence holding one of the keywords, one of the four memory types and an
    importance from 0.5 to 1.0. When the user message joined to the bot
    response by a blank holds no keyword, nothing is returned. *)
Theorem extract_from_message_memories :
  forall (str_lower str_strip : string -> string)
         (clock : nat -> Datetime.datetime) (md5_hexdigest : string -> string)
         (user_message bot_response uid : string) (r : nat),
    let result :=
      MemoryExtractor.extract_from_message str_lower str_strip clock
        md5_hexdigest user_message bot_response uid r in
    (length result <= 3)%nat /\
    NoDup (map MemoryExtractor.content result) /\
    Forall
      (fun mem =>
         MemoryExtractor.user_id mem = uid /\
         MemoryExtractor.access_count mem = 0 /\
         5 < Py.len (MemoryExtractor.content mem) /\
         (exists keyword sent,
             keyword ∈ MemoryExtractor.MEMORY_KEYWORDS /\
             Py.str_in keyword sent = true /\
             MemoryExtractor.content mem = str_strip sent) /\
         MemoryExtractor.memory_type mem ∈ MemoryExtractorFacts.memory_types /\
         (0.5 <=? MemoryExtractor.importance mem)%float = true /\
         (MemoryExtractor.importance mem <=? 1)%float = true)
      result /\
    (MemoryExtractor.any_in MemoryExtractor.MEMORY_KEYWORDS
       (user_message +:+ " " +:+ bot_response) = false ->
     result = []).
Proof.
  intros str_lower str_strip clock md5_hexdigest user_message bot_response uid r
         result.
  subst result. unfold MemoryExtractor.extract_from_message. cbv zeta.
  set (combined := user_message +:+ " " +:+ bot_response).
  set (memories := MemoryExtractor.make_memories _ _ _ _ _ _ _).
  destruct (MemoryExtractorFacts.unique_by_content_spec [] memories) as (Hnd & Hin).
  split; [rewrite length_take; lia|]. split; [|split].
  - change (map MemoryExtractor.content ?l) with (MemoryExtractor.content <$> l).
    rewrite fmap_take.
    eapply sublist_NoDup; [exact Hnd|]. apply sublist_take.
  - apply Forall_forall. intros mem Hmem.
    apply (subseteq_take 3), Hin in Hmem. destruct Hmem as (Hmem & _).
    subst memories.
    apply MemoryExtractorFacts.make_memories_elem in Hmem.
    destruct Hmem as (sent & k & Hsent & ->).
    apply MemoryExtractorFacts.memorable_sentences_elem in Hsent.
    destruct Hsent as (keyword & Hk & _ & Hks & Hlen).
    cbn [MemoryExtractor.make_memory MemoryExtractor.user_id
         MemoryExtractor.access_count MemoryExtractor.content
         MemoryExtractor.memory_type MemoryExtractor.importance].
    split; [reflexivity|]. split; [reflexivity|]. split; [exact Hlen|].
    split; [exists keyword, sent; repeat split; assumption|].
    split; [apply MemoryExtractorFacts.classify_memory_type_in|].
    pose proof (MemoryExtractorFacts.calculate_importance_bounds sent) as (H1 & H2).
    split; assumption.
  - intros Hnone. subst memories.
    rewrite (MemoryExtractorFacts.memorable_sentences_none str_strip combined Hnone).
    reflexivity.
Qed.

(** X17. The profile [get_user_profile] builds has exactly the four lists
    facts, preferences, events and emotions, and each holds, in the order of
    the memories, the contents of the memories whose type is the name of the
    list itself. *)
Theorem get_user_profile_lists :
  forall (memories : list MemoryExtractor.Memory) (key : string),
    MemoryExtractor.get_user_profile memories !! key =
    if bool_decide (key ∈ ["facts"; "preferences"; "events"; "emotions"])
    then Some (map MemoryExtractor.content
                 (filter (fun mem => MemoryExtractor.memory_type mem = key) memories))
    else None.
Proof.
  intros memories key. apply MemoryExtractorFacts.get_user_profile_lookup.
Qed.

(** X18. The memory types the program assigns are singular (fact,
    preference, event, emotion, and consolidated_fact for a summary), the
    names of the lists of the profile are plural: memories of these types
    are listed nowhere, and the profile of a user who has only such memories
    is the four empty lists. *)
Theorem get_user_profile_of_typed_memories :
  forall memories : list MemoryExtractor.Memory,
    Forall
      (fun mem =>
         MemoryExtractor.memory_type mem ∈
           ["fact"; "preference"; "event"; "emotion"; "consolidated_fact"])
      memories ->
    MemoryExtractor.get_user_profile memories = MemoryExtractor.empty_profile.
Proof.
  intros memories Htypes. apply map_eq. intros key.
  rewrite MemoryExtractorFacts.get_user_profile_lookup,
    MemoryExtractorFacts.empty_profile_lookup.
  unfold MemoryExtractorFacts.profile_of.
  destruct (bool_decide (key ∈ _)) eqn:Hkey; [|reflexivity].
  apply bool_decide_eq_true in Hkey.
  replace (filter (fun mem => MemoryExtractor.memory_type mem = key) memories)
    with (@nil MemoryExtractor.Memory); [reflexivity|].
  symmetry. induction Htypes as [|mem rest Hmem Hrest IH]; [reflexivity|].
  rewrite filter_cons, IH.
  destruct (decide (MemoryExtractor.memory_type mem = key)) as [E|E]; [|reflexivity].
  exfalso. rewrite E in Hmem.
  repeat (apply elem_of_cons in Hkey; destruct Hkey as [->|Hkey];
          [repeat (apply elem_of_cons in Hmem; destruct Hmem as [Hmem|Hmem];
                   [discriminate|]);
           apply elem_of_nil in Hmem; exact Hmem|]).
  apply elem_of_nil in Hkey. exact Hkey.
Qed.

Lemma get_user_profile_of_typed_memories_witness :
  let memories :=
    [MemoryExtractor.make_memory Py.ascii_lower Py.ascii_strip demo_digest "u"
       "I love my family" (noon_clock 0) (noon_clock 1)] in
  MemoryExtractor._classify_memory_type Py.ascii_lower "I love my family"
    = "preference" /\
  Forall
    (fun mem =>
       MemoryExtractor.memory_type mem ∈
         ["fact"; "preference"; "event"; "emotion"; "consolidated_fact"])
    memories /\
  MemoryExtractor.get_user_profile memories = MemoryExtractor.empty_profile.
Proof.
  intros memories.
  assert (Htype : MemoryExtractor._classify_memory_type Py.ascii_lower
                    "I love my family" = "preference")
    by (vm_compute; reflexivity).
  assert (Htypes : Forall
                     (fun mem =>
                        MemoryExtractor.memory_type mem ∈
                          ["fact"; "preference"; "event"; "emotion"; "consolidated_fact"])
                     memories).
  { subst memories. constructor; [|constructor].
    cbn [MemoryExtractor.make_memory MemoryExtractor.memory_type].
    rewrite Htype. apply list_elem_of_further, list_elem_of_here. }
  split; [exact Htype|]. split; [exact Htypes|].
  apply (get_user_profile_of_typed_memories memories Htypes).
Defined.

(** ** KnowledgeIntegrator: what an integration adds *)

Module IntegrationFacts.

Import KnowledgeIntegrator.

Lemma group_by_type_snoc (insights : list LearnedInsight) (i : LearnedInsight) :
  _group_by_type (insights ++ [i]) =
  <[insight_type i :=
      default [] (_group_by_type insights !! insight_type i) ++ [i]]>
    (_group_by_type insights).
Proof.
  unfold _group_by_type. rewrite foldl_app. cbn [foldl].
  set (grouped := foldl _ ∅ insights).
  destruct (grouped !! insight_type i) as [l|] eqn:E; cbn [default from_option].
  - unfold Datatypes.id. apply map_eq. intros key.
    destruct (decide (insight_type i = key)) as [<-|Hne].
    + rewrite lookup_alter_eq, lookup_insert_eq, E. reflexivity.
    + rewrite lookup_alter_ne, lookup_insert_ne by exact Hne. reflexivity.
  - rewrite alter_insert_eq. reflexivity.
Qed.

(** The group of a type is the list of the insights of that type, in their
    order; a type without insights has no group. *)
Lemma group_by_type_lookup (insights : list LearnedInsight) (type_name : string) :
  _group_by_type insights !! type_name =
  match filter (fun i => insight_type i = type_name) insights with
  | [] => None
  | bucket => Some bucket
  end.
Proof.
  induction insights as [|i insights IH] using rev_ind.
  - apply lookup_empty.
  - rewrite group_by_type_snoc, filter_app, filter_cons, filter_nil.
    destruct (decide (insight_type i = type_name)) as [E|E].
    + rewrite E, lookup_insert_eq, IH.
      destruct (filter _ insights); reflexivity.
    + rewrite lookup_insert_ne by exact E. rewrite app_nil_r. exact IH.
Qed.

Lemma merge_into_prefix (l texts : list string) : l `prefix_of` merge_into l texts.
Proof.
  revert l. induction texts as [|c texts IH]; intros l; cbn.
  - reflexivity.
  - destruct (bool_decide (c ∈ l)); [apply IH|].
    etransitivity; [|apply IH]. apply prefix_app_r. reflexivity.
Qed.

Lemma merge_into_sound (l texts : list string) (c : string) :
  c ∈ merge_into l texts -> c ∈ l \/ c ∈ texts.
Proof.
  revert l. induction texts as [|c' texts IH]; intros l H; cbn in H.
  - left. exact H.
  - apply IH in H. destruct H as [H|H]; [|right; right; exact H].
    destruct (bool_decide (c' ∈ l)); [left; exact H|].
    apply elem_of_app in H. destruct H as [H|H]; [left; exact H|].
    apply list_elem_of_singleton in H. subst c'. right. left.
Qed.

(** The lists of a document after a block. *)
Lemma integrate_bucket_lookup (type_name key key' : string)
  (insights : list LearnedInsight) (data : Document) :
  default [] (integrate_bucket type_name key (_group_by_type insights) data !! key') =
  if bool_decide (key = key')
  then merge_into (default [] (data !! key'))
         (map content (filter (fun i => insight_type i = type_name) insights))
  else default [] (data !! key').
Proof.
  rewrite integrate_bucket_eq, group_by_type_lookup.
  destruct (decide (key = key')) as [<-|Hne].
  - rewrite bool_decide_eq_true_2 by reflexivity.
    destruct (filter _ insights) as [|i bucket]; [reflexivity|].
    rewrite lookup_insert_eq. reflexivity.
  - rewrite bool_decide_eq_false_2 by exact Hne.
    destruct (filter _ insights) as [|i bucket]; [reflexivity|].
    rewrite lookup_insert_ne by exact Hne. reflexivity.
Qed.

Lemma integrate_bucket_lookup_other (type_name key key' : string)
  (grouped : gmap string (list LearnedInsight)) (data : Document) :
  key <> key' ->
  integrate_bucket type_name key grouped data !! key' = data !! key'.
Proof. apply integrate_bucket_other. Qed.

End IntegrationFacts.

(** X19. [_group_by_type] files each insight under its type: the group of a
    type is the list of the insights of that type, in the order they came,
    and a type no insight has is not a key of the result. *)
Theorem group_by_type_groups :
  forall (insights : list KnowledgeIntegrator.LearnedInsight) (type_name : string),
    KnowledgeIntegrator._group_by_type insights !! type_name =
    match filter (fun i => KnowledgeIntegrator.insight_type i = type_name) insights with
    | [] => None
    | bucket => Some bucket
    end.
Proof. exact IntegrationFacts.group_by_type_lookup. Qed.

(** X20. An integration only appends. For each of the four integrated kinds,
    the list of the document after [integrate_insights] starts with the list
    before it, holds the text of every insight of the kind, and holds no
    text that is neither from the list before nor from an insight of the
    kind. Every other entry of the document is as it was: insights of other
    kinds are dropped. *)
Theorem integrate_insights_appends :
  forall (file : option KnowledgeIntegrator.Document)
         (insights : list KnowledgeIntegrator.LearnedInsight),
    let before := KnowledgeIntegrator._load_learned_knowledge file in
    exists after,
      KnowledgeIntegrator.integrate_insights file insights = Some after /\
      (forall type_name key,
          (type_name, key) ∈ buckets ->
          default [] (before !! key) `prefix_of` default [] (after !! key) /\
          (forall i,
              i ∈ insights -> KnowledgeIntegrator.insight_type i = type_name ->
              KnowledgeIntegrator.content i ∈ default [] (after !! key)) /\
          (forall text,
              text ∈ default [] (after !! key) ->
              text ∈ default [] (before !! key) \/
              exists i, i ∈ insights /\
                        KnowledgeIntegrator.insight_type i = type_name /\
                        KnowledgeIntegrator.content i = text)) /\
      (forall key,
          key ∉ map snd buckets -> after !! key = before !! key).
Proof.
  intros file insights before.
  set (grouped := KnowledgeIntegrator._group_by_type insights).
  exists (KnowledgeIntegrator.integrate_bucket "emotion_rule" "emotional_rules" grouped
            (KnowledgeIntegrator.integrate_bucket "pattern" "user_patterns" grouped
               (KnowledgeIntegrator.integrate_bucket "fact" "user_facts" grouped
                  (KnowledgeIntegrator.integrate_bucket "preference"
                     "user_preferences" grouped before)))).
  split; [reflexivity|].
  assert (Hlist : forall type_name key,
             (type_name, key) ∈ buckets ->
             default []
               (KnowledgeIntegrator.integrate_bucket "emotion_rule" "emotional_rules" grouped
                  (KnowledgeIntegrator.integrate_bucket "pattern" "user_patterns" grouped
                     (KnowledgeIntegrator.integrate_bucket "fact" "user_facts" grouped
                        (KnowledgeIntegrator.integrate_bucket "preference"
                           "user_preferences" grouped before))) !! key) =
             merge_into (default [] (before !! key))
               (map KnowledgeIntegrator.content
                  (filter (fun i => KnowledgeIntegrator.insight_type i = type_name)
                     insights))).
  { intros type_name key Hin. unfold buckets in Hin. subst grouped.
    repeat (apply elem_of_cons in Hin; destruct Hin as [Hin|Hin];
            [injection Hin as -> ->;
             rewrite !IntegrationFacts.integrate_bucket_lookup; reflexivity|]).
    apply elem_of_nil in Hin. contradiction. }
  split.
  - intros type_name key Hin. rewrite (Hlist type_name key Hin).
    split; [apply IntegrationFacts.merge_into_prefix|]. split.
    + intros i Hi Hty. apply merge_into_adds.
      apply list_elem_of_In, in_map, list_elem_of_In.
      apply list_elem_of_filter. split; assumption.
    + intros text Htext. apply IntegrationFacts.merge_into_sound in Htext.
      destruct Htext as [H|H]; [left; exact H|right].
      apply list_elem_of_In, in_map_iff in H. destruct H as (i & Hc & Hi).
      apply list_elem_of_In, list_elem_of_filter in Hi. destruct Hi as (Hty & Hi).
      exists i. repeat split; assumption.
  - intros key Hkey.
    rewrite !integrate_bucket_other; [reflexivity|intros <-; apply Hkey ..];
      unfold buckets; cbn [map snd];
      repeat first [apply list_elem_of_here | apply list_elem_of_further].
Qed.

Module PromptFacts.

Import KnowledgeIntegrator.

(** The lists [get_enhanced_system_prompt] reads, each with the number of
    entries it shows at most (lines 489, 494, 499 and 504). *)
Definition prompt_lists : list (string * nat) :=
  [ ("user_facts", 10%nat); ("user_preferences", 10%nat);
    ("user_patterns", 5%nat); ("emotional_rules", 5%nat) ].

Lemma entry_lines_start (start : string) (entries : list string) :
  foldl (fun enhancement entry => enhancement +:+ "- " +:+ entry +:+ Py.newline)
    start entries =
  start +:+
  foldl (fun enhancement entry => enhancement +:+ "- " +:+ entry +:+ Py.newline)
    "" entries.
Proof.
  induction entries as [|entry entries IH] using rev_ind.
  - cbn [foldl]. symmetry. apply StringFacts.append_nil_r.
  - rewrite !foldl_app. cbn [foldl]. rewrite IH.
    apply StringFacts.append_assoc.
Qed.

(** A section is appended to the text so far. *)
Lemma prompt_section_start (title : string) (limit : nat)
  (entries : option (list string)) (enhancement : string) :
  prompt_section title limit entries enhancement =
  enhancement +:+ prompt_section title limit entries "".
Proof.
  unfold prompt_section.
  destruct entries as [[|entry entries]|];
    try (symmetry; apply StringFacts.append_nil_r).
  rewrite entry_lines_start, (entry_lines_start ("" +:+ title)).
  rewrite StringFacts.append_nil_l. apply StringFacts.append_assoc.
Qed.

(** A section reads the first [limit] entries only, and takes a missing list
    for an empty one. *)
Lemma prompt_section_take (title : string) (limit : nat)
  (entries : option (list string)) (enhancement : string) :
  (0 < limit)%nat ->
  prompt_section title limit entries enhancement =
  prompt_section title limit (Some (take limit (default [] entries))) enhancement.
Proof.
  intros Hlimit. unfold prompt_section.
  destruct entries as [[|entry entries]|]; cbn [default from_option];
    unfold Datatypes.id; try (destruct limit; reflexivity).
  destruct limit as [|limit]; [lia|].
  cbn [take]. rewrite take_take, Nat.min_id. reflexivity.
Qed.

(** An entry among the first [limit] has its line in the section. *)
Lemma prompt_section_shows (title : string) (limit : nat) (entries : list string)
  (entry : string) :
  entry ∈ take limit entries ->
  Py.str_in ("- " +:+ entry +:+ Py.newline)
    (prompt_section title limit (Some entries) "") = true.
Proof.
  intros Hin. unfold prompt_section.
  destruct entries as [|e entries];
    [rewrite take_nil in Hin; apply elem_of_nil in Hin; contradiction|].
  set (shown := take limit (e :: entries)) in *. clearbody shown.
  generalize ("" +:+ title). 
  induction shown as [|x shown IH] using rev_ind; intros start.
  - apply elem_of_nil in Hin. contradiction.
  - rewrite foldl_app. cbn [foldl].
    apply elem_of_app in Hin. destruct Hin as [Hin|Hin].
    + apply StringFacts.str_in_append_l, IH, Hin.
    + apply list_elem_of_singleton in Hin. subst x.
      apply StringFacts.str_in_append_r.
      rewrite <- (StringFacts.append_nil_r ("- " +:+ entry +:+ Py.newline)) at 2.
      apply StringFacts.str_in_here.
Qed.

(** The prompt, as the base prompt followed by the parts added to it. *)
Lemma get_enhanced_system_prompt_parts (file : option Document) (base_prompt : string) :
  let learned := _load_learned_knowledge file in
  get_enhanced_system_prompt file base_prompt =
  base_prompt +:+
  (Py.newline +:+ Py.newline +:+ "【あなたについての理解】" +:+ Py.newline) +:+
  prompt_section ("重要な情報：" +:+ Py.newline) 10 (learned !! "user_facts") "" +:+
  prompt_section (Py.newline +:+ "好みと嗜好：" +:+ Py.newline) 10
    (learned !! "user_preferences") "" +:+
  prompt_section (Py.newline +:+ "行動パターン：" +:+ Py.newline) 5
    (learned !! "user_patterns") "" +:+
  prompt_section (Py.newline +:+ "感情の特徴：" +:+ Py.newline) 5
    (learned !! "emotional_rules") "" +:+
  (Py.newline +:+ "【適用ルール】" +:+ Py.newline
   +:+ "- 会話の中でこれらの理解を自然に活用する" +:+ Py.newline
   +:+ "- ユーザーの好みを覚えて、積極的に言及する" +:+ Py.newline
   +:+ "- ユーザーのパターンに基づいてインタラクション方法を調整する" +:+ Py.newline
   +:+ "- ユーザーのネガティブな感情を引き起こさないようにする" +:+ Py.newline).
Proof.
  intros learned. unfold get_enhanced_system_prompt. fold learned. cbv zeta.
  rewrite (prompt_section_start _ 5 (learned !! "emotional_rules")).
  rewrite (prompt_section_start _ 5 (learned !! "user_patterns")).
  rewrite (prompt_section_start _ 10 (learned !! "user_preferences")).
  rewrite (prompt_section_start _ 10 (learned !! "user_facts")).
  rewrite !StringFacts.append_assoc. reflexivity.
Qed.

End PromptFacts.

(** X21. The enhanced prompt reads nothing of the learned-knowledge file but
    the first 10 user facts, the first 10 preferences, the first 5 patterns
    and the first 5 emotional rules: two files that agree on these, a
    missing list counting as an empty one and a missing file as an empty
    file, give the same prompt. *)
Theorem get_enhanced_system_prompt_reads :
  forall (file file' : option KnowledgeIntegrator.Document) (base_prompt : string),
    (forall key limit,
        (key, limit) ∈ PromptFacts.prompt_lists ->
        take limit (default [] (KnowledgeIntegrator._load_learned_knowledge file !! key)) =
        take limit (default [] (KnowledgeIntegrator._load_learned_knowledge file' !! key))) ->
    KnowledgeIntegrator.get_enhanced_system_prompt file base_prompt =
    KnowledgeIntegrator.get_enhanced_system_prompt file' base_prompt.
Proof.
  intros file file' base_prompt Hsame.
  unfold KnowledgeIntegrator.get_enhanced_system_prompt. cbv zeta.
  set (learned := KnowledgeIntegrator._load_learned_knowledge file) in *.
  set (learned' := KnowledgeIntegrator._load_learned_knowledge file') in *.
  rewrite (PromptFacts.prompt_section_take _ 10 (learned !! "user_facts")) by lia.
  rewrite (PromptFacts.prompt_section_take _ 10 (learned !! "user_preferences")) by lia.
  rewrite (PromptFacts.prompt_section_take _ 5 (learned !! "user_patterns")) by lia.
  rewrite (PromptFacts.prompt_section_take _ 5 (learned !! "emotional_rules")) by lia.
  rewrite (PromptFacts.prompt_section_take _ 10 (learned' !! "user_facts")) by lia.
  rewrite (PromptFacts.prompt_section_take _ 10 (learned' !! "user_preferences")) by lia.
  rewrite (PromptFacts.prompt_section_take _ 5 (learned' !! "user_patterns")) by lia.
  rewrite (PromptFacts.prompt_section_take _ 5 (learned' !! "emotional_rules")) by lia.
  rewrite (Hsame "user_facts" 10%nat), (Hsame "user_preferences" 10%nat),
    (Hsame "user_patterns" 5%nat), (Hsame "emotional_rules" 5%nat);
    [reflexivity|unfold PromptFacts.prompt_lists ..];
    repeat first [apply list_elem_of_here | apply list_elem_of_further].
Qed.

Lemma get_enhanced_system_prompt_reads_witness :
  let file : option KnowledgeIntegrator.Document :=
    Some {[ "user_patterns" := ["a"; "b"; "c"; "d"; "e"; "f"] ]} in
  let file' : option KnowledgeIntegrator.Document :=
    Some {[ "user_patterns" := ["a"; "b"; "c"; "d"; "e"];
            "user_facts" := []; "notes" := ["x"] ]} in
  file <> file' /\
  KnowledgeIntegrator.get_enhanced_system_prompt file "base" =
  KnowledgeIntegrator.get_enhanced_system_prompt file' "base".
Proof.
  intros file file'. split.
  - intros H. apply (f_equal (fun f => default ∅ f !! "notes")) in H.
    vm_compute in H. discriminate.
  - apply (get_enhanced_system_prompt_reads file file' "base").
    intros key limit Hin. unfold PromptFacts.prompt_lists in Hin.
    repeat (apply elem_of_cons in Hin; destruct Hin as [Hin|Hin];
            [injection Hin as -> ->; vm_compute; reflexivity|]).
    apply elem_of_nil in Hin. contradiction.
Defined.

(** X22. What is integrated is shown. When the list of its kind has room
    among the entries the prompt shows (fewer than 10 facts or preferences,
    fewer than 5 patterns or emotional rules), an insight of an integrated
    kind has, after [integrate_insights], its text on a line of its own in
    the enhanced prompt built from the file written. *)
Theorem integrated_insight_in_prompt :
  forall (file : option KnowledgeIntegrator.Document)
         (i : KnowledgeIntegrator.LearnedInsight)
         (key : string) (limit : nat) (base_prompt : string),
    (KnowledgeIntegrator.insight_type i, key) ∈ buckets ->
    (key, limit) ∈ PromptFacts.prompt_lists ->
    (length (default [] (KnowledgeIntegrator._load_learned_knowledge file !! key))
     < limit)%nat ->
    Py.str_in ("- " +:+ KnowledgeIntegrator.content i +:+ Py.newline)
      (KnowledgeIntegrator.get_enhanced_system_prompt
         (KnowledgeIntegrator.integrate_insights file [i]) base_prompt) = true.
Proof.
  intros file i key limit base_prompt Hkind Hlimit Hroom.
  set (before := KnowledgeIntegrator._load_learned_knowledge file) in *.
  set (entry := "- " +:+ KnowledgeIntegrator.content i +:+ Py.newline).
  unfold KnowledgeIntegrator.integrate_insights. cbv zeta. fold before.
  set (after := KnowledgeIntegrator.integrate_bucket "emotion_rule" _ _ _).
  assert (Hafter : default [] (after !! key) =
                   merge_into (default [] (before !! key))
                     [KnowledgeIntegrator.content i]).
  { subst after. unfold buckets in Hkind.
    repeat (apply elem_of_cons in Hkind; destruct Hkind as [Hkind|Hkind];
            [injection Hkind as Hty ->;
             rewrite !IntegrationFacts.integrate_bucket_lookup;
             cbn [filter list_filter]; rewrite Hty; reflexivity|]).
    apply elem_of_nil in Hkind. contradiction. }
  assert (Hshown : KnowledgeIntegrator.content i ∈ take limit (default [] (after !! key))).
  { rewrite Hafter. cbn [merge_into foldl].
    destruct (bool_decide (_ ∈ _)) eqn:Hd.
    - apply bool_decide_eq_true in Hd. rewrite take_ge by lia. exact Hd.
    - rewrite take_ge by (rewrite length_app; cbn [length]; lia).
      apply elem_of_app. right. left. }
  assert (Hsection : forall title,
             Py.str_in entry
               (KnowledgeIntegrator.prompt_section title limit (after !! key) "") = true).
  { intros title.
    destruct (after !! key) as [l|] eqn:E; cbn [default from_option] in Hshown;
      unfold Datatypes.id in Hshown.
    - apply PromptFacts.prompt_section_shows, Hshown.
    - rewrite take_nil in Hshown. apply elem_of_nil in Hshown. contradiction. }
  rewrite PromptFacts.get_enhanced_system_prompt_parts. cbv zeta.
  change (KnowledgeIntegrator._load_learned_knowledge (Some after)) with after.
  unfold PromptFacts.prompt_lists in Hlimit.
  apply elem_of_cons in Hlimit. destruct Hlimit as [Hl|Hlimit].
  { injection Hl as -> ->.
    do 2 apply StringFacts.str_in_append_r.
    apply StringFacts.str_in_append_l, Hsection. }
  apply elem_of_cons in Hlimit. destruct Hlimit as [Hl|Hlimit].
  { injection Hl as -> ->.
    do 3 apply StringFacts.str_in_append_r.
    apply StringFacts.str_in_append_l, Hsection. }
  apply elem_of_cons in Hlimit. destruct Hlimit as [Hl|Hlimit].
  { injection Hl as -> ->.
    do 4 apply StringFacts.str_in_append_r.
    apply StringFacts.str_in_append_l, Hsection. }
  apply elem_of_cons in Hlimit. destruct Hlimit as [Hl|Hlimit].
  { injection Hl as -> ->.
    do 5 apply StringFacts.str_in_append_r.
    apply StringFacts.str_in_append_l, Hsection. }
  apply elem_of_nil in Hlimit. contradiction.
Qed.

Lemma integrated_insight_in_prompt_witness :
  let fact := demo_insight "fact" "私は東京から来た" in
  (KnowledgeIntegrator.insight_type fact, "user_facts") ∈ buckets /\
  ("user_facts", 10%nat) ∈ PromptFacts.prompt_lists /\
  (length (default [] (KnowledgeIntegrator._load_learned_knowledge None !! "user_facts"))
   < 10)%nat /\
  Py.str_in ("- " +:+ "私は東京から来た" +:+ Py.newline)
    (KnowledgeIntegrator.get_enhanced_system_prompt
       (KnowledgeIntegrator.integrate_insights None [fact]) "base") = true.
Proof.
  intros fact.
  assert (Hkind : (KnowledgeIntegrator.insight_type fact, "user_facts") ∈ buckets)
    by (right; left).
  assert (Hlimit : ("user_facts", 10%nat) ∈ PromptFacts.prompt_lists) by left.
  assert (Hroom : (length (default [] (KnowledgeIntegrator._load_learned_knowledge None
                                         !! "user_facts")) < 10)%nat)
    by (vm_compute; lia).
  split; [exact Hkind|]. split; [exact Hlimit|]. split; [exact Hroom|].
  apply (integrated_insight_in_prompt None fact "user_facts" 10 "base"
           Hkind Hlimit Hroom).
Defined.

(** ** KnowledgeImporter: segmentation *)

Module SegmentFacts.

Import KnowledgeImporter.

Lemma join_cons (sep p q : string) (rest : list string) :
  Py.join sep (p :: q :: rest) = p +:+ sep +:+ Py.join sep (q :: rest).
Proof. reflexivity. Qed.

(** Two neighbours of a list joined by the separator join as their
    concatenation with the separator does. *)
Lemma join_merge (sep : string) (a : list string) (x y : string) (r : list string) :
  Py.join sep (a ++ [x +:+ sep +:+ y] ++ r) = Py.join sep (a ++ [x; y] ++ r).
Proof.
  induction a as [|p a IH].
  - cbn [app]. destruct r as [|q r].
    + reflexivity.
    + rewrite !join_cons, !StringFacts.append_assoc. reflexivity.
  - cbn [app] in *.
    destruct (a ++ (x +:+ sep +:+ y) :: r) as [|q1 l1] eqn:E1;
      [destruct a; discriminate|].
    destruct (a ++ x :: y :: r) as [|q2 l2] eqn:E2; [destruct a; discriminate|].
    rewrite !join_cons, IH. reflexivity.
Qed.

Lemma nonempty_true (text : string) : nonempty text = true <-> text <> "".
Proof.
  unfold nonempty. rewrite negb_true_iff. split.
  - intros H ->. discriminate.
  - intros H. apply String.eqb_neq, H.
Qed.

Lemma nonempty_false (text : string) : nonempty text = false -> text = "".
Proof.
  unfold nonempty. rewrite negb_false_iff. apply String.eqb_eq.
Qed.

Lemma nonempty_append_r (x y : string) : nonempty y = true -> nonempty (x +:+ y) = true.
Proof.
  rewrite !nonempty_true. intros Hy H. apply Hy.
  destruct x; [exact H|discriminate].
Qed.

Section Methods.

Variable str_strip : string -> string.

(** The segments when the loop stops in a state: the segments closed, then
    the one being gathered when it is not empty (lines 204-205). *)
Definition flush (state : list string * string) : list string :=
  if nonempty (snd state) then fst state ++ [snd state] else fst state.

(** The stripped paragraph, when it is not empty. *)
Definition kept (para : string) : list string :=
  if nonempty (str_strip para) then [str_strip para] else [].

Lemma segment_content_flush (content : string) :
  _segment_content str_strip content =
  flush (foldl (segment_step str_strip) ([], "")
           (Py.split (Py.newline +:+ Py.newline) content)).
Proof.
  unfold _segment_content, flush.
  destruct (foldl _ _ _) as (segments, current_segment). reflexivity.
Qed.

(** One pass of the loop keeps the text and its order. *)
Lemma segment_step_join (state : list string * string) (para : string)
  (rest : list string) :
  Py.join " " (flush (segment_step str_strip state para) ++ rest) =
  Py.join " " (flush state ++ kept para ++ rest).
Proof.
  destruct state as (segments, cur). unfold segment_step, kept, flush.
  destruct (nonempty (str_strip para)) eqn:Hpara; cbn [negb fst snd]; [|reflexivity].
  set (p := str_strip para) in *.
  destruct (ends_sentence p).
  - destruct (nonempty cur) eqn:Hcur; cbn [fst snd].
    + change (nonempty "") with false. cbn iota.
      rewrite <- !app_assoc. apply (join_merge " " segments cur p rest).
    + rewrite Hcur. rewrite <- app_assoc. reflexivity.
  - destruct (_ <? 500).
    + cbn [fst snd]. destruct (nonempty cur) eqn:Hcur.
      * rewrite (nonempty_append_r cur (" " +:+ p)) by reflexivity.
        rewrite <- !app_assoc. apply (join_merge " " segments cur p rest).
      * rewrite Hpara. rewrite <- app_assoc. reflexivity.
    + cbn [fst snd]. rewrite Hpara.
      destruct (nonempty cur); rewrite <- !app_assoc; reflexivity.
Qed.

Lemma segment_loop_join (paragraphs : list string) (state : list string * string)
  (rest : list string) :
  Py.join " " (flush (foldl (segment_step str_strip) state paragraphs) ++ rest) =
  Py.join " " (flush state ++ flat_map kept paragraphs ++ rest).
Proof.
  revert state. induction paragraphs as [|para paragraphs IH]; intros state.
  - reflexivity.
  - cbn [foldl flat_map]. rewrite IH, <- app_assoc.
    apply segment_step_join.
Qed.

(** No pass of the loop closes or gathers an empty segment. *)
Lemma segment_step_nonempty (state : list string * string) (para : string) :
  Forall (fun segment => segment <> "") (fst state) ->
  Forall (fun segment => segment <> "") (fst (segment_step str_strip state para)).
Proof.
  destruct state as (segments, cur). unfold segment_step. cbn [fst]. intros H.
  destruct (nonempty (str_strip para)) eqn:Hpara; cbn [negb]; [|exact H].
  apply nonempty_true in Hpara.
  destruct (ends_sentence _).
  - destruct (nonempty cur) eqn:Hcur; cbn [fst]; apply Forall_app; split;
      try exact H; repeat constructor.
    + apply nonempty_true, nonempty_append_r. reflexivity.
    + exact Hpara.
  - destruct (_ <? 500); cbn [fst]; [exact H|].
    destruct (nonempty cur) eqn:Hcur; [|exact H].
    apply Forall_app. split; [exact H|]. repeat constructor.
    apply nonempty_true, Hcur.
Qed.

Lemma segment_loop_nonempty (paragraphs : list string) (state : list string * string) :
  Forall (fun segment => segment <> "") (fst state) ->
  Forall (fun segment => segment <> "")
    (fst (foldl (segment_step str_strip) state paragraphs)).
Proof.
  revert state. induction paragraphs as [|para paragraphs IH]; intros state H.
  - exact H.
  - cbn [foldl]. apply IH, segment_step_nonempty, H.
Qed.

Lemma flush_start : flush ([], "") = [].
Proof. reflexivity. Qed.

Lemma kept_filter (paragraphs : list string) :
  flat_map kept paragraphs = List.filter nonempty (map str_strip paragraphs).
Proof.
  induction paragraphs as [|para rest IH]; [reflexivity|].
  cbn [flat_map map List.filter]. unfold kept at 1.
  destruct (nonempty (str_strip para)); cbn [app]; rewrite IH; reflexivity.
Qed.

End Methods.

End SegmentFacts.

(** X23. Segmentation keeps the text and its order, and makes no empty
    segment: joined by blanks, the segments of a content are its paragraphs,
    stripped, without the empty ones, joined by blanks. *)
Theorem segment_content_keeps_text :
  forall (str_strip : string -> string) (content : string),
    let paragraphs := Py.split (Py.newline +:+ Py.newline) content in
    Py.join " " (KnowledgeImporter._segment_content str_strip content) =
      Py.join " "
        (List.filter KnowledgeImporter.nonempty (map str_strip paragraphs)) /\
    Forall (fun segment => segment <> "")
      (KnowledgeImporter._segment_content str_strip content).
Proof.
  intros str_strip content paragraphs.
  rewrite SegmentFacts.segment_content_flush. fold paragraphs. split.
  - pose proof (SegmentFacts.segment_loop_join str_strip paragraphs ([], "") [])
      as H.
    rewrite !app_nil_r in H.
    rewrite H, SegmentFacts.flush_start, SegmentFacts.kept_filter. reflexivity.
  - assert (H0 : Forall (fun segment : string => segment <> "")
                   (fst (@nil string, EmptyString))) by constructor.
    pose proof (SegmentFacts.segment_loop_nonempty str_strip paragraphs ([], "") H0)
      as H.
    unfold SegmentFacts.flush.
    destruct (KnowledgeImporter.nonempty _) eqn:Hcur; [|exact H].
    apply Forall_app. split; [exact H|]. repeat constructor.
    apply SegmentFacts.nonempty_true, Hcur.
Qed.

(** ** AffectionSystem: the end of a sulk, feedback and reported actions *)

Module SulkFacts.

Import AffectionState AffectionSystem.

Lemma applied_fields change t_last t_sulk st :
  last_interaction (applied change t_last t_sulk st) = t_last /\
  total_messages (applied change t_last t_sulk st) = total_messages st + 1 /\
  interaction_count (applied change t_last t_sulk st) = interaction_count st + 1.
Proof.
  unfold applied, counted.
  destruct (sulk_triggered _ _), (0 <? change)%float, (change <? 0)%float;
    repeat split; reflexivity.
Qed.

Lemma calmed_sulking st until :
  is_ignoring st = true -> ignore_until st = Some until ->
  is_ignoring (calmed st) = false /\ ignore_until (calmed st) = None /\
  total_messages (calmed st) = total_messages st /\
  check_reads st = 1%nat.
Proof.
  intros Hi Hu. unfold calmed, check_reads. rewrite Hi, Hu.
  repeat split; reflexivity.
Qed.

Lemma sulk_triggered_false change new_score :
  ((change <=? -5) && (new_score <? 50))%float = false ->
  sulk_triggered change new_score = false.
Proof.
  unfold sulk_triggered. intros H.
  destruct (0 <? change)%float, (change <? 0)%float; cbn [negb andb];
    try reflexivity. exact H.
Qed.

End SulkFacts.

(** X24. A sulk ends at the first [update] made when its time is over, and
    not before: for a sulking record whose [ignore_until] the clock has
    reached, [update] applies the action as for a record that does not sulk,
    counts the message, stamps it with the second clock read of the call,
    and, unless this very action starts a new sulk, leaves the record with
    [is_ignoring] false and no [ignore_until]. *)
Theorem update_after_sulk_is_over :
  forall (clock : nat -> Datetime.datetime) (s : AffectionSystem.System)
         (uid action : string) (context : gmap string Z)
         (until : Datetime.datetime),
    let o := entry_focus clock uid s in
    let st := AffectionSystem.this o in
    AffectionState.is_ignoring st = true ->
    AffectionState.ignore_until st = Some until ->
    until <= clock (AffectionSystem.reads o) ->
    let r := AffectionSystem.update clock uid action context s in
    let change := update_delta st action context in
    let new_score := Py.max2 0 (Py.min2 100 (AffectionState.score st + change)) in
    exists st',
      AffectionSystem.states (snd r) !! uid = Some st' /\
      fst r = (new_score,
               AffectionSystem._generate_feedback (AffectionState.score st)
                 new_score action) /\
      AffectionState.score st' = new_score /\
      AffectionState.last_interaction st' = clock (S (AffectionSystem.reads o)) /\
      AffectionState.total_messages st' = AffectionState.total_messages st + 1 /\
      (((change <=? -5) && (new_score <? 50))%float = false ->
       AffectionState.is_ignoring st' = false /\
       AffectionState.ignore_until st' = None).
Proof.
  intros clock s uid action context deadline o st Hi Hu Hover r change new_score.
  assert (Hfree : still_sulking st (clock (AffectionSystem.reads o)) = false).
  { unfold still_sulking. rewrite Hi, Hu. apply Z.ltb_ge, Hover. }
  destruct (SulkFacts.calmed_sulking st deadline Hi Hu) as (Hci & Hcu & Hct & Hreads).
  destruct (calmed_fields st) as (Hscore & _).
  pose proof (update_body_applied clock action context o Hfree) as Hbody.
  cbv zeta in Hbody. fold st in Hbody.
  rewrite update_delta_calmed, Hscore, Hreads in Hbody.
  fold change new_score in Hbody.
  replace (AffectionSystem.reads o + 1)%nat with (S (AffectionSystem.reads o))
    in Hbody by lia.
  set (st' := applied change (clock (S (AffectionSystem.reads o)))
                (clock (S (S (AffectionSystem.reads o)))) (calmed st)) in *.
  assert (Hs' : AffectionState.score st' = new_score).
  { subst st'. rewrite score_applied, Hscore. reflexivity. }
  exists st'. split.
  { subst r. rewrite update_stores. fold o. rewrite Hbody. reflexivity. }
  split.
  { subst r. rewrite (surjective_pairing (AffectionSystem.update _ _ _ _ _)).
    rewrite update_returns. fold o. rewrite Hbody. cbn [fst]. rewrite Hs'.
    reflexivity. }
  split; [exact Hs'|].
  destruct (SulkFacts.applied_fields change (clock (S (AffectionSystem.reads o)))
              (clock (S (S (AffectionSystem.reads o)))) (calmed st))
    as (Hlast & Htotal & _).
  split; [exact Hlast|]. split; [subst st'; rewrite Htotal, Hct; reflexivity|].
  intros Hquiet.
  destruct (sulk_applied change (clock (S (AffectionSystem.reads o)))
              (clock (S (S (AffectionSystem.reads o)))) (calmed st)) as (H1 & H2).
  rewrite Hscore in H1, H2. fold new_score in H1, H2.
  rewrite (SulkFacts.sulk_triggered_false _ _ Hquiet) in H1, H2.
  subst st'. rewrite H1, H2. split; assumption.
Qed.

(** A clock that jumps an hour ahead at its sixth read. *)
Definition hour_later_clock (n : nat) : Datetime.datetime :=
  if (n <? 5)%nat then noon_clock n
  else noon_clock n + 3600 * Datetime.us_per_second.

Lemma update_after_sulk_is_over_witness :
  let s :=
    snd (AffectionSystem.process_message Py.ascii_lower hour_later_clock "u"
           "you are stupid" None AffectionSystem.init) in
  let o := entry_focus hour_later_clock "u" s in
  let st := AffectionSystem.this o in
  AffectionState.is_ignoring st = true /\
  AffectionState.ignore_until st = Some (noon_clock 3 + Datetime.minutes 30) /\
  noon_clock 3 + Datetime.minutes 30 <= hour_later_clock (AffectionSystem.reads o) /\
  exists st',
    AffectionSystem.states
      (snd (AffectionSystem.update hour_later_clock "u" "compliment" ∅ s)) !! "u"
      = Some st' /\
    AffectionState.is_ignoring st' = false /\
    AffectionState.ignore_until st' = None.
Proof.
  intros s o st.
  assert (Hi : AffectionState.is_ignoring st = true) by (vm_compute; reflexivity).
  assert (Hu : AffectionState.ignore_until st =
               Some (noon_clock 3 + Datetime.minutes 30))
    by (vm_compute; reflexivity).
  assert (Hover : noon_clock 3 + Datetime.minutes 30 <=
                  hour_later_clock (AffectionSystem.reads o))
    by (vm_compute; discriminate).
  split; [exact Hi|]. split; [exact Hu|]. split; [exact Hover|].
  destruct (update_after_sulk_is_over hour_later_clock s "u" "compliment" ∅
              (noon_clock 3 + Datetime.minutes 30) Hi Hu Hover)
    as (st' & Hst' & _ & _ & _ & _ & Hquiet).
  exists st'. split; [exact Hst'|].
  apply Hquiet. vm_compute. reflexivity.
Defined.

(** X25. The feedback of [update] goes by the sign of the score difference
    alone: one of the three rising texts when the new score is above the old
    one, one of the three falling texts when it is below, and the empty text
    otherwise. The action is not read. *)
Theorem generate_feedback_sign :
  forall (old_score new_score : float) (action : string),
    let change := (new_score - old_score)%float in
    let feedback := AffectionSystem._generate_feedback old_score new_score action in
    ((0 <? change)%float = true ->
     feedback ∈ ["好感度が大幅に上昇！"; "好感度が上がった～"; "好感度が少し上昇"]) /\
    ((change <? 0)%float = true ->
     feedback ∈ ["好感度が大幅に下降..."; "好感度が下がった"; "好感度が少し下降"]) /\
    ((0 <? change)%float = false -> (change <? 0)%float = false -> feedback = "") /\
    (forall other_action,
        AffectionSystem._generate_feedback old_score new_score other_action = feedback).
Proof.
  intros old_score new_score action change feedback.
  subst feedback. unfold AffectionSystem._generate_feedback. fold change.
  assert (H3 : (3 <? change)%float = true -> (0 <? change)%float = true)
    by (apply leb_ltb_trans; vm_compute; reflexivity).
  assert (H1 : (1 <? change)%float = true -> (0 <? change)%float = true)
    by (apply leb_ltb_trans; vm_compute; reflexivity).
  assert (N3 : (change <? -3)%float = true -> (change <? 0)%float = true)
    by (intros H; apply (ltb_leb_trans _ _ _ H); vm_compute; reflexivity).
  assert (N1 : (change <? -1)%float = true -> (change <? 0)%float = true)
    by (intros H; apply (ltb_leb_trans _ _ _ H); vm_compute; reflexivity).
  pose proof (ltb_asym 0 change) as Hasym.
  destruct (3 <? change)%float; [rewrite H3 in *|]; try reflexivity.
  { rewrite (Hasym eq_refl).
    repeat split; try discriminate; intros; apply list_elem_of_here. }
  destruct (1 <? change)%float; [rewrite H1 in *|]; try reflexivity.
  { rewrite (Hasym eq_refl).
    repeat split; try discriminate; intros;
      apply list_elem_of_further, list_elem_of_here. }
  destruct (0 <? change)%float.
  { rewrite (Hasym eq_refl).
    repeat split; try discriminate; intros;
      do 2 apply list_elem_of_further; apply list_elem_of_here. }
  destruct (change <? -3)%float; [rewrite N3 by reflexivity|].
  { repeat split; try discriminate; intros; apply list_elem_of_here. }
  destruct (change <? -1)%float; [rewrite N1 by reflexivity|].
  { repeat split; try discriminate; intros;
      apply list_elem_of_further, list_elem_of_here. }
  destruct (change <? 0)%float.
  { repeat split; try discriminate; intros;
      do 2 apply list_elem_of_further; apply list_elem_of_here. }
  repeat split; try discriminate; reflexivity.
Qed.

Module ReportFacts.

Import StateMonad AffectionState AffectionSystem.

(** The action [analyze_message_sentiment] names is one of four. *)
Lemma sentiment_action_cases (str_lower : string -> string) (message : string) :
  fst (AffectionCalculator.analyze_message_sentiment str_lower message) ∈
    ["mention_other_girl"; "compliment"; "rude"; "neutral"].
Proof.
  unfold AffectionCalculator.analyze_message_sentiment. cbv zeta.
  repeat (destruct (_ <? _);
          [cbn [fst]; repeat first [apply list_elem_of_here | apply list_elem_of_further]|]).
  cbn [fst]. repeat first [apply list_elem_of_here | apply list_elem_of_further].
Qed.

Lemma fst_bind {S A B} (m : State S A) (k : A -> State S B) (s : S) :
  fst (bind m k s) = fst (k (fst (m s)) (snd (m s))).
Proof. unfold bind. destruct (m s). reflexivity. Qed.

Section Report.

Variable str_lower : string -> string.
Variable clock : nat -> Datetime.datetime.

(** The actions of lines 327-343, for the sentiment action found, the time
    read and the response time. *)
Definition triggered (sentiment_action message : string) (t : Datetime.datetime)
  (response_time_seconds : option float) : list string :=
  (if negb (String.eqb sentiment_action "neutral") then [sentiment_action] else []) ++
  (if Py.str_in "おはよう" message || Py.str_in "お早う" message then
     if (5 <=? Datetime.hour t) && (Datetime.hour t <=? 10)
     then ["good_morning_night"] else []
   else if Py.str_in "おやすみ" message || Py.str_in "お休み" message then
     if (20 <=? Datetime.hour t) && (Datetime.hour t <=? 24)
     then ["good_morning_night"] else []
   else []) ++
  (if Py.truthy response_time_seconds &&
      (default 0 response_time_seconds <? 60)%float
   then ["quick_response"] else []).

(** What [process_message] returns beside the score. *)
Lemma process_message_report (uid message : string)
  (response_time_seconds : option float) (s : System) :
  let result := fst (process_message str_lower clock uid message
                       response_time_seconds s) in
  let actions :=
    triggered
      (fst (AffectionCalculator.analyze_message_sentiment str_lower message))
      message (clock (clock_reads (snd (get_state clock uid s))))
      response_time_seconds in
  snd result = actions /\
  exists st, snd (fst result) = _generate_interaction_feedback st actions.
Proof.
  cbv zeta. unfold process_message, triggered.
  destruct (AffectionCalculator.analyze_message_sentiment str_lower message)
    as [sentiment_action sentiment_score].
  cbn [fst].
  rewrite fst_bind, fst_bind.
  cbn [datetime_now fst snd clock_reads].
  set (t := clock (clock_reads (snd (get_state clock uid s)))).
  match goal with |- context [for_each ?l _] => set (actions := l) end.
  assert (Hactions :
    actions =
    (if negb (String.eqb sentiment_action "neutral") then [sentiment_action] else []) ++
    (if Py.str_in "おはよう" message || Py.str_in "お早う" message then
       if (5 <=? Datetime.hour t) && (Datetime.hour t <=? 10)
       then ["good_morning_night"] else []
     else if Py.str_in "おやすみ" message || Py.str_in "お休み" message then
       if (20 <=? Datetime.hour t) && (Datetime.hour t <=? 24)
       then ["good_morning_night"] else []
     else []) ++
    (if Py.truthy response_time_seconds &&
        (default 0 response_time_seconds <? 60)%float
     then ["quick_response"] else [])).
  { subst actions.
    destruct (String.eqb sentiment_action "neutral"),
      (Py.str_in "おはよう" message || Py.str_in "お早う" message),
      (Py.str_in "おやすみ" message || Py.str_in "お休み" message),
      ((5 <=? Datetime.hour t) && (Datetime.hour t <=? 10)),
      ((20 <=? Datetime.hour t) && (Datetime.hour t <=? 24)),
      (Py.truthy response_time_seconds &&
       (default 0 response_time_seconds <? 60)%float);
      reflexivity. }
  rewrite <- Hactions. clearbody actions.
  rewrite !fst_bind. cbn [ret fst snd]. split; [reflexivity|].
  eexists. reflexivity.
Qed.

End Report.

End ReportFacts.

(** X26. What [process_message] reports. The actions are, in this order, at
    most one of mention_other_girl, compliment and rude, then at most once
    good_morning_night, then at most once quick_response; quick_response is
    among them exactly when a response time is given that is not zero and is
    below 60 seconds. The feedback text is empty exactly when no action is
    reported. *)
Theorem process_message_reports :
  forall (str_lower : string -> string) (clock : nat -> Datetime.datetime)
         (s : AffectionSystem.System) (uid message : string)
         (response_time_seconds : option float),
    let result :=
      fst (AffectionSystem.process_message str_lower clock uid message
             response_time_seconds s) in
    let feedback := snd (fst result) in
    let actions := snd result in
    (exists sentiment greeting quick,
        actions = sentiment ++ greeting ++ quick /\
        sentiment ∈ [[]; ["mention_other_girl"]; ["compliment"]; ["rude"]] /\
        greeting ∈ [[]; ["good_morning_night"]] /\
        quick ∈ [[]; ["quick_response"]] /\
        (quick = ["quick_response"] <->
         exists seconds,
           response_time_seconds = Some seconds /\
           (seconds =? 0)%float = false /\ (seconds <? 60)%float = true)) /\
    (feedback = "" <-> actions = []).
Proof.
  intros str_lower clock s uid message response_time_seconds result feedback actions.
  destruct (ReportFacts.process_message_report str_lower clock uid message
              response_time_seconds s) as (Hactions & st & Hfeedback).
  fold result in Hactions, Hfeedback. fold actions in Hactions.
  fold feedback in Hfeedback. clearbody actions feedback.
  clear result. unfold ReportFacts.triggered in *.
  set (t := clock _) in *. clearbody t.
  pose proof (ReportFacts.sentiment_action_cases str_lower message) as Hsent.
  set (sentiment_action :=
         fst (AffectionCalculator.analyze_message_sentiment str_lower message)) in *.
  clearbody sentiment_action.
  set (sentiment := if negb (String.eqb sentiment_action "neutral")
                    then [sentiment_action] else []) in *.
  set (greeting := if Py.str_in "おはよう" message || Py.str_in "お早う" message
                   then _ else _) in *.
  set (quick := if Py.truthy response_time_seconds && _ then _ else _) in *.
  assert (Hs : sentiment ∈ [[]; ["mention_other_girl"]; ["compliment"]; ["rude"]]).
  { subst sentiment.
    repeat (apply elem_of_cons in Hsent; destruct Hsent as [->|Hsent];
            [cbn; repeat first [apply list_elem_of_here | apply list_elem_of_further]|]).
    apply elem_of_nil in Hsent. contradiction. }
  assert (Hg : greeting ∈ [[]; ["good_morning_night"]]).
  { subst greeting.
    destruct (Py.str_in "おはよう" message || Py.str_in "お早う" message),
      (Py.str_in "おやすみ" message || Py.str_in "お休み" message),
      ((5 <=? Datetime.hour t) && (Datetime.hour t <=? 10)),
      ((20 <=? Datetime.hour t) && (Datetime.hour t <=? 24));
      first [apply list_elem_of_here | apply list_elem_of_further, list_elem_of_here]. }
  assert (Hq : quick ∈ [[]; ["quick_response"]] /\
               (quick = ["quick_response"] <->
                exists seconds,
                  response_time_seconds = Some seconds /\
                  (seconds =? 0)%float = false /\ (seconds <? 60)%float = true)).
  { subst quick. destruct response_time_seconds as [seconds|];
      cbn [Py.truthy default from_option andb]; unfold Datatypes.id.
    - destruct (seconds =? 0)%float eqn:Hzero; cbn [negb andb].
      + split; [apply list_elem_of_here|].
        split; [discriminate|]. intros (x & Hx & H0 & _).
        injection Hx as <-. congruence.
      + destruct (seconds <? 60)%float eqn:Hlt.
        * split; [apply list_elem_of_further, list_elem_of_here|].
          split; [|reflexivity]. intros _. exists seconds.
          repeat split; assumption.
        * split; [apply list_elem_of_here|].
          split; [discriminate|]. intros (x & Hx & _ & H60).
          injection Hx as <-. congruence.
    - split; [apply list_elem_of_here|].
      split; [discriminate|]. intros (x & Hx & _). discriminate. }
  destruct Hq as (Hq & Hquick).
  split.
  - exists sentiment, greeting, quick. repeat split; try assumption; apply Hquick.
  - rewrite Hfeedback, Hactions. clear Hquick Hfeedback Hactions.
    clearbody sentiment greeting quick.
    repeat (apply elem_of_cons in Hs; destruct Hs as [->|Hs]);
      try (apply elem_of_nil in Hs; contradiction);
      repeat (apply elem_of_cons in Hg; destruct Hg as [->|Hg]);
      try (apply elem_of_nil in Hg; contradiction);
      repeat (apply elem_of_cons in Hq; destruct Hq as [->|Hq]);
      try (apply elem_of_nil in Hq; contradiction);
      vm_compute; split; intros H; first [reflexivity | discriminate H].
Qed.

(** ** KnowledgeSystem: counting by type *)

Module CountFacts.

Import KnowledgeIntegrator KnowledgeSystem.

Lemma count_by_type_snoc (insights : list LearnedInsight) (i : LearnedInsight) :
  _count_by_type (insights ++ [i]) =
  <[insight_type i := default 0 (_count_by_type insights !! insight_type i) + 1]>
    (_count_by_type insights).
Proof. unfold _count_by_type. rewrite foldl_app. reflexivity. Qed.

(** The count of a type is the number of insights of that type; a type
    without insights has no count. *)
Lemma count_by_type_lookup (insights : list LearnedInsight) (type_name : string) :
  _count_by_type insights !! type_name =
  match filter (fun i => insight_type i = type_name) insights with
  | [] => None
  | bucket => Some (Z.of_nat (length bucket))
  end.
Proof.
  induction insights as [|i insights IH] using rev_ind.
  - apply lookup_empty.
  - rewrite count_by_type_snoc, filter_app, filter_cons, filter_nil.
    destruct (decide (insight_type i = type_name)) as [E|E].
    + rewrite E, lookup_insert_eq, IH.
      destruct (filter _ insights) as [|x l]; cbn [default from_option app length];
        unfold Datatypes.id; [reflexivity|].
      f_equal. rewrite length_app. cbn [length]. lia.
    + rewrite lookup_insert_ne by exact E. rewrite app_nil_r. exact IH.
Qed.

End CountFacts.

(** X27. [_count_by_type] counts what [_group_by_type] groups: the two
    dictionaries have the same keys, and the count of a type is the length
    of its group, which is the number of insights of the type and at least
    1. *)
Theorem count_by_type_counts_groups :
  forall insights : list KnowledgeIntegrator.LearnedInsight,
    KnowledgeSystem._count_by_type insights =
      (fun bucket => Z.of_nat (length bucket)) <$>
        KnowledgeIntegrator._group_by_type insights /\
    (forall type_name n,
        KnowledgeSystem._count_by_type insights !! type_name = Some n ->
        1 <= n /\
        n = Z.of_nat
              (length (filter (fun i => KnowledgeIntegrator.insight_type i = type_name)
                         insights))).
Proof.
  intros insights. split.
  - apply map_eq. intros type_name.
    rewrite lookup_fmap, CountFacts.count_by_type_lookup.
    rewrite IntegrationFacts.group_by_type_lookup.
    destruct (filter _ insights); reflexivity.
  - intros type_name n H. rewrite CountFacts.count_by_type_lookup in H.
    destruct (filter _ insights) as [|x l]; [discriminate|].
    injection H as <-. cbn [length]. split; [lia|reflexivity].
Qed.

(** ** AffectionSystem: the hint for the prompt *)

Module HintFacts.

Import StateMonad AffectionState AffectionSystem.

Lemma bind_run {S A B} (m : State S A) (k : A -> State S B) (s s' : S) (a : A) :
  m s = (a, s') -> bind m k s = k a s'.
Proof. intros H. unfold bind. rewrite H. reflexivity. Qed.

Section Hint.

Variable clock : nat -> Datetime.datetime.

(** Reading through a reference to a stored record changes nothing. *)
Lemma deref_known (r : ref) (s : System) (st : AffectionState.t) :
  states s !! r = Some st -> deref r s = (st, s).
Proof.
  intros H. unfold deref, on_object, read. cbn [this reads].
  rewrite lookup_total_alt, H. cbn [default from_option id]. unfold Datatypes.id.
  rewrite (insert_id _ _ _ H). destruct s. reflexivity.
Qed.

Lemma get_level_known (uid : string) (s : System) (st : AffectionState.t) :
  states s !! uid = Some st ->
  get_level clock uid s = (AffectionLevel.get_level (score st), s).
Proof.
  intros H. unfold get_level.
  rewrite (bind_run _ _ s s uid (get_state_known clock uid s st H)).
  rewrite (bind_run _ _ s s st (deref_known uid s st H)).
  reflexivity.
Qed.

Lemma get_state_run (uid : string) (s : System) :
  get_state clock uid s = (uid, snd (get_state clock uid s)).
Proof.
  rewrite <- (get_state_ref clock uid s) at 2. apply surjective_pairing.
Qed.

End Hint.

End HintFacts.

(** X28. [get_affection_hint_for_prompt] only reads: it leaves the system as
    [get_state] for the user leaves it. The hint is never empty, since every
    level has a line of its own; and it ends with the line about sulking
    exactly when the record has [is_ignoring] set. *)
Theorem get_affection_hint_for_prompt_lines :
  forall (clock : nat -> Datetime.datetime) (s : AffectionSystem.System)
         (uid : string),
    let st := AffectionSystem.this (entry_focus clock uid s) in
    let r := AffectionSystem.get_affection_hint_for_prompt clock uid s in
    snd r = snd (AffectionSystem.get_state clock uid s) /\
    fst r <> "" /\
    Py.endswith (fst r) "今はすねているので、相手に慰めてもらう必要がある" =
      AffectionState.is_ignoring st.
Proof.
  intros clock s uid st r. subst r st.
  unfold entry_focus. cbn [AffectionSystem.this].
  set (s1 := snd (AffectionSystem.get_state clock uid s)).
  pose proof (get_state_bound clock uid s) as Hbound. fold s1 in Hbound.
  set (st := AffectionSystem.states s1 !!! uid) in *.
  unfold AffectionSystem.get_affection_hint_for_prompt.
  rewrite (HintFacts.bind_run _ _ s s1 uid (HintFacts.get_state_run clock uid s)).
  rewrite (HintFacts.bind_run _ _ s1 s1 _ (HintFacts.get_level_known clock uid s1 st Hbound)).
  rewrite (HintFacts.bind_run _ _ s1 s1 st (HintFacts.deref_known uid s1 st Hbound)).
  rewrite (HintFacts.bind_run _ _ s1 s1 st (HintFacts.deref_known uid s1 st Hbound)).
  cbn [StateMonad.ret fst snd].
  split; [reflexivity|].
  destruct (AffectionLevel.get_level (AffectionState.score st));
    destruct (String.eqb (AffectionState.current_mood st) "happy");
    try destruct (String.eqb (AffectionState.current_mood st) "sad");
    try destruct (String.eqb (AffectionState.current_mood st) "angry");
    try destruct (String.eqb (AffectionState.current_mood st) "jealous");
    destruct (AffectionState.is_ignoring st);
    (split; [vm_compute; discriminate|vm_compute; reflexivity]).
Qed.
